(** * SCMI clock protocol (drivers/firmware/arm_scmi/clock.c)

    A shallow embedding of the clock protocol engine: the wire layouts, the
    per-domain discovery run at initialisation, the command dispatcher and
    the admission control of asynchronous rate changes.

    Integers are [Z] with the C conversions written out, message buffers
    are lists of bytes, the transport is a script of outcomes consumed in
    order, and every function that talks to the transport is a state
    transformer over that script and the trace of calls made so far. *)

From Stdlib Require Import ZArith Lia Bool.
From Stdlib Require Import Sorting.Sorted Sorting.Permutation.
From stdpp Require Import base list.

#[local] Open Scope Z_scope.

(** ** Machine integers *)

Definition to_u8 (x : Z) : Z := x mod 2 ^ 8.
Definition to_u16 (x : Z) : Z := x mod 2 ^ 16.
Definition to_u32 (x : Z) : Z := x mod 2 ^ 32.
Definition to_u64 (x : Z) : Z := x mod 2 ^ 64.
(** Conversion to [int] (two's complement, 32 bits). *)
Definition to_int (x : Z) : Z := (x + 2 ^ 31) mod 2 ^ 32 - 2 ^ 31.

Definition U32_MAX : Z := 2 ^ 32 - 1.

(** [BIT], [GENMASK] and [FIELD_PREP] of linux/bits.h and
    linux/bitfield.h. *)
Definition BIT (n : Z) : Z := Z.shiftl 1 n.
Definition GENMASK (h l : Z) : Z := Z.shiftl (Z.ones (h - l + 1)) l.
(** [FIELD_PREP(GENMASK(h, l), val)]. *)
Definition FIELD_PREP (h l : Z) (val : Z) : Z :=
  Z.land (Z.shiftl val l) (GENMASK h l).

(** C truth value of an integer expression. *)
Definition nonzero (x : Z) : bool := negb (x =? 0).

(** ** Error numbers (include/uapi/asm-generic/errno*.h) *)

Definition ENOMEM : Z := 12.
Definition EACCES : Z := 13.
Definition EINVAL : Z := 22.
Definition EPROTO : Z := 71.
Definition EOPNOTSUPP : Z := 95.
Definition ETIMEDOUT : Z := 110.

(** ** Wire codec: little-endian buffers *)

(** A read past the end of a buffer gives 0. *)
Definition byte_at (buf : list Z) (off : nat) : Z :=
  Z.land (default 0 (buf !! off)) 255.

Definition get_unaligned_le32 (buf : list Z) (off : nat) : Z :=
  Z.lor (byte_at buf off)
    (Z.lor (Z.shiftl (byte_at buf (off + 1)) 8)
       (Z.lor (Z.shiftl (byte_at buf (off + 2)) 16)
              (Z.shiftl (byte_at buf (off + 3)) 24))).

Definition get_unaligned_le64 (buf : list Z) (off : nat) : Z :=
  Z.lor (get_unaligned_le32 buf off)
        (Z.shiftl (get_unaligned_le32 buf (off + 4)) 32).

(** [cpu_to_le32] followed by the store of the four bytes. *)
Definition put_unaligned_le32 (v : Z) : list Z :=
  [ Z.land v 255; Z.land (Z.shiftr v 8) 255;
    Z.land (Z.shiftr v 16) 255; Z.land (Z.shiftr v 24) 255 ].

(** A NUL-terminated string held in a byte buffer. *)
Fixpoint cstring (buf : list Z) : list Z :=
  match buf with
  | [] => []
  | b :: rest => if Z.land b 255 =? 0 then [] else Z.land b 255 :: cstring rest
  end.

(** [strscpy(dst, src, count)]: at most [count - 1] characters of the
    source string; the destination is always terminated. *)
Definition strscpy (src : list Z) (count : nat) : list Z :=
  take (count - 1)%nat (cstring (take count src)).

(** Modelled from the spec: the size constants of
    include/linux/scmi_protocol.h and protocols.h (not among the sources):
    a short name holds at most 16 bytes, an extended name 64, and at most
    16 discrete rates can be enumerated for a domain. *)
Definition SCMI_SHORT_NAME_MAX_SIZE : nat := 16.
Definition SCMI_MAX_STR_SIZE : nat := 64.
Definition SCMI_MAX_NUM_RATES : Z := 16.

(** ** Protocol commands *)

Definition PROTOCOL_VERSION : Z := 0x0.
Definition PROTOCOL_ATTRIBUTES : Z := 0x1.
Definition CLOCK_ATTRIBUTES : Z := 0x3.
Definition CLOCK_DESCRIBE_RATES : Z := 0x4.
Definition CLOCK_RATE_SET : Z := 0x5.
Definition CLOCK_RATE_GET : Z := 0x6.
Definition CLOCK_CONFIG_SET : Z := 0x7.
Definition CLOCK_NAME_GET : Z := 0x8.
Definition CLOCK_RATE_NOTIFY : Z := 0x9.
Definition CLOCK_RATE_CHANGE_REQUESTED_NOTIFY : Z := 0xA.
Definition CLOCK_CONFIG_GET : Z := 0xB.
Definition CLOCK_POSSIBLE_PARENTS_GET : Z := 0xC.
Definition CLOCK_PARENT_SET : Z := 0xD.
Definition CLOCK_PARENT_GET : Z := 0xE.
Definition CLOCK_GET_PERMISSIONS : Z := 0xF.

Definition CLOCK_STATE_CONTROL_ALLOWED : Z := BIT 31.
Definition CLOCK_PARENT_CONTROL_ALLOWED : Z := BIT 30.
Definition CLOCK_RATE_CONTROL_ALLOWED : Z := BIT 29.

Inductive clk_state : Set :=
| CLK_STATE_DISABLE
| CLK_STATE_ENABLE
| CLK_STATE_RESERVED
| CLK_STATE_UNCHANGED.

Definition clk_state_val (s : clk_state) : Z :=
  match s with
  | CLK_STATE_DISABLE => 0
  | CLK_STATE_ENABLE => 1
  | CLK_STATE_RESERVED => 2
  | CLK_STATE_UNCHANGED => 3
  end.

Definition clk_state_eqb (a b : clk_state) : bool :=
  clk_state_val a =? clk_state_val b.

(** Bit accessors of the attribute words. *)
Definition SUPPORTS_RATE_CHANGED_NOTIF (x : Z) : Z := Z.land x (BIT 31).
Definition SUPPORTS_RATE_CHANGE_REQUESTED_NOTIF (x : Z) : Z := Z.land x (BIT 30).
Definition SUPPORTS_EXTENDED_NAMES (x : Z) : Z := Z.land x (BIT 29).
Definition SUPPORTS_PARENT_CLOCK (x : Z) : Z := Z.land x (BIT 28).
Definition SUPPORTS_GET_PERMISSIONS (x : Z) : Z := Z.land x (BIT 1).

Definition NUM_PARENTS_RETURNED (x : Z) : Z := Z.land x 0xff.
Definition NUM_PARENTS_REMAINING (x : Z) : Z := Z.shiftr x 24.

Definition NULL_OEM_TYPE : Z := 0.
(** [REGMASK_OEM_TYPE_SET] is [GENMASK(23, 16)], [REGMASK_CLK_STATE] is
    [GENMASK(1, 0)], [REGMASK_OEM_TYPE_GET] is [GENMASK(7, 0)]. *)
Definition IS_CLK_ENABLED (x : Z) : bool := nonzero (Z.land x (BIT 0)).

Definition NUM_RETURNED (x : Z) : Z := Z.land x 0xfff.
Definition RATE_DISCRETE (x : Z) : bool := negb (nonzero (Z.land x (BIT 12))).
Definition NUM_REMAINING (x : Z) : Z := Z.shiftr x 16.

(** [RATE_TO_U64(r->rate[i])] on the raw reply: entry [i] sits after the
    four-byte [num_rates_flags] word, eight bytes per entry. *)
Definition RATE_TO_U64 (resp : list Z) (i : nat) : Z :=
  Z.lor (get_unaligned_le32 resp (4 + 8 * i))
        (Z.shiftl (get_unaligned_le32 resp (4 + 8 * i + 4)) 32).

Definition CLOCK_SET_ASYNC : Z := BIT 0.
Definition CLOCK_SET_IGNORE_RESP : Z := BIT 1.
Definition CLOCK_SET_ROUND_UP : Z := BIT 2.
Definition CLOCK_SET_ROUND_AUTO : Z := BIT 3.

(** Modelled from the spec: [PROTOCOL_REV_MAJOR] and [PROTOCOL_REV_MINOR]
    (protocols.h is not among the sources).  The negotiated version is a
    major.minor pair held in one 32-bit word, the major number in the high
    half and the minor number in the low half, as in
    [SCMI_PROTOCOL_SUPPORTED_VERSION = 0x20001] for version 2.1. *)
Definition PROTOCOL_REV_MAJOR (x : Z) : Z := to_u16 (Z.shiftr (to_u32 x) 16).
Definition PROTOCOL_REV_MINOR (x : Z) : Z := Z.land (to_u32 x) 0xffff.

(** ** The transport collaborator *)

(** Modelled from the spec: the transport collaborator (its functions live
    in driver.c, which is not among the sources).  The engine sees it
    through [xfer_get_init] (allocate a transfer for a command), [do_xfer]
    (send and wait), [do_xfer_with_response] (send and wait for the delayed
    reply) and [xfer_put] (release).  Its behaviour is a script: the return
    codes of the coming [xfer_get_init] calls, the outcomes of the coming
    round trips, the outcomes of the coming memory allocations, and the
    return codes of the coming [set_priv] calls.  An exhausted script
    means: allocation of a transfer succeeds, memory allocation succeeds,
    [set_priv] succeeds, and a round trip times out.  Every call that
    concerns a transfer is recorded in a trace. *)
Record scmi_xfer := mk_xfer {
  hdr_id : Z;
  tx_buf : list Z;
  poll_completion : bool;
  delayed_response : bool
}.

Record scmi_reply := mk_reply {
  status : Z;            (* return value of do_xfer *)
  rx_buf : list Z        (* reply payload; rx.len is its length *)
}.

Inductive event : Type :=
| EvGetInit (msg_id : Z) (ret : Z)
| EvXfer (t : scmi_xfer)
| EvPut (msg_id : Z).

Record world := mk_world {
  inits : list Z;
  replies : list scmi_reply;
  allocs : list bool;
  privs : list Z;
  trace : list event
}.

Definition M (A : Type) : Type := world -> A * world.

Definition ret {A} (a : A) : M A := fun w => (a, w).
Definition bind {A B} (m : M A) (k : A -> M B) : M B :=
  fun w => let (a, w') := m w in k a w'.

Declare Scope scmi_scope.
Delimit Scope scmi_scope with scmi.
Notation "x <- m ;; k" := (bind m (fun x => k))
  (at level 100, m at next level, right associativity) : scmi_scope.
Notation "m ;;; k" := (bind m (fun _ => k))
  (at level 100, right associativity) : scmi_scope.
#[local] Open Scope scmi_scope.

Definition log (e : event) : M unit := fun w =>
  (tt, mk_world (inits w) (replies w) (allocs w) (privs w) (trace w ++ [e])).

(** What the script holds for the next [xfer_get_init] and for the next
    round trip. *)
Definition next_init (rs : list Z) : Z :=
  match rs with [] => 0 | r :: _ => r end.

Definition timeout_reply : scmi_reply := mk_reply (- ETIMEDOUT) [].

Definition next_reply (rs : list scmi_reply) : scmi_reply :=
  match rs with [] => timeout_reply | r :: _ => r end.

Definition xfer_get_init (msg_id : Z) : M Z := fun w =>
  (next_init (inits w),
   mk_world (tail (inits w)) (replies w) (allocs w) (privs w)
            (trace w ++ [EvGetInit msg_id (next_init (inits w))])).

Definition do_xfer (t : scmi_xfer) : M scmi_reply := fun w =>
  (next_reply (replies w),
   mk_world (inits w) (tail (replies w)) (allocs w) (privs w)
            (trace w ++ [EvXfer t])).

(** The asynchronous variant waits for the delayed response; the reply
    buffer then holds that response. *)
Definition do_xfer_with_response (t : scmi_xfer) : M scmi_reply :=
  do_xfer (mk_xfer (hdr_id t) (tx_buf t) (poll_completion t) true).

Definition xfer_put (t : scmi_xfer) : M unit := log (EvPut (hdr_id t)).

(** [devm_kzalloc] / [devm_kcalloc]: [true] when the memory was obtained. *)
Definition next_alloc (rs : list bool) : bool :=
  match rs with [] => true | r :: _ => r end.

Definition devm_alloc : M bool := fun w =>
  (next_alloc (allocs w),
   mk_world (inits w) (replies w) (tail (allocs w)) (privs w) (trace w)).

(** Modelled from the spec: [set_priv] of the protocol handle (driver.c is
    not among the sources), through which initialisation hands its table
    and the version to the handle.  The spec has no word on its outcome,
    so its return code is one more scripted outcome of the handle. *)
Definition set_priv : M Z := fun w =>
  (next_init (privs w),
   mk_world (inits w) (replies w) (allocs w) (tail (privs w)) (trace w)).

(** The requests that went on the wire, in order. *)
Definition sent (tr : list event) : list scmi_xfer :=
  omap (fun e => match e with EvXfer t => Some t | _ => None end) tr.

(** The commands for which a transfer was requested, in order. *)
Definition attempted (tr : list event) : list Z :=
  omap (fun e => match e with EvGetInit m _ => Some m | _ => None end) tr.

(** ** Data model *)

(** Modelled from the spec: [struct scmi_clock_info]
    (include/linux/scmi_protocol.h is not among the sources), with the
    fields clock.c reads and writes: the name, the enable latency, the
    capability flags, the discrete rate list ([list.num_rates],
    [list.rates], an array of [SCMI_MAX_NUM_RATES] entries), the continuous
    range ([range.min_rate], [range.max_rate], [range.step_size]) and the
    parent list.  The name is kept as the string the character array
    holds, so [name = []] is [!clk->name[0]]. *)
Record scmi_clock_info := mk_clk {
  name : list Z;
  enable_latency : Z;
  rate_discrete : bool;
  rate_changed_notifications : bool;
  rate_change_requested_notifications : bool;
  state_ctrl_forbidden : bool;
  rate_ctrl_forbidden : bool;
  parent_ctrl_forbidden : bool;
  list_num_rates : Z;
  list_rates : list Z;
  range_min_rate : Z;
  range_max_rate : Z;
  range_step_size : Z;
  num_parents : Z;
  parents : list Z
}.

(** A domain record as [devm_kcalloc] hands it out. *)
Definition clk_zero : scmi_clock_info :=
  mk_clk [] 0 false false false false false false
         0 (replicate (Z.to_nat SCMI_MAX_NUM_RATES) 0) 0 0 0 0 [].

Definition set_name (v : list Z) (c : scmi_clock_info) :=
  mk_clk v (enable_latency c) (rate_discrete c) (rate_changed_notifications c)
    (rate_change_requested_notifications c) (state_ctrl_forbidden c)
    (rate_ctrl_forbidden c) (parent_ctrl_forbidden c) (list_num_rates c)
    (list_rates c) (range_min_rate c) (range_max_rate c) (range_step_size c)
    (num_parents c) (parents c).
Definition set_enable_latency (v : Z) (c : scmi_clock_info) :=
  mk_clk (name c) v (rate_discrete c) (rate_changed_notifications c)
    (rate_change_requested_notifications c) (state_ctrl_forbidden c)
    (rate_ctrl_forbidden c) (parent_ctrl_forbidden c) (list_num_rates c)
    (list_rates c) (range_min_rate c) (range_max_rate c) (range_step_size c)
    (num_parents c) (parents c).
Definition set_rate_discrete (v : bool) (c : scmi_clock_info) :=
  mk_clk (name c) (enable_latency c) v (rate_changed_notifications c)
    (rate_change_requested_notifications c) (state_ctrl_forbidden c)
    (rate_ctrl_forbidden c) (parent_ctrl_forbidden c) (list_num_rates c)
    (list_rates c) (range_min_rate c) (range_max_rate c) (range_step_size c)
    (num_parents c) (parents c).
Definition set_rate_changed_notifications (v : bool) (c : scmi_clock_info) :=
  mk_clk (name c) (enable_latency c) (rate_discrete c) v
    (rate_change_requested_notifications c) (state_ctrl_forbidden c)
    (rate_ctrl_forbidden c) (parent_ctrl_forbidden c) (list_num_rates c)
    (list_rates c) (range_min_rate c) (range_max_rate c) (range_step_size c)
    (num_parents c) (parents c).
Definition set_rate_change_requested_notifications (v : bool)
    (c : scmi_clock_info) :=
  mk_clk (name c) (enable_latency c) (rate_discrete c)
    (rate_changed_notifications c) v (state_ctrl_forbidden c)
    (rate_ctrl_forbidden c) (parent_ctrl_forbidden c) (list_num_rates c)
    (list_rates c) (range_min_rate c) (range_max_rate c) (range_step_size c)
    (num_parents c) (parents c).
Definition set_permissions (st rt pt : bool) (c : scmi_clock_info) :=
  mk_clk (name c) (enable_latency c) (rate_discrete c)
    (rate_changed_notifications c) (rate_change_requested_notifications c)
    st rt pt (list_num_rates c)
    (list_rates c) (range_min_rate c) (range_max_rate c) (range_step_size c)
    (num_parents c) (parents c).
Definition set_list (n : Z) (rs : list Z) (c : scmi_clock_info) :=
  mk_clk (name c) (enable_latency c) (rate_discrete c)
    (rate_changed_notifications c) (rate_change_requested_notifications c)
    (state_ctrl_forbidden c) (rate_ctrl_forbidden c) (parent_ctrl_forbidden c)
    n rs (range_min_rate c) (range_max_rate c) (range_step_size c)
    (num_parents c) (parents c).
Definition set_range (mn mx stp : Z) (c : scmi_clock_info) :=
  mk_clk (name c) (enable_latency c) (rate_discrete c)
    (rate_changed_notifications c) (rate_change_requested_notifications c)
    (state_ctrl_forbidden c) (rate_ctrl_forbidden c) (parent_ctrl_forbidden c)
    (list_num_rates c) (list_rates c) mn mx stp
    (num_parents c) (parents c).
Definition set_parents (n : Z) (ps : list Z) (c : scmi_clock_info) :=
  mk_clk (name c) (enable_latency c) (rate_discrete c)
    (rate_changed_notifications c) (rate_change_requested_notifications c)
    (state_ctrl_forbidden c) (rate_ctrl_forbidden c) (parent_ctrl_forbidden c)
    (list_num_rates c) (list_rates c) (range_min_rate c) (range_max_rate c)
    (range_step_size c) n ps.

(** The out-parameters of the configuration-get calls: [None] is a NULL
    pointer, [Some v] a cell currently holding [v]. *)
Record config_cells := mk_cells {
  attributes_p : option Z;
  enabled_p : option bool;
  oem_val_p : option Z
}.

Definition config_set_fn : Type :=
  Z -> clk_state -> Z -> Z -> bool -> M Z.
Definition config_get_fn : Type :=
  Z -> Z -> config_cells -> bool -> M (Z * config_cells).

(** The two function pointers of [struct clock_info] each point to one of
    two functions of this file; a pointer is the name of its target. *)
Inductive config_set_ptr : Set :=
| PTR_scmi_clock_config_set
| PTR_scmi_clock_config_set_v2.

Inductive config_get_ptr : Set :=
| PTR_scmi_clock_config_get
| PTR_scmi_clock_config_get_v2.

Record clock_info := mk_ci {
  version : Z;
  num_clocks : Z;
  max_async_req : Z;
  cur_async_req : Z;
  clk : list scmi_clock_info;
  clock_config_set : config_set_ptr;
  clock_config_get : config_get_ptr
}.

Definition set_cur_async_req (v : Z) (ci : clock_info) : clock_info :=
  mk_ci (version ci) (num_clocks ci) (max_async_req ci) v (clk ci)
        (clock_config_set ci) (clock_config_get ci).

(** [atomic_inc_return] and [atomic_dec] of the kernel's [atomic_t]
    interface.  The [_return] operations give back the value after the
    update (it is the [atomic_fetch_] operations that give back the value
    before it): [atomic_inc_return] adds one and returns the new value,
    [atomic_dec] subtracts one; both wrap as [int]. *)
Definition atomic_inc_return (v : Z) : Z * Z :=
  let v' := to_int (v + 1) in (v', v').
Definition atomic_dec (v : Z) : Z := to_int (v - 1).

(** ** Command dispatcher *)

Definition scmi_clock_domain_lookup (ci : clock_info) (clk_id : Z)
  : Z + scmi_clock_info :=
  if clk_id >=? to_u32 (num_clocks ci) then inl (- EINVAL)
  else inr (nth (Z.to_nat clk_id) (clk ci) clk_zero).

Definition scmi_clock_rate_get (clk_id : Z) (value : Z) : M (Z * Z) :=
  r <- xfer_get_init CLOCK_RATE_GET ;;
  if nonzero r then ret (r, value) else
  let t := mk_xfer CLOCK_RATE_GET (put_unaligned_le32 clk_id) false false in
  rp <- do_xfer t ;;
  let value' :=
    if nonzero (status rp) then value
    else get_unaligned_le64 (rx_buf rp) 0 in
  xfer_put t ;;;
  ret (status rp, value').

(** Lines 564-566: the admission check. *)
Definition rate_set_flags (ci : clock_info) : Z * clock_info :=
  if nonzero (max_async_req ci) then
    let (v, cur) := atomic_inc_return (cur_async_req ci) in
    (if v <? max_async_req ci then Z.lor 0 CLOCK_SET_ASYNC else 0,
     set_cur_async_req cur ci)
  else (0, ci).

(** Lines 568-572: the request. *)
Definition rate_set_message (flags clk_id rate : Z) : scmi_xfer :=
  mk_xfer CLOCK_RATE_SET
    (put_unaligned_le32 flags ++ put_unaligned_le32 clk_id ++
     put_unaligned_le32 (Z.land rate 0xffffffff) ++
     put_unaligned_le32 (Z.shiftr rate 32)) false false.

(** Lines 574-589: the round trip. *)
Definition rate_set_xfer (t : scmi_xfer) (flags clk_id : Z) : M Z :=
  if nonzero (Z.land flags CLOCK_SET_ASYNC) then
    rp <- do_xfer_with_response t ;;
    if nonzero (status rp) then ret (status rp)
    else if get_unaligned_le32 (rx_buf rp) 0 =? clk_id then ret 0
    else ret (- EPROTO)
  else
    rp <- do_xfer t ;;
    ret (status rp).

(** Lines 591-592: the release of the admission slot. *)
Definition rate_set_done (ci : clock_info) : clock_info :=
  if nonzero (max_async_req ci)
  then set_cur_async_req (atomic_dec (cur_async_req ci)) ci
  else ci.

Definition scmi_clock_rate_set (ci : clock_info) (clk_id rate : Z)
  : M (Z * clock_info) :=
  match scmi_clock_domain_lookup ci clk_id with
  | inl e => ret (e, ci)
  | inr c =>
    if rate_ctrl_forbidden c then ret (- EACCES, ci) else
    r <- xfer_get_init CLOCK_RATE_SET ;;
    if nonzero r then ret (r, ci) else
    let (flags, ci1) := rate_set_flags ci in
    let t := rate_set_message flags clk_id rate in
    r <- rate_set_xfer t flags clk_id ;;
    let ci2 := rate_set_done ci1 in
    xfer_put t ;;;
    ret (r, ci2)
  end.

Definition scmi_clock_config_set : config_set_fn :=
  fun clk_id state _unused0 _unused1 atomic =>
  if clk_state_val state >=? clk_state_val CLK_STATE_RESERVED
  then ret (- EINVAL) else
  r <- xfer_get_init CLOCK_CONFIG_SET ;;
  if nonzero r then ret r else
  let t := mk_xfer CLOCK_CONFIG_SET
             (put_unaligned_le32 clk_id ++
              put_unaligned_le32 (clk_state_val state)) atomic false in
  rp <- do_xfer t ;;
  xfer_put t ;;;
  ret (status rp).

Definition scmi_clock_set_parent (ci : clock_info) (clk_id parent_id : Z)
  : M Z :=
  match scmi_clock_domain_lookup ci clk_id with
  | inl e => ret e
  | inr c =>
    if parent_id >=? to_u32 (num_parents c) then ret (- EINVAL) else
    if parent_ctrl_forbidden c then ret (- EACCES) else
    r <- xfer_get_init CLOCK_PARENT_SET ;;
    if nonzero r then ret r else
    let t := mk_xfer CLOCK_PARENT_SET
               (put_unaligned_le32 clk_id ++
                put_unaligned_le32
                  (nth (Z.to_nat parent_id) (parents c) 0)) false false in
    rp <- do_xfer t ;;
    xfer_put t ;;;
    ret (status rp)
  end.

Definition scmi_clock_get_parent (clk_id : Z) (parent_id : Z) : M (Z * Z) :=
  r <- xfer_get_init CLOCK_PARENT_GET ;;
  if nonzero r then ret (r, parent_id) else
  let t := mk_xfer CLOCK_PARENT_GET (put_unaligned_le32 clk_id) false false in
  rp <- do_xfer t ;;
  let parent_id' :=
    if nonzero (status rp) then parent_id
    else get_unaligned_le32 (rx_buf rp) 0 in
  xfer_put t ;;;
  ret (status rp, parent_id').

(** For SCMI clock v2.1 and onwards. *)
Definition scmi_clock_config_set_v2 : config_set_fn :=
  fun clk_id state oem_type oem_val atomic =>
  if clk_state_eqb state CLK_STATE_RESERVED ||
     (negb (nonzero oem_type) && clk_state_eqb state CLK_STATE_UNCHANGED)
  then ret (- EINVAL) else
  r <- xfer_get_init CLOCK_CONFIG_SET ;;
  if nonzero r then ret r else
  let attrs := Z.lor (FIELD_PREP 23 16 oem_type)
                     (FIELD_PREP 1 0 (clk_state_val state)) in
  let t := mk_xfer CLOCK_CONFIG_SET
             (put_unaligned_le32 clk_id ++ put_unaligned_le32 attrs ++
              put_unaligned_le32 (if nonzero oem_type then oem_val else 0))
             atomic false in
  rp <- do_xfer t ;;
  xfer_put t ;;;
  ret (status rp).

(** A call through [ci->clock_config_set]. *)
Definition call_config_set (f : config_set_ptr) : config_set_fn :=
  match f with
  | PTR_scmi_clock_config_set => scmi_clock_config_set
  | PTR_scmi_clock_config_set_v2 => scmi_clock_config_set_v2
  end.

Definition scmi_clock_enable (ci : clock_info) (clk_id : Z) (atomic : bool)
  : M Z :=
  match scmi_clock_domain_lookup ci clk_id with
  | inl e => ret e
  | inr c =>
    if state_ctrl_forbidden c then ret (- EACCES) else
    call_config_set (clock_config_set ci)
      clk_id CLK_STATE_ENABLE NULL_OEM_TYPE 0 atomic
  end.

Definition scmi_clock_disable (ci : clock_info) (clk_id : Z) (atomic : bool)
  : M Z :=
  match scmi_clock_domain_lookup ci clk_id with
  | inl e => ret e
  | inr c =>
    if state_ctrl_forbidden c then ret (- EACCES) else
    call_config_set (clock_config_set ci)
      clk_id CLK_STATE_DISABLE NULL_OEM_TYPE 0 atomic
  end.

(** [*p = v] through a pointer that may be NULL. *)
Definition store {A} (p : option A) (v : A) : option A :=
  match p with Some _ => Some v | None => None end.

(** For SCMI clock v2.1 and onwards. *)
Definition scmi_clock_config_get_v2 : config_get_fn :=
  fun clk_id oem_type cells atomic =>
  r <- xfer_get_init CLOCK_CONFIG_GET ;;
  if nonzero r then ret (r, cells) else
  let flags := FIELD_PREP 7 0 oem_type in
  let t := mk_xfer CLOCK_CONFIG_GET
             (put_unaligned_le32 clk_id ++ put_unaligned_le32 flags)
             atomic false in
  rp <- do_xfer t ;;
  let cells' :=
    if nonzero (status rp) then cells else
    mk_cells
      (store (attributes_p cells) (get_unaligned_le32 (rx_buf rp) 0))
      (store (enabled_p cells)
             (IS_CLK_ENABLED (get_unaligned_le32 (rx_buf rp) 4)))
      (if nonzero oem_type
       then store (oem_val_p cells) (get_unaligned_le32 (rx_buf rp) 8)
       else oem_val_p cells) in
  xfer_put t ;;;
  ret (status rp, cells').

Definition scmi_clock_config_get : config_get_fn :=
  fun clk_id _oem_type cells atomic =>
  match enabled_p cells with
  | None => ret (- EINVAL, cells)
  | Some _ =>
    r <- xfer_get_init CLOCK_ATTRIBUTES ;;
    if nonzero r then ret (r, cells) else
    let t := mk_xfer CLOCK_ATTRIBUTES (put_unaligned_le32 clk_id)
               atomic false in
    rp <- do_xfer t ;;
    let cells' :=
      if nonzero (status rp) then cells else
      mk_cells (attributes_p cells)
        (Some (IS_CLK_ENABLED (get_unaligned_le32 (rx_buf rp) 0)))
        (oem_val_p cells) in
    xfer_put t ;;;
    ret (status rp, cells')
  end.

(** A call through [ci->clock_config_get]. *)
Definition call_config_get (f : config_get_ptr) : config_get_fn :=
  match f with
  | PTR_scmi_clock_config_get => scmi_clock_config_get
  | PTR_scmi_clock_config_get_v2 => scmi_clock_config_get_v2
  end.

(** [enabled] is the caller's pointer, forwarded as it is: [None] when the
    caller passed NULL. *)
Definition scmi_clock_state_get (ci : clock_info) (clk_id : Z)
    (enabled : option bool) (atomic : bool) : M (Z * config_cells) :=
  call_config_get (clock_config_get ci) clk_id NULL_OEM_TYPE
    (mk_cells None enabled None) atomic.

Definition scmi_clock_config_oem_set (ci : clock_info) (clk_id : Z)
    (oem_type oem_val : Z) (atomic : bool) : M Z :=
  call_config_set (clock_config_set ci)
    clk_id CLK_STATE_UNCHANGED oem_type oem_val atomic.

Definition scmi_clock_config_oem_get (ci : clock_info) (clk_id : Z)
    (oem_type : Z) (oem_val attributes : option Z) (atomic : bool)
  : M (Z * config_cells) :=
  call_config_get (clock_config_get ci) clk_id oem_type
    (mk_cells attributes None oem_val) atomic.

Definition scmi_clock_count_get (ci : clock_info) : Z := num_clocks ci.

Definition scmi_clock_info_get (ci : clock_info) (clk_id : Z)
  : option scmi_clock_info :=
  match scmi_clock_domain_lookup ci clk_id with
  | inl _ => None
  | inr c =>
    match name c with
    | [] => None
    | _ :: _ => Some c
    end
  end.

(** ** Paginated iterator *)

Record scmi_iterator_state := mk_st {
  desc_index : Z;
  num_returned : Z;
  num_remaining : Z;
  max_resources : Z;
  loop_idx : Z;
  rx_len : Z
}.

Definition set_returned (ret_n rem_n : Z) (st : scmi_iterator_state) :=
  mk_st (desc_index st) ret_n rem_n (max_resources st) (loop_idx st) (rx_len st).
Definition set_max_resources (v : Z) (st : scmi_iterator_state) :=
  mk_st (desc_index st) (num_returned st) (num_remaining st) v (loop_idx st)
        (rx_len st).
Definition set_loop_idx (v : Z) (st : scmi_iterator_state) :=
  mk_st (desc_index st) (num_returned st) (num_remaining st) (max_resources st)
        v (rx_len st).
Definition set_desc_index (v : Z) (st : scmi_iterator_state) :=
  mk_st v (num_returned st) (num_remaining st) (max_resources st) (loop_idx st)
        (rx_len st).
Definition set_rx_len (v : Z) (st : scmi_iterator_state) :=
  mk_st (desc_index st) (num_returned st) (num_remaining st) (max_resources st)
        (loop_idx st) v.

(** [struct scmi_clk_ipriv]: the domain id and the domain record the
    callbacks fill in. *)
Record scmi_clk_ipriv := mk_priv {
  priv_clk_id : Z;
  priv_clk : scmi_clock_info
}.

Record scmi_iterator_ops := mk_ops {
  prepare_message : Z -> scmi_clk_ipriv -> list Z;
  update_state : scmi_iterator_state -> list Z -> scmi_clk_ipriv ->
                 M (Z * (scmi_iterator_state * scmi_clk_ipriv));
  process_response : list Z -> scmi_iterator_state -> scmi_clk_ipriv ->
                     Z * scmi_clk_ipriv
}.

Record scmi_iterator := mk_iter {
  iter_ops : scmi_iterator_ops;
  iter_msg_id : Z;
  iter_state : scmi_iterator_state;
  iter_priv : scmi_clk_ipriv
}.

(** Modelled from the spec: the generic paginated iterator
    ([iter_response_init] and [iter_response_run] live in driver.c, which is
    not among the sources).  The resume index starts at 0.  Each round sends
    the request prepared for the resume index, decodes returned/remaining
    through [update_state], calls [process_response] once per returned item
    and advances the resume index by the returned count.  The run ends when
    nothing remains or when the cap is reached.  A transport failure or a
    callback failure aborts the run and is returned.

    The spec says no more than that.  The callbacks of clock.c store at
    [desc_index + loop_idx] with no check of their own, so a reply that
    announces more items than the cap leaves room for would make them
    write past their array, which has no meaning in C.  The model closes
    that gap with a guard the spec does not state: such a reply ends the
    run with [-EINVAL] before anything is stored. *)
Definition iter_response_init (ops : scmi_iterator_ops)
    (max_res msg_id : Z) (priv : scmi_clk_ipriv) : M (Z + scmi_iterator) :=
  r <- xfer_get_init msg_id ;;
  if nonzero r then ret (inl r)
  else ret (inr (mk_iter ops msg_id (mk_st 0 0 0 max_res 0 0) priv)).

Fixpoint iter_process (ops : scmi_iterator_ops) (resp : list Z) (n : nat)
    (st : scmi_iterator_state) (p : scmi_clk_ipriv)
  : Z * (scmi_iterator_state * scmi_clk_ipriv) :=
  match n with
  | O => (0, (st, p))
  | S n' =>
    let (r, p') := process_response ops resp st p in
    if nonzero r then (r, (st, p'))
    else iter_process ops resp n' (set_loop_idx (loop_idx st + 1) st) p'
  end.

Fixpoint iter_loop (fuel : nat) (ops : scmi_iterator_ops) (msg_id : Z)
    (st : scmi_iterator_state) (p : scmi_clk_ipriv)
  : M (Z * scmi_clk_ipriv) :=
  match fuel with
  | O => ret (- ETIMEDOUT, p)
  | S fuel' =>
    let t := mk_xfer msg_id (prepare_message ops (desc_index st) p)
               false false in
    rp <- do_xfer t ;;
    if nonzero (status rp) then ret (status rp, p) else
    let st1 := set_rx_len (Z.of_nat (length (rx_buf rp))) st in
    u <- update_state ops st1 (rx_buf rp) p ;;
    let st2 := fst (snd u) in
    let p2 := snd (snd u) in
    if nonzero (fst u) then ret (fst u, p2) else
    if num_returned st2 >? to_u32 (max_resources st2 - desc_index st2)
    then ret (- EINVAL, p2) else
    let x := iter_process ops (rx_buf rp) (Z.to_nat (num_returned st2))
               (set_loop_idx 0 st2) p2 in
    let st3 := fst (snd x) in
    let p3 := snd (snd x) in
    if nonzero (fst x) then ret (fst x, p3) else
    let st4 := set_desc_index (to_u32 (desc_index st3 + num_returned st3))
                 st3 in
    if nonzero (num_remaining st4) && (desc_index st4 <? max_resources st4)
    then iter_loop fuel' ops msg_id st4 p3
    else ret (0, p3)
  end.

(** Every round consumes one scripted outcome, and an exhausted script is a
    transport failure, so one round more than the script is long is
    enough. *)
Definition iter_response_run (i : scmi_iterator) : M (Z * scmi_clk_ipriv) :=
  fun w =>
    (x <- iter_loop (S (length (replies w))) (iter_ops i) (iter_msg_id i)
            (iter_state i) (iter_priv i) ;;
     log (EvPut (iter_msg_id i)) ;;;
     ret x) w.

(** ** Domain model builder *)

Definition get_unaligned_le16 (buf : list Z) (off : nat) : Z :=
  Z.lor (byte_at buf off) (Z.shiftl (byte_at buf (off + 1)) 8).

(** Returns the status with [num_clocks] and [max_async_req]. *)
Definition scmi_clock_protocol_attributes_get (num_clocks0 max_async0 : Z)
  : M (Z * (Z * Z)) :=
  r <- xfer_get_init PROTOCOL_ATTRIBUTES ;;
  if nonzero r then ret (r, (num_clocks0, max_async0)) else
  let t := mk_xfer PROTOCOL_ATTRIBUTES [] false false in
  rp <- do_xfer t ;;
  let res :=
    if nonzero (status rp) then (num_clocks0, max_async0)
    else (get_unaligned_le16 (rx_buf rp) 0, byte_at (rx_buf rp) 2) in
  xfer_put t ;;;
  ret (status rp, res).

Definition iter_clk_possible_parents_prepare_message (desc_idx : Z)
    (p : scmi_clk_ipriv) : list Z :=
  put_unaligned_le32 (priv_clk_id p) ++ put_unaligned_le32 desc_idx.

Definition iter_clk_possible_parents_update_state (st : scmi_iterator_state)
    (response : list Z) (p : scmi_clk_ipriv)
  : M (Z * (scmi_iterator_state * scmi_clk_ipriv)) :=
  let flags := get_unaligned_le32 response 0 in
  let st := set_returned (NUM_PARENTS_RETURNED flags)
                         (NUM_PARENTS_REMAINING flags) st in
  if negb (nonzero (max_resources st)) then
    let n := to_u32 (num_returned st + num_remaining st) in
    ok <- devm_alloc ;;
    if negb ok then
      ret (- ENOMEM,
           (st, mk_priv (priv_clk_id p) (set_parents 0 [] (priv_clk p))))
    else
      ret (0, (set_max_resources n st,
               mk_priv (priv_clk_id p)
                 (set_parents n (replicate (Z.to_nat n) 0) (priv_clk p))))
  else ret (0, (st, p)).

Definition iter_clk_possible_parents_process_response (response : list Z)
    (st : scmi_iterator_state) (p : scmi_clk_ipriv) : Z * scmi_clk_ipriv :=
  let c := priv_clk p in
  let idx := Z.to_nat (to_u32 (desc_index st + loop_idx st)) in
  let v := get_unaligned_le32 response (4 + 4 * Z.to_nat (loop_idx st)) in
  (0, mk_priv (priv_clk_id p)
        (set_parents (num_parents c) (<[idx := v]> (parents c)) c)).

Definition possible_parents_ops : scmi_iterator_ops :=
  mk_ops iter_clk_possible_parents_prepare_message
         iter_clk_possible_parents_update_state
         iter_clk_possible_parents_process_response.

Definition scmi_clock_possible_parents (clk_id : Z) (c : scmi_clock_info)
  : M (Z * scmi_clock_info) :=
  it <- iter_response_init possible_parents_ops 0
          CLOCK_POSSIBLE_PARENTS_GET (mk_priv clk_id c) ;;
  match it with
  | inl e => ret (e, c)
  | inr i =>
    x <- iter_response_run i ;;
    ret (fst x, priv_clk (snd x))
  end.

Definition scmi_clock_get_permissions (clk_id : Z) (c : scmi_clock_info)
  : M (Z * scmi_clock_info) :=
  r <- xfer_get_init CLOCK_GET_PERMISSIONS ;;
  if nonzero r then ret (r, c) else
  let t := mk_xfer CLOCK_GET_PERMISSIONS (put_unaligned_le32 clk_id)
             false false in
  rp <- do_xfer t ;;
  let c' :=
    if nonzero (status rp) then c else
    let perm := get_unaligned_le32 (rx_buf rp) 0 in
    set_permissions
      (negb (nonzero (Z.land perm CLOCK_STATE_CONTROL_ALLOWED)))
      (negb (nonzero (Z.land perm CLOCK_RATE_CONTROL_ALLOWED)))
      (negb (nonzero (Z.land perm CLOCK_PARENT_CONTROL_ALLOWED))) c in
  xfer_put t ;;;
  ret (status rp, c').

(** Modelled from the spec: the extended-name fetch primitive of the
    transport ([extended_name_get] lives in driver.c, which is not among the
    sources), keyed by command and domain id and returning a string of at
    most [len] bytes, terminator included, which sits after a four-byte
    flags word of the reply.  On failure the name is left as it was. *)
Definition extended_name_get (cmd_id res_id : Z) (nm : list Z) (len : nat)
  : M (Z * list Z) :=
  r <- xfer_get_init cmd_id ;;
  if nonzero r then ret (r, nm) else
  let t := mk_xfer cmd_id (put_unaligned_le32 res_id) false false in
  rp <- do_xfer t ;;
  let nm' :=
    if nonzero (status rp) then nm
    else strscpy (drop 4 (rx_buf rp)) len in
  xfer_put t ;;;
  ret (status rp, nm').

(** Lines 349-357: the base attributes decoded from a successful reply. *)
Definition attributes_decode (rx : list Z) (version : Z)
    (c : scmi_clock_info) : scmi_clock_info :=
  let latency :=
    if PROTOCOL_REV_MAJOR version >=? 0x2
    then get_unaligned_le32 rx 20 else 0 in
  set_enable_latency (if nonzero latency then latency else U32_MAX)
    (set_name (strscpy (drop 4 rx) SCMI_SHORT_NAME_MAX_SIZE) c).

(** Lines 365-379: the optional refinements. *)
Definition attributes_refine (clk_id attributes : Z) (c : scmi_clock_info)
  : M scmi_clock_info :=
  c1 <- (if nonzero (SUPPORTS_EXTENDED_NAMES attributes)
         then x <- extended_name_get CLOCK_NAME_GET clk_id (name c)
                     SCMI_MAX_STR_SIZE ;;
              ret (set_name (snd x) c)
         else ret c) ;;
  let c2 := if nonzero (SUPPORTS_RATE_CHANGED_NOTIF attributes)
            then set_rate_changed_notifications true c1 else c1 in
  let c3 := if nonzero (SUPPORTS_RATE_CHANGE_REQUESTED_NOTIF attributes)
            then set_rate_change_requested_notifications true c2 else c2 in
  c4 <- (if nonzero (SUPPORTS_PARENT_CLOCK attributes)
         then x <- scmi_clock_possible_parents clk_id c3 ;; ret (snd x)
         else ret c3) ;;
  (if nonzero (SUPPORTS_GET_PERMISSIONS attributes)
   then x <- scmi_clock_get_permissions clk_id c4 ;; ret (snd x)
   else ret c4).

Definition scmi_clock_attributes_get (clk_id : Z) (c : scmi_clock_info)
    (version : Z) : M (Z * scmi_clock_info) :=
  r <- xfer_get_init CLOCK_ATTRIBUTES ;;
  if nonzero r then ret (r, c) else
  let t := mk_xfer CLOCK_ATTRIBUTES (put_unaligned_le32 clk_id)
             false false in
  rp <- do_xfer t ;;
  let attributes := get_unaligned_le32 (rx_buf rp) 0 in
  let c1 := if nonzero (status rp) then c
            else attributes_decode (rx_buf rp) version c in
  xfer_put t ;;;
  if negb (nonzero (status rp)) && (PROTOCOL_REV_MAJOR version >=? 0x2)
  then c2 <- attributes_refine clk_id attributes c1 ;; ret (status rp, c2)
  else ret (status rp, c1).

Definition rate_cmp_func (r1 r2 : Z) : Z :=
  if r1 <? r2 then -1
  else if r1 =? r2 then 0
  else 1.

Definition iter_clk_describe_prepare_message (desc_idx : Z)
    (p : scmi_clk_ipriv) : list Z :=
  put_unaligned_le32 (priv_clk_id p) ++ put_unaligned_le32 desc_idx.

(** The size of the reply header plus [sizeof(__le32) * 2 * 3]: the
    [num_rates_flags] word and three rate entries. *)
Definition describe_rates_triplet_len : Z := 4 + 4 * 2 * 3.

Definition iter_clk_describe_update_state (st : scmi_iterator_state)
    (response : list Z) (p : scmi_clk_ipriv)
  : Z * (scmi_iterator_state * scmi_clk_ipriv) :=
  let flags := get_unaligned_le32 response 0 in
  let st := set_returned (NUM_RETURNED flags) (NUM_REMAINING flags) st in
  let p := mk_priv (priv_clk_id p)
             (set_rate_discrete (RATE_DISCRETE flags) (priv_clk p)) in
  if negb (rate_discrete (priv_clk p)) &&
     (negb (num_returned st =? 3) || negb (num_remaining st =? 0))
  then
    if negb (num_returned st =? 3) && (num_remaining st =? 0) &&
       (rx_len st =? describe_rates_triplet_len)
    then (0, (set_returned 3 0 st, p))
    else (- EPROTO, (st, p))
  else (0, (st, p)).

Definition iter_clk_describe_process_response (response : list Z)
    (st : scmi_iterator_state) (p : scmi_clk_ipriv) : Z * scmi_clk_ipriv :=
  let c := priv_clk p in
  let idx := to_u32 (desc_index st + loop_idx st) in
  if negb (rate_discrete c) then
    if idx =? 0 then
      (0, mk_priv (priv_clk_id p)
            (set_range (RATE_TO_U64 response 0) (range_max_rate c)
                       (range_step_size c) c))
    else if idx =? 1 then
      (0, mk_priv (priv_clk_id p)
            (set_range (range_min_rate c) (RATE_TO_U64 response 1)
                       (range_step_size c) c))
    else if idx =? 2 then
      (0, mk_priv (priv_clk_id p)
            (set_range (range_min_rate c) (range_max_rate c)
                       (RATE_TO_U64 response 2) c))
    else (- EINVAL, p)
  else
    (0, mk_priv (priv_clk_id p)
          (set_list (to_int (list_num_rates c + 1))
             (<[Z.to_nat idx := RATE_TO_U64 response (Z.to_nat (loop_idx st))]>
                (list_rates c)) c)).

Definition describe_rates_ops : scmi_iterator_ops :=
  mk_ops iter_clk_describe_prepare_message
         (fun st response p =>
            ret (iter_clk_describe_update_state st response p))
         iter_clk_describe_process_response.

(** Modelled from the spec: [sort()] (lib/sort.c is not among the sources)
    puts the first [num] elements of the array in ascending order of the
    comparison callback; elements are moved, never dropped or
    duplicated. *)
Fixpoint sort_insert (cmp_func : Z -> Z -> Z) (x : Z) (l : list Z) : list Z :=
  match l with
  | [] => [x]
  | y :: l' =>
    if cmp_func x y <=? 0 then x :: y :: l'
    else y :: sort_insert cmp_func x l'
  end.

Definition sort (base : list Z) (num : nat) (cmp_func : Z -> Z -> Z)
  : list Z :=
  foldr (sort_insert cmp_func) [] (take num base) ++ drop num base.

Definition scmi_clock_describe_rates_get (clk_id : Z) (c : scmi_clock_info)
  : M (Z * scmi_clock_info) :=
  it <- iter_response_init describe_rates_ops SCMI_MAX_NUM_RATES
          CLOCK_DESCRIBE_RATES (mk_priv clk_id c) ;;
  match it with
  | inl e => ret (e, c)
  | inr i =>
    x <- iter_response_run i ;;
    let c1 := priv_clk (snd x) in
    if nonzero (fst x) then ret (fst x, c1) else
    if negb (rate_discrete c1) then ret (fst x, c1)
    else if nonzero (list_num_rates c1) then
      ret (fst x,
           set_list (list_num_rates c1)
             (sort (list_rates c1) (Z.to_nat (list_num_rates c1))
                   rate_cmp_func) c1)
    else ret (fst x, c1)
  end.

(** Modelled from the spec: the transport's negotiated-version query
    ([version_get] lives in driver.c, which is not among the sources): one
    [PROTOCOL_VERSION] exchange whose reply carries the version word. *)
Definition version_get : M (Z * Z) :=
  r <- xfer_get_init PROTOCOL_VERSION ;;
  if nonzero r then ret (r, 0) else
  let t := mk_xfer PROTOCOL_VERSION [] false false in
  rp <- do_xfer t ;;
  xfer_put t ;;;
  ret (status rp,
       if nonzero (status rp) then 0 else get_unaligned_le32 (rx_buf rp) 0).

(** Lines 1022-1026: the discovery of one domain. *)
Definition init_domain (clkid version : Z) (c : scmi_clock_info)
  : M scmi_clock_info :=
  x <- scmi_clock_attributes_get clkid c version ;;
  if nonzero (fst x) then ret (snd x)
  else y <- scmi_clock_describe_rates_get clkid (snd x) ;; ret (snd y).

(** Lines 1021-1027: the per-domain loop, [n] domains left from [clkid]. *)
Fixpoint init_domains (n : nat) (clkid : Z) (version : Z)
    (clks : list scmi_clock_info) : M (list scmi_clock_info) :=
  match n with
  | O => ret clks
  | S n' =>
    let c := nth (Z.to_nat clkid) clks clk_zero in
    c' <- init_domain clkid version c ;;
    init_domains n' (clkid + 1) version (<[Z.to_nat clkid := c']> clks)
  end.

(** Lines 1029-1036: the configuration message variant. *)
Definition select_config (version : Z) : config_set_ptr * config_get_ptr :=
  if (PROTOCOL_REV_MAJOR version >=? 0x2) &&
     (PROTOCOL_REV_MINOR version >=? 0x1)
  then (PTR_scmi_clock_config_set_v2, PTR_scmi_clock_config_get_v2)
  else (PTR_scmi_clock_config_set, PTR_scmi_clock_config_get).

Definition scmi_clock_protocol_init : M (Z * option clock_info) :=
  v <- version_get ;;
  if nonzero (fst v) then ret (fst v, None) else
  let version := snd v in
  ok <- devm_alloc ;;
  if negb ok then ret (- ENOMEM, None) else
  a <- scmi_clock_protocol_attributes_get 0 0 ;;
  if nonzero (fst a) then ret (fst a, None) else
  let num_clocks := fst (snd a) in
  let max_async := snd (snd a) in
  ok <- devm_alloc ;;
  if negb ok then ret (- ENOMEM, None) else
  let clks0 := replicate (Z.to_nat num_clocks) clk_zero in
  clks <- init_domains (Z.to_nat num_clocks) 0 version clks0 ;;
  let sel := select_config version in
  let cinfo := mk_ci version num_clocks max_async 0 clks (fst sel) (snd sel) in
  r <- set_priv ;;
  ret (r, if nonzero r then None else Some cinfo).

(** ** Event adapter *)

Definition evt_2_cmd : list Z :=
  [CLOCK_RATE_NOTIFY; CLOCK_RATE_CHANGE_REQUESTED_NOTIFY].

(** Modelled from the spec: the two event kinds and the report record
    ([SCMI_EVENT_CLOCK_RATE_CHANGED], [SCMI_EVENT_CLOCK_RATE_CHANGE_REQUESTED]
    and [struct scmi_clock_rate_notif_report] are declared in
    include/linux/scmi_protocol.h, which is not among the sources): the
    kinds are numbered 0 and 1, in the order of [evt_2_cmd] and
    [clk_events], and a report holds a timestamp, an agent id, a clock id
    and a 64-bit rate. *)
Definition SCMI_EVENT_CLOCK_RATE_CHANGED : Z := 0x0.
Definition SCMI_EVENT_CLOCK_RATE_CHANGE_REQUESTED : Z := 0x1.

Record scmi_clock_rate_notif_report := mk_report {
  timestamp : Z;
  agent_id : Z;
  clock_id : Z;
  rate : Z
}.

Definition scmi_clk_rate_notify (clk_id message_id : Z) (enable : bool)
  : M Z :=
  r <- xfer_get_init message_id ;;
  if nonzero r then ret r else
  let t := mk_xfer message_id
             (put_unaligned_le32 clk_id ++
              put_unaligned_le32 (if enable then BIT 0 else 0))
             false false in
  rp <- do_xfer t ;;
  xfer_put t ;;;
  ret (status rp).

Definition scmi_clk_set_notify_enabled (evt_id src_id : Z) (enable : bool)
  : M Z :=
  if evt_id >=? Z.of_nat (length evt_2_cmd) then ret (- EINVAL) else
  let cmd_id := nth (Z.to_nat evt_id) evt_2_cmd 0 in
  scmi_clk_rate_notify src_id cmd_id enable.

(** [sizeof(struct scmi_clock_rate_notify_payld)]: four 32-bit words. *)
Definition rate_notify_payld_size : Z := 16.

(** The report and the source id it fills in, or [None] for NULL, in which
    case neither is written. *)
Definition scmi_clk_fill_custom_report (evt_id : Z) (tstamp : Z)
    (payld : list Z) (payld_sz : Z)
  : option (scmi_clock_rate_notif_report * Z) :=
  if negb (rate_notify_payld_size =? payld_sz) ||
     (negb (evt_id =? SCMI_EVENT_CLOCK_RATE_CHANGED) &&
      negb (evt_id =? SCMI_EVENT_CLOCK_RATE_CHANGE_REQUESTED))
  then None
  else
    let r := mk_report tstamp
               (get_unaligned_le32 payld 0)
               (get_unaligned_le32 payld 4)
               (get_unaligned_le64 payld 8) in
    Some (r, clock_id r).

(** [ci] is [None] when the protocol has no private data yet. *)
Definition scmi_clk_get_num_sources (ci : option clock_info) : Z :=
  match ci with
  | None => - EINVAL
  | Some ci => num_clocks ci
  end.

(** ** Concurrent rate changes

    Calls of [scmi_clock_rate_set] that run concurrently share
    [cur_async_req].  Each call touches it in two atomic steps, the
    admission check and the release, and waits for the transport in
    between.  A configuration is the shared [clock_info] with the flags of
    the calls that passed admission and have not released yet. *)

Definition rate_set_conf : Type := clock_info * list Z.

Inductive rate_set_step : rate_set_conf -> rate_set_conf -> Prop :=
| step_admit ci fl :
    rate_set_step (ci, fl)
                  (snd (rate_set_flags ci), fl ++ [fst (rate_set_flags ci)])
| step_release ci fl1 f fl2 :
    rate_set_step (ci, fl1 ++ f :: fl2) (rate_set_done ci, fl1 ++ fl2).

(** The configurations reachable from [ci0] with no call in flight. *)
Inductive rate_set_reach (ci0 : clock_info) : rate_set_conf -> Prop :=
| reach_init : rate_set_reach ci0 (ci0, [])
| reach_step s s' :
    rate_set_reach ci0 s -> rate_set_step s s' -> rate_set_reach ci0 s'.

(** ** Vocabulary of the statements *)

(** Protocol versions below 2.1 in major.minor order. *)
Definition version_below_2_1 (v : Z) : Prop :=
  PROTOCOL_REV_MAJOR v < 2 \/
  (PROTOCOL_REV_MAJOR v = 2 /\ PROTOCOL_REV_MINOR v < 1).

(** Protocol versions from 2.1 on in major.minor order. *)
Definition version_from_2_1 (v : Z) : Prop :=
  PROTOCOL_REV_MAJOR v > 2 \/
  (PROTOCOL_REV_MAJOR v = 2 /\ PROTOCOL_REV_MINOR v >= 1).

(** The round-trip outcomes a computation took off the script. *)
Definition consumed (w w' : world) : list scmi_reply :=
  take (length (replies w) - length (replies w'))%nat (replies w).

(** The rate entries one CLOCK_DESCRIBE_RATES reply announces. *)
Definition page_rates (rp : scmi_reply) : list Z :=
  map (RATE_TO_U64 (rx_buf rp))
      (seq 0 (Z.to_nat (NUM_RETURNED (get_unaligned_le32 (rx_buf rp) 0)))).

Definition received_rates (rs : list scmi_reply) : list Z :=
  flat_map page_rates rs.

(** The private data differ at most in the parent list. *)
Definition only_parents (p q : scmi_clk_ipriv) : Prop :=
  exists n ps, priv_clk q = set_parents n ps (priv_clk p).

(** The parent count is the length of the parent array. *)
Definition parents_wf (c : scmi_clock_info) : Prop :=
  num_parents c = Z.of_nat (length (parents c)) /\ num_parents c < 2 ^ 32.

Definition keeps_parents_wf (p q : scmi_clk_ipriv) : Prop :=
  parents_wf (priv_clk p) -> parents_wf (priv_clk q).

(** The transfers obtained and not yet released: successful
    [xfer_get_init] calls minus [xfer_put] calls. *)
Definition held (tr : list event) : Z :=
  fold_right
    (fun e n =>
       match e with
       | EvGetInit _ r => if nonzero r then n else n + 1
       | EvPut _ => n - 1
       | EvXfer _ => n
       end) 0 tr.

(** The parent ids one CLOCK_POSSIBLE_PARENTS_GET reply announces. *)
Definition page_parents (rp : scmi_reply) : list Z :=
  map (fun i => get_unaligned_le32 (rx_buf rp) (4 + 4 * i))
      (seq 0 (Z.to_nat
                (NUM_PARENTS_RETURNED (get_unaligned_le32 (rx_buf rp) 0)))).

Definition received_parents (rs : list scmi_reply) : list Z :=
  flat_map page_parents rs.

(** The resume indices of an enumeration that starts at [d] and receives
    pages announcing the counts [ns]. *)
Fixpoint resume_indices (d : Z) (ns : list Z) : list Z :=
  match ns with
  | [] => []
  | n :: ns' => d :: resume_indices (d + n) ns'
  end.

(** The number of parents the first page of an enumeration announces:
    those it returns and those that remain. *)
Definition parents_announced (rp : scmi_reply) : Z :=
  NUM_PARENTS_RETURNED (get_unaligned_le32 (rx_buf rp) 0)
  + NUM_PARENTS_REMAINING (get_unaligned_le32 (rx_buf rp) 0).

(** The requests of a parent enumeration for domain [clk_id] that starts
    at [d] and receives [pages]. *)
Definition parents_requests (clk_id d : Z) (pages : list scmi_reply)
  : list scmi_xfer :=
  map (fun i => mk_xfer CLOCK_POSSIBLE_PARENTS_GET
                  (put_unaligned_le32 clk_id ++ put_unaligned_le32 i)
                  false false)
      (resume_indices d
         (map (fun rp => NUM_PARENTS_RETURNED
                           (get_unaligned_le32 (rx_buf rp) 0)) pages)).

(** The requests of a rate enumeration for domain [clk_id] that starts
    at [d] and receives [pages]. *)
Definition rates_requests (clk_id d : Z) (pages : list scmi_reply)
  : list scmi_xfer :=
  map (fun i => mk_xfer CLOCK_DESCRIBE_RATES
                  (put_unaligned_le32 clk_id ++ put_unaligned_le32 i)
                  false false)
      (resume_indices d
         (map (fun rp => NUM_RETURNED (get_unaligned_le32 (rx_buf rp) 0))
              pages)).

(** Every page of a rate enumeration that starts at [d] announces no more
    rates than the rate array has room left: the stores of
    [iter_clk_describe_process_response] stay inside the array. *)
Fixpoint rates_fit (d : Z) (pages : list scmi_reply) : Prop :=
  match pages with
  | [] => True
  | rp :: rest =>
    d + NUM_RETURNED (get_unaligned_le32 (rx_buf rp) 0) <= SCMI_MAX_NUM_RATES
    /\ rates_fit (d + NUM_RETURNED (get_unaligned_le32 (rx_buf rp) 0)) rest
  end.

(** ** Sample tables and scripts *)

(** A one-domain table whose only domain has an empty name, and a script
    that answers the next round trip with success. *)
Definition ci_unnamed : clock_info :=
  mk_ci 0x20001 1 0 0 [clk_zero]
        PTR_scmi_clock_config_set_v2 PTR_scmi_clock_config_get_v2.

Definition w_one_ok : world := mk_world [] [mk_reply 0 []] [] [] [].

(** A domain with two possible parents, the firmware ids 7 and 9. *)
Definition clk_two_parents : scmi_clock_info :=
  set_parents 2 [7; 9] (set_name [99; 112; 117] clk_zero).

Definition ci_two_parents : clock_info :=
  mk_ci 0x20001 1 0 0 [clk_two_parents]
        PTR_scmi_clock_config_set_v2 PTR_scmi_clock_config_get_v2.

(** A one-domain table as initialisation leaves it for protocol version
    2.0, and one for version 2.1. *)
Definition ci_v2_0 : clock_info :=
  mk_ci 0x20000 1 0 0 [clk_two_parents]
        (fst (select_config 0x20000)) (snd (select_config 0x20000)).

Definition ci_v2_1 : clock_info :=
  mk_ci 0x20001 1 0 0 [clk_two_parents]
        (fst (select_config 0x20001)) (snd (select_config 0x20001)).

(** A firmware that negotiates protocol version 3.0 and exposes no clock
    domain. *)
Definition w_version_3_0 : world :=
  mk_world []
    [ mk_reply 0 (put_unaligned_le32 0x30000); mk_reply 0 [0; 0; 0; 0] ]
    [] [] [].

(** A one-domain table whose firmware allows [n] pending asynchronous
    rate changes. *)
Definition ci_max_async (n : Z) : clock_info :=
  mk_ci 0x20001 1 n 0 [clk_two_parents]
        PTR_scmi_clock_config_set_v2 PTR_scmi_clock_config_get_v2.

(** A firmware whose answer to CLOCK_ATTRIBUTES advertises every optional
    feature (bits 31, 30, 29, 28 and 1), names the domain "ab" and reports
    an enable latency of 5; it answers nothing else. *)
Definition w_all_features : world :=
  mk_world []
    [ mk_reply 0
        (put_unaligned_le32 0xF0000002 ++
         [97; 98; 0; 0; 0; 0; 0; 0; 0; 0; 0; 0; 0; 0; 0; 0] ++
         put_unaligned_le32 5) ]
    [] [] [].

(** A reply to CLOCK_DESCRIBE_RATES: the flags word, then the rates as
    pairs of little-endian halves. *)
Definition rates_reply (flags : Z) (rs : list Z) : scmi_reply :=
  mk_reply 0
    (put_unaligned_le32 flags ++
     flat_map (fun r => put_unaligned_le32 (Z.land r 0xffffffff) ++
                        put_unaligned_le32 (Z.shiftr r 32)) rs).

(** A discrete-rate firmware that sends 30 and 10 with two rates
    remaining, then 20 and 10 with none remaining. *)
Definition w_two_pages : world :=
  mk_world []
    [ rates_reply (Z.lor 2 (Z.shiftl 2 16)) [30; 10]; rates_reply 2 [20; 10] ]
    [] [] [].

(** A continuous-range firmware that sends the triplet (100, 200, 10) with
    nothing remaining but announces [n] returned rates. *)
Definition w_triplet (n : Z) : world :=
  mk_world [] [ rates_reply (Z.lor n (BIT 12)) [100; 200; 10] ] [] [] [].

(** A one-domain table whose domain, with two possible parents, forbids
    state, rate and parent control. *)
Definition clk_forbidden : scmi_clock_info :=
  set_permissions true true true clk_two_parents.

Definition ci_forbidden : clock_info :=
  mk_ci 0x20001 1 0 0 [clk_forbidden]
        PTR_scmi_clock_config_set_v2 PTR_scmi_clock_config_get_v2.

(** A reply to CLOCK_POSSIBLE_PARENTS_GET: the flags word, then the parent
    ids. *)
Definition parents_reply (flags : Z) (ids : list Z) : scmi_reply :=
  mk_reply 0 (put_unaligned_le32 flags ++ flat_map put_unaligned_le32 ids).

(** A firmware that sends the parents 7 and 9 with one parent remaining,
    then the parent 4 with none remaining. *)
Definition w_parent_pages : world :=
  mk_world []
    [ parents_reply (Z.lor 2 (Z.shiftl 1 24)) [7; 9]; parents_reply 1 [4] ]
    [] [] [].

(** A firmware that negotiates version 2.1 and announces one domain and
    two pending asynchronous requests; the domain is named "ab", advertises
    no optional feature, reports an enable latency of 5 and has the
    discrete rates 30 and 10. *)
Definition init_one_domain_replies : list scmi_reply :=
  [ mk_reply 0 (put_unaligned_le32 0x20001);
    mk_reply 0 [1; 0; 2; 0];
    mk_reply 0
      (put_unaligned_le32 0 ++
       [97; 98; 0; 0; 0; 0; 0; 0; 0; 0; 0; 0; 0; 0; 0; 0] ++
       put_unaligned_le32 5);
    rates_reply 2 [30; 10] ].

Definition w_init_one_domain : world :=
  mk_world [] init_one_domain_replies [] [] [].

(** The same firmware behind a handle that refuses the table. *)
Definition w_init_refused : world :=
  mk_world [] init_one_domain_replies [] [- EINVAL] [].

(** ** Lookups *)

(** Runs the transport primitives of a computation on the world at hand. *)
Ltac mrun :=
  repeat (cbv beta iota zeta delta
            [bind ret log xfer_get_init do_xfer do_xfer_with_response
             xfer_put devm_alloc set_priv];
          cbn [fst snd inits replies allocs privs trace hdr_id tx_buf
               poll_completion delayed_response negb andb orb]).

(** Reduces the projections of iterator states and private data. *)
Ltac stsimpl :=
  cbn [num_returned num_remaining max_resources desc_index loop_idx rx_len
       set_returned set_rx_len set_loop_idx set_desc_index set_max_resources
       priv_clk priv_clk_id].
Ltac stsimpl_in H :=
  cbn [num_returned num_remaining max_resources desc_index loop_idx rx_len
       set_returned set_rx_len set_loop_idx set_desc_index set_max_resources
       priv_clk priv_clk_id] in H.



Lemma nonzero_true (x : Z) : x <> 0 -> nonzero x = true.
Proof.
  intros Hx. unfold nonzero. destruct (Z.eqb_spec x 0);
    [contradiction | reflexivity].
Qed.

Lemma to_u32_small (x : Z) : 0 <= x < 2 ^ 32 -> to_u32 x = x.
Proof. intros H. unfold to_u32. apply Z.mod_small. exact H. Qed.

Lemma lookup_in_range (ci : clock_info) (clk_id : Z) :
  clk_id < to_u32 (num_clocks ci) ->
  scmi_clock_domain_lookup ci clk_id =
  inr (nth (Z.to_nat clk_id) (clk ci) clk_zero).
Proof.
  intros H. unfold scmi_clock_domain_lookup.
  destruct (Z.geb_spec clk_id (to_u32 (num_clocks ci))); [lia | reflexivity].
Qed.

Lemma lookup_out_of_range (ci : clock_info) (clk_id : Z) :
  to_u32 (num_clocks ci) <= clk_id ->
  scmi_clock_domain_lookup ci clk_id = inl (- EINVAL).
Proof.
  intros H. unfold scmi_clock_domain_lookup.
  destruct (Z.geb_spec clk_id (to_u32 (num_clocks ci))); [reflexivity | lia].
Qed.

(** ** Wire codec facts *)

Lemma byte_testbit (x n : Z) :
  Z.testbit (Z.land x 255) n = Z.testbit x n && (0 <=? n) && (n <? 8).
Proof.
  destruct (Z.leb_spec 0 n).
  - rewrite Z.land_spec. change 255 with (Z.ones 8).
    rewrite Z.testbit_ones_nonneg by lia. rewrite andb_true_r. reflexivity.
  - rewrite !Z.testbit_neg_r by lia. reflexivity.
Qed.

Lemma shiftl_testbit (x k n : Z) : 0 <= k ->
  Z.testbit (Z.shiftl x k) n = Z.testbit x (n - k) && (0 <=? n).
Proof.
  intros Hk. destruct (Z.leb_spec 0 n).
  - rewrite Z.shiftl_spec by lia. rewrite andb_true_r. reflexivity.
  - rewrite !Z.testbit_neg_r by lia. reflexivity.
Qed.

Lemma shiftr_testbit (x k n : Z) : 0 <= k ->
  Z.testbit (Z.shiftr x k) n = Z.testbit x (n + k) && (0 <=? n).
Proof.
  intros Hk. destruct (Z.leb_spec 0 n).
  - rewrite Z.shiftr_spec by lia. rewrite andb_true_r. reflexivity.
  - rewrite (Z.testbit_neg_r _ n) by lia. rewrite andb_false_r. reflexivity.
Qed.

Lemma testbit_above (v k n : Z) :
  0 <= v < 2 ^ k -> k <= n -> Z.testbit v n = false.
Proof.
  intros Hv Hn. destruct (Z.eq_dec v 0) as [-> | Hne].
  - apply Z.bits_0.
  - apply Z.bits_above_log2; [lia |].
    assert (Z.log2 v < k) by (apply Z.log2_lt_pow2; lia). lia.
Qed.

(** Storing a 32-bit value and loading it back gives the value. *)
Lemma get_put_le32 (v : Z) (rest : list Z) :
  0 <= v < 2 ^ 32 ->
  get_unaligned_le32 (put_unaligned_le32 v ++ rest) 0 = v.
Proof.
  intros Hv. unfold get_unaligned_le32, byte_at, put_unaligned_le32.
  cbn -[Z.land Z.shiftl Z.shiftr Z.lor Z.testbit].
  apply Z.bits_inj'. intros n Hn.
  rewrite !Z.lor_spec.
  rewrite (shiftl_testbit _ 8), (shiftl_testbit _ 16), (shiftl_testbit _ 24)
    by lia.
  rewrite !byte_testbit.
  rewrite (shiftr_testbit _ 8), (shiftr_testbit _ 16), (shiftr_testbit _ 24)
    by lia.
  destruct (Z.leb_spec 0 n); [| lia].
  destruct (Z.ltb_spec n 8); destruct (Z.ltb_spec (n - 8) 8);
    destruct (Z.ltb_spec (n - 16) 8); destruct (Z.ltb_spec (n - 24) 8);
    destruct (Z.leb_spec 0 (n - 8)); destruct (Z.leb_spec 0 (n - 16));
    destruct (Z.leb_spec 0 (n - 24)); try lia;
    rewrite ?andb_true_r, ?andb_false_r, ?orb_false_r, ?orb_false_l;
    try (f_equal; lia).
  symmetry. apply (testbit_above v 32); [exact Hv | lia].
Qed.

Lemma get_le32_app (l1 l2 : list Z) (k : nat) :
  get_unaligned_le32 (l1 ++ l2) (length l1 + k) = get_unaligned_le32 l2 k.
Proof.
  unfold get_unaligned_le32, byte_at.
  rewrite <- !Nat.add_assoc. rewrite !lookup_app_r by lia.
  repeat match goal with
  | |- context [ (length l1 + ?a - length l1)%nat ] =>
      replace (length l1 + a - length l1)%nat with a by lia
  end. reflexivity.
Qed.

Lemma sent_app (a b : list event) : sent (a ++ b) = sent a ++ sent b.
Proof. unfold sent. apply omap_app. Qed.

Lemma attempted_app (a b : list event) :
  attempted (a ++ b) = attempted a ++ attempted b.
Proof. unfold attempted. apply omap_app. Qed.

(** ** The parent selector *)

(** C8.  For a domain [d] and a selector at or past the end of [d]'s parent
    list, [set_parent] returns [-EINVAL] and leaves the transport untouched.
    With a selector inside the list, parent control allowed and a transfer
    at hand, exactly one request goes out, and its second word is the
    firmware id stored at that position of the list, not the selector. *)
Theorem set_parent_selector (ci : clock_info) (clk_id parent_id : Z)
    (w : world) (c : scmi_clock_info)
    (Hl : scmi_clock_domain_lookup ci clk_id = inr c)
    (Hnp : num_parents c = Z.of_nat (length (parents c)))
    (Hlen : Z.of_nat (length (parents c)) < 2 ^ 32)
    (Hsel : 0 <= parent_id) :
  (Z.of_nat (length (parents c)) <= parent_id ->
     scmi_clock_set_parent ci clk_id parent_id w = (- EINVAL, w))
  /\ (parent_id < Z.of_nat (length (parents c)) ->
      parent_ctrl_forbidden c = false ->
      next_init (inits w) = 0 ->
      exists p,
        parents c !! Z.to_nat parent_id = Some p
        /\ fst (scmi_clock_set_parent ci clk_id parent_id w)
           = status (next_reply (replies w))
        /\ sent (trace (snd (scmi_clock_set_parent ci clk_id parent_id w)))
           = sent (trace w) ++
             [mk_xfer CLOCK_PARENT_SET
                (put_unaligned_le32 clk_id ++ put_unaligned_le32 p)
                false false]
        /\ (0 <= p < 2 ^ 32 ->
            get_unaligned_le32
              (put_unaligned_le32 clk_id ++ put_unaligned_le32 p) 4 = p)).
Proof.
  assert (Hu : to_u32 (num_parents c) = Z.of_nat (length (parents c)))
    by (rewrite Hnp; apply to_u32_small; lia).
  split.
  - intros Hge. unfold scmi_clock_set_parent. rewrite Hl, Hu.
    destruct (Z.geb_spec parent_id (Z.of_nat (length (parents c))));
      [reflexivity | lia].
  - intros Hlt Hperm Hinit.
    destruct (lookup_lt_is_Some_2 (parents c) (Z.to_nat parent_id))
      as [p Hp]; [lia |].
    exists p. split; [exact Hp |].
    assert (Hnth : nth (Z.to_nat parent_id) (parents c) 0 = p)
      by (apply nth_lookup_Some; exact Hp).
    unfold scmi_clock_set_parent. rewrite Hl, Hu, Hperm, Hnth.
    destruct (Z.geb_spec parent_id (Z.of_nat (length (parents c))));
      [lia |].
    mrun. rewrite Hinit. change (nonzero 0) with false. mrun.
    split; [reflexivity |]. split.
    + rewrite <- !app_assoc. rewrite !sent_app. reflexivity.
    + intros Hrange.
      change 4%nat with (length (put_unaligned_le32 clk_id) + 0)%nat.
      rewrite get_le32_app.
      rewrite <- (app_nil_r (put_unaligned_le32 p)).
      apply get_put_le32. exact Hrange.
Qed.

Lemma set_parent_selector_witness :
  scmi_clock_set_parent ci_two_parents 0 2 w_one_ok = (- EINVAL, w_one_ok)
  /\ exists p,
       parents clk_two_parents !! Z.to_nat 1 = Some p
       /\ fst (scmi_clock_set_parent ci_two_parents 0 1 w_one_ok)
          = status (next_reply (replies w_one_ok))
       /\ sent (trace (snd (scmi_clock_set_parent ci_two_parents 0 1
                              w_one_ok)))
          = sent (trace w_one_ok) ++
            [mk_xfer CLOCK_PARENT_SET
               (put_unaligned_le32 0 ++ put_unaligned_le32 p) false false]
       /\ (0 <= p < 2 ^ 32 ->
           get_unaligned_le32
             (put_unaligned_le32 0 ++ put_unaligned_le32 p) 4 = p).
Proof.
  assert (Hl : scmi_clock_domain_lookup ci_two_parents 0 = inr clk_two_parents)
    by reflexivity.
  assert (Hnp : num_parents clk_two_parents
                = Z.of_nat (length (parents clk_two_parents)))
    by reflexivity.
  assert (Hlen : Z.of_nat (length (parents clk_two_parents)) < 2 ^ 32)
    by (vm_compute; reflexivity).
  split.
  - apply (set_parent_selector ci_two_parents 0 2 w_one_ok clk_two_parents
             Hl Hnp Hlen); [lia | vm_compute; discriminate].
  - apply (set_parent_selector ci_two_parents 0 1 w_one_ok clk_two_parents
             Hl Hnp Hlen); [lia | vm_compute; reflexivity | reflexivity
                           | reflexivity].
Defined.

(** ** OEM configuration *)

Lemma select_config_below_2_1 (v : Z) :
  version_below_2_1 v ->
  select_config v = (PTR_scmi_clock_config_set, PTR_scmi_clock_config_get).
Proof.
  intros [Hmaj | [Hmaj Hmin]]; unfold select_config.
  - destruct (Z.geb_spec (PROTOCOL_REV_MAJOR v) 2); [lia | reflexivity].
  - destruct (Z.geb_spec (PROTOCOL_REV_MINOR v) 1); [lia |].
    rewrite andb_false_r. reflexivity.
Qed.

(** C6 (as amended).  With a protocol version below 2.1 the legacy variant
    is in place and both OEM operations fail with [-EINVAL]
    (InvalidArgument) without touching the transport, whatever the OEM
    type.  On the v2 path [set_oem_config] with OEM type zero is the
    invalid combination of "no OEM type" with the "unchanged" state and
    fails with [-EINVAL] without touching the transport, while
    [get_oem_config] is not refused for any OEM type: it asks the transport
    for a CLOCK_CONFIG_GET transfer. *)
Theorem oem_config_rejection (ci : clock_info) (clk_id oem_type oem_val : Z)
    (oem_val_p attrs_p : option Z) (atomic : bool) (w : world) :
  (version_below_2_1 (version ci) ->
   (clock_config_set ci, clock_config_get ci) = select_config (version ci) ->
   scmi_clock_config_oem_set ci clk_id oem_type oem_val atomic w
     = (- EINVAL, w)
   /\ scmi_clock_config_oem_get ci clk_id oem_type oem_val_p attrs_p atomic w
     = (- EINVAL, mk_cells attrs_p None oem_val_p, w))
  /\ (clock_config_set ci = PTR_scmi_clock_config_set_v2 ->
      oem_type = 0 ->
      scmi_clock_config_oem_set ci clk_id oem_type oem_val atomic w
        = (- EINVAL, w))
  /\ (clock_config_get ci = PTR_scmi_clock_config_get_v2 ->
      attempted (trace (snd (scmi_clock_config_oem_get ci clk_id oem_type
                               oem_val_p attrs_p atomic w)))
        = attempted (trace w) ++ [CLOCK_CONFIG_GET]).
Proof.
  split; [| split].
  - intros Hv Hsel. rewrite (select_config_below_2_1 _ Hv) in Hsel.
    injection Hsel as Hset Hget.
    unfold scmi_clock_config_oem_set, scmi_clock_config_oem_get.
    rewrite Hset, Hget. split; reflexivity.
  - intros Hset ->. unfold scmi_clock_config_oem_set. rewrite Hset.
    reflexivity.
  - intros Hget. unfold scmi_clock_config_oem_get. rewrite Hget.
    unfold call_config_get, scmi_clock_config_get_v2. mrun.
    destruct (nonzero (next_init (inits w))); mrun;
      rewrite <- ?app_assoc, !attempted_app; reflexivity.
Qed.

Lemma oem_config_rejection_witness :
  scmi_clock_config_oem_set ci_v2_0 0 5 1 false w_one_ok
    = (- EINVAL, w_one_ok)
  /\ scmi_clock_config_oem_get ci_v2_0 0 5 (Some 0) (Some 0) false w_one_ok
    = (- EINVAL, mk_cells (Some 0) None (Some 0), w_one_ok)
  /\ scmi_clock_config_oem_set ci_v2_1 0 0 1 false w_one_ok
    = (- EINVAL, w_one_ok).
Proof.
  destruct (oem_config_rejection ci_v2_0 0 5 1 (Some 0) (Some 0) false
              w_one_ok) as [Hlegacy _].
  destruct (oem_config_rejection ci_v2_1 0 0 1 (Some 0) (Some 0) false
              w_one_ok) as [_ [Hv2 _]].
  destruct Hlegacy as [Hset Hget].
  - right. split; vm_compute; reflexivity.
  - reflexivity.
  - split; [exact Hset | split; [exact Hget |]].
    apply Hv2; reflexivity.
Defined.

(** C6 (as stated) fails twice.  On the legacy path the error is [-EINVAL],
    not Unsupported ([-EOPNOTSUPP]); and on the v2 path [get_oem_config]
    with OEM type zero is not refused: the CLOCK_CONFIG_GET request goes
    out and the call succeeds. *)
Lemma oem_config_not_unsupported :
  version_below_2_1 (version ci_v2_0)
  /\ fst (scmi_clock_config_oem_set ci_v2_0 0 5 1 false w_one_ok) = - EINVAL
  /\ fst (fst (scmi_clock_config_oem_get ci_v2_0 0 5 (Some 0) (Some 0) false
                 w_one_ok)) = - EINVAL
  /\ - EINVAL <> - EOPNOTSUPP
  /\ fst (fst (scmi_clock_config_oem_get ci_v2_1 0 0 (Some 0) (Some 0) false
                 w_one_ok)) = 0
  /\ map hdr_id
       (sent (trace (snd (scmi_clock_config_oem_get ci_v2_1 0 0 (Some 0)
                            (Some 0) false w_one_ok))))
     = [CLOCK_CONFIG_GET].
Proof.
  split; [right; split; vm_compute; reflexivity |].
  vm_compute. repeat split. discriminate.
Qed.

(** ** Selection of the configuration message variant *)

(** What the test of lines 1029-1030 selects. *)
Lemma select_config_v2_iff (v : Z) :
  select_config v
    = (PTR_scmi_clock_config_set_v2, PTR_scmi_clock_config_get_v2)
  <-> PROTOCOL_REV_MAJOR v >= 2 /\ PROTOCOL_REV_MINOR v >= 1.
Proof.
  unfold select_config.
  destruct (Z.geb_spec (PROTOCOL_REV_MAJOR v) 2);
    destruct (Z.geb_spec (PROTOCOL_REV_MINOR v) 1); cbn [andb];
    split; intros Hx; try reflexivity; try discriminate Hx; lia.
Qed.

(** C2, at the input where the code departs from it.  Version 3.0 is at
    least 2.1 in major.minor order, yet the test of lines 1029-1030 asks
    for a minor number of at least 1 whatever the major number, so
    initialisation stores the legacy variant. *)
Theorem version_3_0_selects_legacy :
  version_from_2_1 0x30000
  /\ select_config 0x30000
     = (PTR_scmi_clock_config_set, PTR_scmi_clock_config_get)
  /\ (exists ci,
        fst (scmi_clock_protocol_init w_version_3_0) = (0, Some ci)
        /\ version ci = 0x30000
        /\ clock_config_set ci = PTR_scmi_clock_config_set
        /\ clock_config_get ci = PTR_scmi_clock_config_get).
Proof.
  split; [left; vm_compute; reflexivity |].
  split; [vm_compute; reflexivity |].
  eexists. vm_compute. repeat split.
Qed.

(** ** Admission control of asynchronous rate changes *)

Lemma to_int_small (x : Z) : - 2 ^ 31 <= x < 2 ^ 31 -> to_int x = x.
Proof.
  intros H. unfold to_int. rewrite Z.mod_small by lia. lia.
Qed.

Lemma to_int_add (a b : Z) : to_int (to_int a + b) = to_int (a + b).
Proof.
  unfold to_int. f_equal.
  replace ((a + 2 ^ 31) mod 2 ^ 32 - 2 ^ 31 + b + 2 ^ 31)
    with ((a + 2 ^ 31) mod 2 ^ 32 + b) by lia.
  rewrite Z.add_mod_idemp_l by lia. f_equal. lia.
Qed.

Lemma to_int_sub (a b : Z) : to_int (to_int a - b) = to_int (a - b).
Proof.
  replace (to_int a - b) with (to_int a + - b) by lia.
  rewrite to_int_add. reflexivity.
Qed.

Lemma rate_set_flags_cases (ci : clock_info) :
  fst (rate_set_flags ci) = 0 \/ fst (rate_set_flags ci) = CLOCK_SET_ASYNC.
Proof.
  unfold rate_set_flags. destruct (nonzero (max_async_req ci)); [| now left].
  cbn [atomic_inc_return fst].
  destruct (to_int (cur_async_req ci + 1) <? max_async_req ci);
    [right | left]; reflexivity.
Qed.

(** The admission test in terms of the counter before the call. *)
Lemma rate_set_flags_async (ci : clock_info) :
  0 <= max_async_req ci ->
  - 2 ^ 31 <= cur_async_req ci < 2 ^ 31 - 1 ->
  nonzero (Z.land (fst (rate_set_flags ci)) CLOCK_SET_ASYNC) = true <->
  0 < max_async_req ci /\ cur_async_req ci + 1 < max_async_req ci.
Proof.
  intros Hmax Hcur. unfold rate_set_flags, nonzero.
  destruct (Z.eqb_spec (max_async_req ci) 0) as [Hz | Hnz]; cbn [negb].
  - cbn. split; [discriminate | lia].
  - cbn [atomic_inc_return fst]. rewrite to_int_small by lia.
    destruct (Z.ltb_spec (cur_async_req ci + 1) (max_async_req ci)); cbn.
    + split; [lia | reflexivity].
    + split; [discriminate | lia].
Qed.

Lemma rate_set_flags_max (ci : clock_info) :
  max_async_req (snd (rate_set_flags ci)) = max_async_req ci.
Proof.
  unfold rate_set_flags. destruct (nonzero (max_async_req ci)); reflexivity.
Qed.

Lemma rate_set_done_max (ci : clock_info) :
  max_async_req (rate_set_done ci) = max_async_req ci.
Proof.
  unfold rate_set_done. destruct (nonzero (max_async_req ci)); reflexivity.
Qed.

(** The admission check followed by the release leaves the counter as it
    was. *)
Lemma rate_set_done_flags (ci : clock_info) :
  - 2 ^ 31 <= cur_async_req ci < 2 ^ 31 ->
  cur_async_req (rate_set_done (snd (rate_set_flags ci))) = cur_async_req ci.
Proof.
  intros Hcur. unfold rate_set_done. rewrite rate_set_flags_max.
  unfold rate_set_flags.
  destruct (nonzero (max_async_req ci)); [| reflexivity].
  cbn [atomic_inc_return snd set_cur_async_req cur_async_req].
  unfold atomic_dec. rewrite to_int_sub.
  replace (cur_async_req ci + 1 - 1) with (cur_async_req ci) by lia.
  apply to_int_small. exact Hcur.
Qed.

(** With a non-zero bound the counter is the number of calls in flight. *)
Lemma rate_set_reach_counter (ci0 ci : clock_info) (fl : list Z) :
  rate_set_reach ci0 (ci, fl) ->
  cur_async_req ci0 = 0 ->
  max_async_req ci = max_async_req ci0
  /\ (max_async_req ci0 <> 0 ->
      cur_async_req ci = to_int (Z.of_nat (length fl))).
Proof.
  intros Hreach Hzero.
  remember (ci, fl) as s eqn:Hs. revert ci fl Hs.
  induction Hreach as [| s s' Hreach IH Hstep]; intros ci fl Hs.
  - injection Hs as <- <-. split; [reflexivity |]. intros _. exact Hzero.
  - destruct Hstep as [ci1 fl1 | ci1 fl1 f fl2]; injection Hs as <- <-.
    + destruct (IH ci1 fl1 eq_refl) as [Hmax Hcnt].
      split; [rewrite rate_set_flags_max; exact Hmax |].
      intros Hnz. specialize (Hcnt Hnz).
      unfold rate_set_flags, nonzero.
      destruct (Z.eqb_spec (max_async_req ci1) 0) as [Hz | _]; [congruence |].
      cbn [negb atomic_inc_return snd set_cur_async_req cur_async_req].
      rewrite Hcnt, to_int_add. f_equal. rewrite length_app. cbn. lia.
    + destruct (IH ci1 (fl1 ++ f :: fl2) eq_refl) as [Hmax Hcnt].
      split; [rewrite rate_set_done_max; exact Hmax |].
      intros Hnz. specialize (Hcnt Hnz).
      unfold rate_set_done, nonzero.
      destruct (Z.eqb_spec (max_async_req ci1) 0) as [Hz | _]; [congruence |].
      cbn [negb set_cur_async_req cur_async_req]. unfold atomic_dec.
      rewrite Hcnt, to_int_sub. f_equal. rewrite !length_app. cbn. lia.
Qed.

(** What a call that reaches the round trip returns and sends. *)
Lemma rate_set_reaches_xfer (ci : clock_info) (clk_id rate : Z) (w : world)
    (c : scmi_clock_info) :
  scmi_clock_domain_lookup ci clk_id = inr c ->
  rate_ctrl_forbidden c = false ->
  next_init (inits w) = 0 ->
  let flags := fst (rate_set_flags ci) in
  let async := nonzero (Z.land flags CLOCK_SET_ASYNC) in
  let t := rate_set_message flags clk_id rate in
  let res := scmi_clock_rate_set ci clk_id rate w in
  snd (fst res) = rate_set_done (snd (rate_set_flags ci))
  /\ sent (trace (snd res))
     = sent (trace w) ++
       [mk_xfer (hdr_id t) (tx_buf t) (poll_completion t) async]
  /\ fst (fst res)
     = (if async
        then if nonzero (status (next_reply (replies w))) then status (next_reply (replies w))
             else if get_unaligned_le32 (rx_buf (next_reply (replies w))) 0 =? clk_id
                  then 0 else - EPROTO
        else status (next_reply (replies w))).
Proof.
  intros Hl Hperm Hinit. cbv zeta.
  unfold scmi_clock_rate_set. rewrite Hl, Hperm.
  unfold rate_set_xfer.
  destruct (rate_set_flags ci) as [fl ci1] eqn:Hfl.
  mrun. rewrite Hinit. change (nonzero 0) with false. mrun.
  unfold rate_set_message.
  destruct (nonzero (Z.land fl CLOCK_SET_ASYNC)); mrun.
  - destruct (nonzero (status (next_reply (replies w))));
      [| destruct (get_unaligned_le32 (rx_buf (next_reply (replies w))) 0
                   =? clk_id)];
      mrun; (split; [reflexivity |]); (split; [| reflexivity]);
      rewrite <- !app_assoc, !sent_app; reflexivity.
  - split; [reflexivity |]. split; [| reflexivity].
    rewrite <- !app_assoc, !sent_app. reflexivity.
Qed.

(** C1 (as amended).  In [set_rate] the async flag is set, the
    CLOCK_SET_ASYNC bit encoded in the request and the delayed response
    awaited, if and only if [max_async_requests > 0] and the value of the
    shared counter after the increment is below [max_async_requests]: with
    the counter at [k] before the call, exactly when [k + 1 <
    max_async_requests].  Consequently a call that starts while [n] calls
    are in flight takes the async path exactly when [n + 1 <
    max_async_requests]: the first [max_async_requests - 1] outstanding
    calls are asynchronous and the next one is synchronous. *)
Theorem rate_set_async_iff (ci : clock_info) (clk_id rate : Z) (w : world)
    (c : scmi_clock_info)
    (Hmax : 0 <= max_async_req ci <= 255)
    (Hcur : 0 <= cur_async_req ci < 2 ^ 31 - 1)
    (Hl : scmi_clock_domain_lookup ci clk_id = inr c)
    (Hperm : rate_ctrl_forbidden c = false)
    (Hinit : next_init (inits w) = 0) :
  let k := cur_async_req ci in
  let async := nonzero (Z.land (fst (rate_set_flags ci)) CLOCK_SET_ASYNC) in
  (async = true <-> 0 < max_async_req ci /\ k + 1 < max_async_req ci)
  /\ (exists t,
        sent (trace (snd (scmi_clock_rate_set ci clk_id rate w)))
          = sent (trace w) ++ [t]
        /\ hdr_id t = CLOCK_RATE_SET
        /\ delayed_response t = async
        /\ nonzero (Z.land (get_unaligned_le32 (tx_buf t) 0) CLOCK_SET_ASYNC)
           = async)
  /\ (forall ci0 fl,
        cur_async_req ci0 = 0 ->
        rate_set_reach ci0 (ci, fl) ->
        Z.of_nat (length fl) < 2 ^ 31 - 1 ->
        (async = true <-> Z.of_nat (length fl) + 1 < max_async_req ci)).
Proof.
  intros k async. subst k.
  assert (Hiff := rate_set_flags_async ci ltac:(lia) ltac:(lia)).
  fold async in Hiff.
  split; [exact Hiff |]. split.
  - destruct (rate_set_reaches_xfer ci clk_id rate w c Hl Hperm Hinit)
      as (_ & Hsent & _).
    eexists. split; [exact Hsent |]. cbn [hdr_id delayed_response tx_buf].
    split; [reflexivity |]. split; [reflexivity |].
    unfold rate_set_message. cbn [tx_buf]. rewrite get_put_le32; [reflexivity |].
    destruct (rate_set_flags_cases ci) as [-> | ->]; vm_compute; split;
      congruence.
  - intros ci0 fl Hzero Hreach Hlen.
    destruct (rate_set_reach_counter ci0 ci fl Hreach Hzero) as [Hmx Hcnt].
    rewrite Hiff. destruct (Z.eq_dec (max_async_req ci) 0) as [Hz | Hnz].
    + lia.
    + rewrite Hcnt by congruence. rewrite to_int_small by lia. lia.
Qed.

Lemma rate_set_async_iff_witness :
  nonzero (Z.land (fst (rate_set_flags (ci_max_async 3))) CLOCK_SET_ASYNC)
    = true
  <-> 0 < max_async_req (ci_max_async 3)
      /\ cur_async_req (ci_max_async 3) + 1 < max_async_req (ci_max_async 3).
Proof.
  apply (rate_set_async_iff (ci_max_async 3) 0 1000 w_one_ok clk_two_parents).
  - vm_compute. split; discriminate.
  - vm_compute. split; [discriminate | reflexivity].
  - reflexivity.
  - reflexivity.
  - reflexivity.
Defined.

(** C1 (as stated) fails: with [max_async_requests = 1] and the counter at
    0 before the call, the counter is below the bound, yet the request
    carries no CLOCK_SET_ASYNC bit and is sent on the synchronous path. *)
Lemma rate_set_sync_below_max :
  0 < max_async_req (ci_max_async 1)
  /\ cur_async_req (ci_max_async 1) < max_async_req (ci_max_async 1)
  /\ fst (rate_set_flags (ci_max_async 1)) = 0
  /\ sent (trace (snd (scmi_clock_rate_set (ci_max_async 1) 0 1000
                         w_one_ok)))
     = [mk_xfer CLOCK_RATE_SET
          (put_unaligned_le32 0 ++ put_unaligned_le32 0 ++
           put_unaligned_le32 1000 ++ put_unaligned_le32 0) false false].
Proof. vm_compute. repeat split. Qed.

(** C4 (as amended).  Every path through [set_rate] leaves the counter at
    its value before the call; a call that reaches the round trip
    increments it once (when [max_async_requests > 0]) and decrements it
    once, whatever the outcome of the round trip.  With concurrent calls
    the counter is the number of calls between their increment and their
    decrement: it is never negative, and [max_async_requests] does not
    bound it. *)
Theorem rate_set_counter_restored (ci : clock_info) (clk_id rate : Z)
    (w : world)
    (Hcur : - 2 ^ 31 <= cur_async_req ci < 2 ^ 31) :
  cur_async_req (snd (fst (scmi_clock_rate_set ci clk_id rate w)))
    = cur_async_req ci
  /\ (forall c,
        scmi_clock_domain_lookup ci clk_id = inr c ->
        rate_ctrl_forbidden c = false ->
        next_init (inits w) = 0 ->
        snd (fst (scmi_clock_rate_set ci clk_id rate w))
          = rate_set_done (snd (rate_set_flags ci)))
  /\ (forall ci0 fl,
        cur_async_req ci0 = 0 ->
        max_async_req ci0 <> 0 ->
        rate_set_reach ci0 (ci, fl) ->
        Z.of_nat (length fl) < 2 ^ 31 ->
        cur_async_req ci = Z.of_nat (length fl) /\ 0 <= cur_async_req ci).
Proof.
  split; [| split].
  - unfold scmi_clock_rate_set.
    destruct (scmi_clock_domain_lookup ci clk_id) as [e | c] eqn:Hl;
      [reflexivity |].
    destruct (rate_ctrl_forbidden c) eqn:Hperm; [reflexivity |].
    destruct (Z.eq_dec (next_init (inits w)) 0) as [Hinit | Hinit].
    + destruct (rate_set_reaches_xfer ci clk_id rate w c Hl Hperm Hinit)
        as (Hci & _).
      unfold scmi_clock_rate_set in Hci. rewrite Hl, Hperm in Hci.
      rewrite Hci. apply rate_set_done_flags. exact Hcur.
    + mrun. unfold nonzero.
      destruct (Z.eqb_spec (next_init (inits w)) 0); [contradiction |].
      reflexivity.
  - intros c Hl Hperm Hinit.
    apply (rate_set_reaches_xfer ci clk_id rate w c Hl Hperm Hinit).
  - intros ci0 fl Hzero Hnz Hreach Hlen.
    destruct (rate_set_reach_counter ci0 ci fl Hreach Hzero) as [_ Hcnt].
    rewrite (Hcnt Hnz), to_int_small by lia. lia.
Qed.

Lemma rate_set_counter_restored_witness :
  cur_async_req (snd (fst (scmi_clock_rate_set (ci_max_async 3) 0 1000
                             w_one_ok)))
    = cur_async_req (ci_max_async 3).
Proof.
  apply (rate_set_counter_restored (ci_max_async 3) 0 1000 w_one_ok).
  vm_compute. split; [discriminate | reflexivity].
Defined.

(** C4 (as stated) fails: with [max_async_requests = 1], two calls that
    have both passed the admission check and not yet released leave the
    counter at 2, outside [0, max_async_requests]. *)
Lemma rate_set_counter_exceeds_max :
  exists ci,
    rate_set_reach (ci_max_async 1) (ci, [0; 0])
    /\ max_async_req ci = 1
    /\ cur_async_req ci = 2
    /\ ~ (0 <= cur_async_req ci <= max_async_req ci).
Proof.
  exists (set_cur_async_req 2 (ci_max_async 1)).
  split; [| split; [reflexivity | split; [reflexivity |]]].
  - eapply reach_step; [eapply reach_step; [apply reach_init |] |].
    + exact (step_admit (ci_max_async 1) []).
    + exact (step_admit (snd (rate_set_flags (ci_max_async 1)))
                        ([] ++ [fst (rate_set_flags (ci_max_async 1))])).
  - vm_compute. intros [_ H]. apply H. reflexivity.
Qed.

(** ** The paginated iterator

    What a run of the iterator preserves, for callbacks that preserve it:
    the run asks for no further transfer, and a relation between the
    private data before and after that the callbacks respect is respected
    by the whole run. *)

Section IterInvariant.
Variable ops : scmi_iterator_ops.
Variable R : scmi_clk_ipriv -> scmi_clk_ipriv -> Prop.
Hypothesis R_refl : forall p, R p p.
Hypothesis R_trans : forall p q r, R p q -> R q r -> R p r.
Hypothesis update_quiet : forall st resp p w,
  attempted (trace (snd (update_state ops st resp p w)))
    = attempted (trace w)
  /\ R p (snd (snd (fst (update_state ops st resp p w)))).
Hypothesis process_keeps : forall resp st p,
  R p (snd (process_response ops resp st p)).

Lemma iter_process_inv (resp : list Z) (n : nat) :
  forall st p, R p (snd (snd (iter_process ops resp n st p))).
Proof.
  induction n as [| n IH]; intros st p; cbn [iter_process].
  - apply R_refl.
  - pose proof (process_keeps resp st p) as Hp.
    destruct (process_response ops resp st p) as [r p'].
    cbn [snd] in Hp.
    destruct (nonzero r); cbn [snd]; [exact Hp |].
    eapply R_trans; [exact Hp | apply IH].
Qed.

Lemma iter_loop_inv (msg_id : Z) (fuel : nat) :
  forall st p w,
    attempted (trace (snd (iter_loop fuel ops msg_id st p w)))
      = attempted (trace w)
    /\ R p (snd (fst (iter_loop fuel ops msg_id st p w))).
Proof.
  induction fuel as [| fuel IH]; intros st p w; cbn [iter_loop].
  - mrun. split; [reflexivity | apply R_refl].
  - mrun.
    assert (Hx : forall t, attempted (trace w ++ [EvXfer t])
                           = attempted (trace w)).
    { intros t. rewrite attempted_app. cbn. apply app_nil_r. }
    destruct (nonzero (status (next_reply (replies w)))); mrun.
    { split; [apply Hx | apply R_refl]. }
    match goal with
    | |- context [update_state ops ?s ?r ?q ?v] =>
        pose proof (update_quiet s r q v) as [Hua Hur];
        destruct (update_state ops s r q v) as [[ru [st2 p2]] w2]
    end.
    cbn [fst snd trace] in *. rewrite Hx in Hua.
    destruct (nonzero ru); mrun; [split; assumption |].
    destruct (num_returned st2 >? to_u32 (max_resources st2 - desc_index st2));
      mrun; [split; assumption |].
    match goal with
    | |- context [iter_process ops ?r ?n ?s ?q] =>
        pose proof (iter_process_inv r n s q) as Hpr;
        destruct (iter_process ops r n s q) as [rp [st3 p3]]
    end.
    cbn [fst snd] in *.
    assert (Hr3 : R p p3) by (eapply R_trans; eassumption).
    destruct (nonzero rp); mrun; [split; assumption |].
    match goal with
    | |- context [if ?b then _ else _] => destruct b
    end; mrun; [| split; assumption].
    match goal with
    | |- context [iter_loop fuel ops msg_id ?s ?q ?v] =>
        destruct (IH s q v) as [Ha Hr]
    end.
    split; [rewrite Ha; exact Hua | eapply R_trans; eassumption].
Qed.
End IterInvariant.

(** ** Per-domain discovery *)

Lemma set_parents_id (c : scmi_clock_info) :
  c = set_parents (num_parents c) (parents c) c.
Proof. destruct c; reflexivity. Qed.

Lemma only_parents_refl (p : scmi_clk_ipriv) : only_parents p p.
Proof. exists (num_parents (priv_clk p)), (parents (priv_clk p)). apply set_parents_id. Qed.

Lemma only_parents_trans (p q r : scmi_clk_ipriv) :
  only_parents p q -> only_parents q r -> only_parents p r.
Proof.
  intros (n1 & ps1 & H1) (n2 & ps2 & H2). exists n2, ps2.
  rewrite H2, H1. reflexivity.
Qed.

Lemma attempted_xfer (tr : list event) (t : scmi_xfer) :
  attempted (tr ++ [EvXfer t]) = attempted tr.
Proof. rewrite attempted_app. cbn. apply app_nil_r. Qed.

Lemma attempted_put (tr : list event) (m : Z) :
  attempted (tr ++ [EvPut m]) = attempted tr.
Proof. rewrite attempted_app. cbn. apply app_nil_r. Qed.

Lemma attempted_init (tr : list event) (m r : Z) :
  attempted (tr ++ [EvGetInit m r]) = attempted tr ++ [m].
Proof. rewrite attempted_app. reflexivity. Qed.

Lemma possible_parents_update_quiet st resp p w :
  attempted (trace (snd (iter_clk_possible_parents_update_state st resp p w)))
    = attempted (trace w)
  /\ only_parents p
       (snd (snd (fst (iter_clk_possible_parents_update_state st resp p w)))).
Proof.
  unfold iter_clk_possible_parents_update_state.
  destruct (negb (nonzero (max_resources _))); mrun.
  - destruct (negb (next_alloc (allocs w))); mrun;
      (split; [reflexivity |]); eexists _, _; reflexivity.
  - split; [reflexivity | apply only_parents_refl].
Qed.

Lemma possible_parents_process_keeps resp st p :
  only_parents p (snd (iter_clk_possible_parents_process_response resp st p)).
Proof. eexists _, _. reflexivity. Qed.

Lemma possible_parents_spec (clk_id : Z) (c : scmi_clock_info) (w : world) :
  attempted (trace (snd (scmi_clock_possible_parents clk_id c w)))
    = attempted (trace w) ++ [CLOCK_POSSIBLE_PARENTS_GET]
  /\ exists n ps,
       snd (fst (scmi_clock_possible_parents clk_id c w)) = set_parents n ps c.
Proof.
  unfold scmi_clock_possible_parents, iter_response_init. mrun.
  destruct (nonzero (next_init (inits w))); mrun.
  - split; [apply attempted_init |].
    exists (num_parents c), (parents c). apply set_parents_id.
  - unfold iter_response_run. mrun.
    match goal with
    | |- context [iter_loop ?f ?o ?m ?s ?q ?v] =>
        destruct (iter_loop_inv o only_parents only_parents_refl
                    only_parents_trans possible_parents_update_quiet
                    possible_parents_process_keeps m f s q v) as [Ha Hr];
        destruct (iter_loop f o m s q v) as [[r p'] w']
    end.
    cbn [fst snd trace] in *. rewrite attempted_put, Ha, attempted_init.
    split; [reflexivity |]. destruct Hr as (n & ps & Hr). exists n, ps.
    exact Hr.
Qed.

Lemma get_permissions_spec (clk_id : Z) (c : scmi_clock_info) (w : world) :
  attempted (trace (snd (scmi_clock_get_permissions clk_id c w)))
    = attempted (trace w) ++ [CLOCK_GET_PERMISSIONS]
  /\ exists s r p,
       snd (fst (scmi_clock_get_permissions clk_id c w))
         = set_permissions s r p c.
Proof.
  unfold scmi_clock_get_permissions. mrun.
  destruct (nonzero (next_init (inits w))); mrun.
  - split; [apply attempted_init |].
    exists (state_ctrl_forbidden c), (rate_ctrl_forbidden c),
      (parent_ctrl_forbidden c). destruct c; reflexivity.
  - rewrite attempted_put, attempted_xfer, attempted_init.
    split; [reflexivity |].
    destruct (nonzero (status (next_reply (replies w)))).
    + exists (state_ctrl_forbidden c), (rate_ctrl_forbidden c),
        (parent_ctrl_forbidden c). destruct c; reflexivity.
    + eexists _, _, _. reflexivity.
Qed.

Lemma extended_name_get_spec (cmd_id res_id : Z) (nm : list Z) (len : nat)
    (w : world) :
  attempted (trace (snd (extended_name_get cmd_id res_id nm len w)))
    = attempted (trace w) ++ [cmd_id].
Proof.
  unfold extended_name_get. mrun.
  destruct (nonzero (next_init (inits w))); mrun.
  - apply attempted_init.
  - rewrite attempted_put, attempted_xfer, attempted_init. reflexivity.
Qed.

(** What the optional refinements do to the trace and to the record. *)
Lemma attributes_refine_spec (clk_id a : Z) (c : scmi_clock_info) (w : world) :
  let res := attributes_refine clk_id a c w in
  let c' := fst res in
  attempted (trace (snd res))
    = attempted (trace w)
      ++ (if nonzero (SUPPORTS_EXTENDED_NAMES a) then [CLOCK_NAME_GET] else [])
      ++ (if nonzero (SUPPORTS_PARENT_CLOCK a)
          then [CLOCK_POSSIBLE_PARENTS_GET] else [])
      ++ (if nonzero (SUPPORTS_GET_PERMISSIONS a)
          then [CLOCK_GET_PERMISSIONS] else [])
  /\ enable_latency c' = enable_latency c
  /\ rate_changed_notifications c'
     = rate_changed_notifications c
       || nonzero (SUPPORTS_RATE_CHANGED_NOTIF a)
  /\ rate_change_requested_notifications c'
     = rate_change_requested_notifications c
       || nonzero (SUPPORTS_RATE_CHANGE_REQUESTED_NOTIF a)
  /\ (nonzero (SUPPORTS_GET_PERMISSIONS a) = false ->
      state_ctrl_forbidden c' = state_ctrl_forbidden c
      /\ rate_ctrl_forbidden c' = rate_ctrl_forbidden c
      /\ parent_ctrl_forbidden c' = parent_ctrl_forbidden c)
  /\ name c'
     = (if nonzero (SUPPORTS_EXTENDED_NAMES a)
        then snd (fst (extended_name_get CLOCK_NAME_GET clk_id (name c)
                         SCMI_MAX_STR_SIZE w))
        else name c).
Proof.
  cbv zeta. unfold attributes_refine. mrun.
  pose proof (extended_name_get_spec CLOCK_NAME_GET clk_id (name c)
                SCMI_MAX_STR_SIZE w) as Hn.
  destruct (nonzero (SUPPORTS_EXTENDED_NAMES a)); mrun;
    [destruct (extended_name_get CLOCK_NAME_GET clk_id (name c)
                 SCMI_MAX_STR_SIZE w) as [[rn nm] w1] | clear Hn];
    cbn [fst snd] in *;
    destruct (nonzero (SUPPORTS_RATE_CHANGED_NOTIF a));
    destruct (nonzero (SUPPORTS_RATE_CHANGE_REQUESTED_NOTIF a));
    (destruct (nonzero (SUPPORTS_PARENT_CLOCK a)); mrun;
     [ match goal with
       | |- context [scmi_clock_possible_parents ?i ?d ?v] =>
           destruct (possible_parents_spec i d v) as (Hpa & n & ps & Hpc);
           destruct (scmi_clock_possible_parents i d v) as [[rq c4] w4]
       end; cbn [fst snd] in *; subst c4 | ]);
    (destruct (nonzero (SUPPORTS_GET_PERMISSIONS a)); mrun;
     [ match goal with
       | |- context [scmi_clock_get_permissions ?i ?d ?v] =>
           destruct (get_permissions_spec i d v)
             as (Hga & s1 & s2 & s3 & Hgc);
           destruct (scmi_clock_get_permissions i d v) as [[rg c5] w5]
       end; cbn [fst snd] in *; subst c5 | ]);
    rewrite ?Hga, ?Hpa, ?Hn, <- ?app_assoc, ?app_nil_r, ?orb_true_r,
      ?orb_false_r;
    repeat split; try reflexivity; try discriminate.
Qed.

Lemma describe_rates_attempted (clk_id : Z) (c : scmi_clock_info) (w : world) :
  attempted (trace (snd (scmi_clock_describe_rates_get clk_id c w)))
    = attempted (trace w) ++ [CLOCK_DESCRIBE_RATES].
Proof.
  unfold scmi_clock_describe_rates_get, iter_response_init. mrun.
  destruct (nonzero (next_init (inits w))); mrun.
  - apply attempted_init.
  - unfold iter_response_run. mrun.
    match goal with
    | |- context [iter_loop ?f ?o ?m ?s ?q ?v] =>
        destruct (iter_loop_inv o (fun _ _ => True) (fun _ => I)
                    (fun _ _ _ _ _ => I)
                    (fun st resp p w => conj eq_refl I)
                    (fun _ _ _ => I) m f s q v) as [Ha _];
        destruct (iter_loop f o m s q v) as [[r p'] w']
    end.
    cbn [fst snd trace] in *.
    assert (Hgoal : attempted (trace w' ++ [EvPut CLOCK_DESCRIBE_RATES])
                    = attempted (trace w) ++ [CLOCK_DESCRIBE_RATES])
      by (rewrite attempted_put, Ha, attempted_init; reflexivity).
    destruct (nonzero r); mrun; [exact Hgoal |].
    destruct (negb (rate_discrete (priv_clk p'))); mrun; [exact Hgoal |].
    destruct (nonzero (list_num_rates (priv_clk p'))); mrun; exact Hgoal.
Qed.

(** What a successful base-attribute fetch leaves behind. *)
Lemma attributes_get_fetched (clk_id version : Z) (c : scmi_clock_info)
    (w : world) :
  next_init (inits w) = 0 ->
  status (next_reply (replies w)) = 0 ->
  let rx := rx_buf (next_reply (replies w)) in
  let w1 := mk_world (tail (inits w)) (tail (replies w)) (allocs w) (privs w)
              (trace w ++
               [EvGetInit CLOCK_ATTRIBUTES 0;
                EvXfer (mk_xfer CLOCK_ATTRIBUTES (put_unaligned_le32 clk_id)
                          false false);
                EvPut CLOCK_ATTRIBUTES]) in
  scmi_clock_attributes_get clk_id c version w
  = if PROTOCOL_REV_MAJOR version >=? 0x2
    then (let r := attributes_refine clk_id (get_unaligned_le32 rx 0)
                     (attributes_decode rx version c) w1 in
          (0, fst r, snd r))
    else (0, attributes_decode rx version c, w1).
Proof.
  intros Hinit Hok. cbv zeta. unfold scmi_clock_attributes_get. mrun.
  rewrite Hinit. change (nonzero 0) with false. mrun.
  rewrite Hok. change (nonzero 0) with false. mrun.
  rewrite <- !app_assoc. cbn [app].
  destruct (PROTOCOL_REV_MAJOR version >=? 2); mrun; [| reflexivity].
  match goal with
  | |- context [attributes_refine ?i ?a ?d ?v] =>
      destruct (attributes_refine i a d v) as [c2 w2]
  end. reflexivity.
Qed.

Lemma attempted_exchange (m r m' : Z) (t : scmi_xfer) :
  attempted [EvGetInit m r; EvXfer t; EvPut m'] = [m].
Proof. reflexivity. Qed.

(** C10.  After a successful base-attribute fetch the stored enable
    latency is the latency the firmware reported when that value is
    non-zero and the protocol major version is at least 2, and the
    sentinel [U32_MAX] otherwise: a reported latency of 0 or a major
    version below 2 yields the sentinel. *)
Theorem enable_latency_after_fetch (clk_id version : Z)
    (c : scmi_clock_info) (w : world)
    (Hinit : next_init (inits w) = 0)
    (Hok : status (next_reply (replies w)) = 0) :
  let latency := get_unaligned_le32 (rx_buf (next_reply (replies w))) 20 in
  let res := scmi_clock_attributes_get clk_id c version w in
  fst (fst res) = 0
  /\ (latency <> 0 -> PROTOCOL_REV_MAJOR version >= 2 ->
      enable_latency (snd (fst res)) = latency)
  /\ (latency = 0 \/ PROTOCOL_REV_MAJOR version < 2 ->
      enable_latency (snd (fst res)) = U32_MAX).
Proof.
  cbv zeta. rewrite (attributes_get_fetched clk_id version c w Hinit Hok).
  cbv zeta.
  set (rx := rx_buf (next_reply (replies w))).
  assert (Hdec : enable_latency (attributes_decode rx version c)
                 = if PROTOCOL_REV_MAJOR version >=? 2
                   then if nonzero (get_unaligned_le32 rx 20)
                        then get_unaligned_le32 rx 20 else U32_MAX
                   else U32_MAX).
  { unfold attributes_decode. cbn [enable_latency set_enable_latency].
    destruct (PROTOCOL_REV_MAJOR version >=? 2); reflexivity. }
  destruct (Z.geb_spec (PROTOCOL_REV_MAJOR version) 2) as [Hge | Hlt].
  - match goal with
    | |- context [attributes_refine ?i ?a ?d ?v] =>
        destruct (attributes_refine_spec i a d v) as (_ & Hlat & _)
    end.
    cbn [fst snd]. rewrite Hlat, Hdec. unfold nonzero.
    destruct (Z.eqb_spec (get_unaligned_le32 rx 20) 0) as [Hz | Hnz];
      cbn [negb]; (split; [reflexivity |]); split; intros; try reflexivity;
      try lia; try contradiction.
  - cbn [fst snd]. rewrite Hdec.
    split; [reflexivity |]. split; intros; [lia | reflexivity].
Qed.

Lemma enable_latency_after_fetch_witness :
  fst (fst (scmi_clock_attributes_get 0 clk_zero 0x20001 w_all_features)) = 0
  /\ enable_latency
       (snd (fst (scmi_clock_attributes_get 0 clk_zero 0x20001
                    w_all_features))) = 5.
Proof.
  destruct (enable_latency_after_fetch 0 0x20001 clk_zero w_all_features)
    as (Hret & Hlat & _); [reflexivity | reflexivity |].
  split; [exact Hret |].
  apply Hlat; vm_compute; discriminate.
Defined.

(** C5 (as amended).  After a successful base-attribute fetch each
    optional refinement is performed if and only if the protocol major
    version is at least 2 and the corresponding feature bit of the
    attribute word is set: the extended name is fetched (and replaces the
    short name when the fetch succeeds; a failure is swallowed), the two
    notification flags are raised, the parents are enumerated and the
    permissions are fetched (otherwise the three controls stay as they
    were, that is allowed).  Rate enumeration follows for every domain
    whose base attributes were fetched. *)
Theorem discovery_refinements (clk_id version : Z) (c : scmi_clock_info)
    (w : world)
    (Hinit : next_init (inits w) = 0)
    (Hok : status (next_reply (replies w)) = 0) :
  let rx := rx_buf (next_reply (replies w)) in
  let a := get_unaligned_le32 rx 0 in
  let v2 := PROTOCOL_REV_MAJOR version >=? 0x2 in
  let short := strscpy (drop 4 rx) SCMI_SHORT_NAME_MAX_SIZE in
  let res := scmi_clock_attributes_get clk_id c version w in
  let c' := snd (fst res) in
  fst (fst res) = 0
  /\ attempted (trace (snd res))
     = attempted (trace w) ++ [CLOCK_ATTRIBUTES]
       ++ (if v2 && nonzero (SUPPORTS_EXTENDED_NAMES a)
           then [CLOCK_NAME_GET] else [])
       ++ (if v2 && nonzero (SUPPORTS_PARENT_CLOCK a)
           then [CLOCK_POSSIBLE_PARENTS_GET] else [])
       ++ (if v2 && nonzero (SUPPORTS_GET_PERMISSIONS a)
           then [CLOCK_GET_PERMISSIONS] else [])
  /\ name c'
     = (if v2 && nonzero (SUPPORTS_EXTENDED_NAMES a)
        then if nonzero (next_init (tail (inits w)))
                || nonzero (status (next_reply (tail (replies w))))
             then short
             else strscpy (drop 4 (rx_buf (next_reply (tail (replies w)))))
                    SCMI_MAX_STR_SIZE
        else short)
  /\ rate_changed_notifications c'
     = rate_changed_notifications c
       || (v2 && nonzero (SUPPORTS_RATE_CHANGED_NOTIF a))
  /\ rate_change_requested_notifications c'
     = rate_change_requested_notifications c
       || (v2 && nonzero (SUPPORTS_RATE_CHANGE_REQUESTED_NOTIF a))
  /\ (v2 && nonzero (SUPPORTS_GET_PERMISSIONS a) = false ->
      state_ctrl_forbidden c' = state_ctrl_forbidden c
      /\ rate_ctrl_forbidden c' = rate_ctrl_forbidden c
      /\ parent_ctrl_forbidden c' = parent_ctrl_forbidden c)
  /\ attempted (trace (snd (init_domain clk_id version c w)))
     = attempted (trace (snd res)) ++ [CLOCK_DESCRIBE_RATES].
Proof.
  cbv zeta.
  assert (Hrates :
    attempted (trace (snd (init_domain clk_id version c w)))
    = attempted (trace (snd (scmi_clock_attributes_get clk_id c version w)))
      ++ [CLOCK_DESCRIBE_RATES]).
  { unfold init_domain. mrun.
    pose proof (attributes_get_fetched clk_id version c w Hinit Hok) as Hf.
    cbv zeta in Hf.
    destruct (scmi_clock_attributes_get clk_id c version w) as [[r c1] w1].
    assert (Hr : r = 0)
      by (destruct (PROTOCOL_REV_MAJOR version >=? 2); congruence).
    subst r. mrun. change (nonzero 0) with false. mrun.
    pose proof (describe_rates_attempted clk_id c1 w1) as Hd.
    destruct (scmi_clock_describe_rates_get clk_id c1 w1) as [[r2 c2] w2].
    exact Hd. }
  rewrite Hrates.
  rewrite (attributes_get_fetched clk_id version c w Hinit Hok). cbv zeta.
  set (rx := rx_buf (next_reply (replies w))).
  destruct (PROTOCOL_REV_MAJOR version >=? 2).
  - match goal with
    | |- context [attributes_refine ?i ?a ?d ?v] =>
        destruct (attributes_refine_spec i a d v)
          as (Htr & _ & Hn1 & Hn2 & Hperm & Hname)
    end.
    cbn [fst snd andb] in *. rewrite Htr, Hn1, Hn2, Hname.
    cbn [trace]. rewrite !attempted_app, attempted_exchange.
    rewrite <- !app_assoc. cbn [app].
    split; [reflexivity |]. split; [reflexivity |].
    split.
    { destruct (nonzero (SUPPORTS_EXTENDED_NAMES (get_unaligned_le32 rx 0)));
        [| reflexivity].
      unfold extended_name_get. mrun.
      destruct (nonzero (next_init (tail (inits w)))); mrun; [reflexivity |].
      destruct (nonzero (status (next_reply (tail (replies w)))));
        reflexivity. }
    split; [reflexivity |]. split; [reflexivity |].
    split; [exact Hperm | reflexivity].
  - cbn [fst snd andb trace]. rewrite !attempted_app.
    rewrite attempted_exchange, !orb_false_r.
    repeat split; reflexivity.
Qed.

Lemma discovery_refinements_witness :
  fst (fst (scmi_clock_attributes_get 0 clk_zero 0x20001 w_all_features)) = 0
  /\ attempted (trace (snd (scmi_clock_attributes_get 0 clk_zero 0x20001
                              w_all_features)))
     = [CLOCK_ATTRIBUTES; CLOCK_NAME_GET; CLOCK_POSSIBLE_PARENTS_GET;
        CLOCK_GET_PERMISSIONS].
Proof.
  destruct (discovery_refinements 0 0x20001 clk_zero w_all_features)
    as (Hret & Htr & _); [reflexivity | reflexivity |].
  split; [exact Hret | exact Htr].
Defined.

(** C5 (as stated) fails: under protocol version 1.0 an attribute word
    with every feature bit set triggers no refinement at all; only the
    base fetch and the rate enumeration are attempted and the
    notification flags stay down. *)
Lemma refinements_need_major_2 :
  let a := get_unaligned_le32
             (rx_buf (next_reply (replies w_all_features))) 0 in
  let res := scmi_clock_attributes_get 0 clk_zero 0x10000 w_all_features in
  fst (fst res) = 0
  /\ nonzero (SUPPORTS_EXTENDED_NAMES a) = true
  /\ nonzero (SUPPORTS_PARENT_CLOCK a) = true
  /\ nonzero (SUPPORTS_RATE_CHANGED_NOTIF a) = true
  /\ nonzero (SUPPORTS_RATE_CHANGE_REQUESTED_NOTIF a) = true
  /\ nonzero (SUPPORTS_GET_PERMISSIONS a) = true
  /\ attempted (trace (snd res)) = [CLOCK_ATTRIBUTES]
  /\ rate_changed_notifications (snd (fst res)) = false
  /\ rate_change_requested_notifications (snd (fst res)) = false
  /\ attempted (trace (snd (init_domain 0 0x10000 clk_zero w_all_features)))
     = [CLOCK_ATTRIBUTES; CLOCK_DESCRIBE_RATES].
Proof. vm_compute. repeat split. Qed.

(** ** Rate enumeration *)

Lemma rate_cmp_func_le (x y : Z) : (rate_cmp_func x y <=? 0) = (x <=? y).
Proof.
  unfold rate_cmp_func.
  destruct (Z.ltb_spec x y); [destruct (Z.leb_spec x y); [reflexivity | lia] |].
  destruct (Z.eqb_spec x y); destruct (Z.leb_spec x y); try reflexivity; lia.
Qed.

Lemma sort_insert_perm (x : Z) (l : list Z) :
  Permutation (sort_insert rate_cmp_func x l) (x :: l).
Proof.
  induction l as [| y l IH]; cbn [sort_insert]; [reflexivity |].
  destruct (rate_cmp_func x y <=? 0); [reflexivity |].
  rewrite IH. apply perm_swap.
Qed.

Lemma sort_insert_sorted (x : Z) (l : list Z) :
  Sorted Z.le l -> Sorted Z.le (sort_insert rate_cmp_func x l).
Proof.
  induction l as [| y l IH]; intros Hs; cbn [sort_insert].
  - repeat constructor.
  - rewrite rate_cmp_func_le. destruct (Z.leb_spec x y) as [Hle | Hgt].
    + constructor; [exact Hs | constructor; exact Hle].
    + apply Sorted_inv in Hs as [Hs Hhd].
      constructor; [apply IH; exact Hs |].
      destruct l as [| z l]; cbn [sort_insert].
      * constructor. lia.
      * rewrite rate_cmp_func_le. apply HdRel_inv in Hhd.
        destruct (Z.leb_spec x z); constructor; lia.
Qed.

Lemma sort_prefix (base : list Z) (n : nat) :
  (n <= length base)%nat ->
  take n (sort base n rate_cmp_func)
    = foldr (sort_insert rate_cmp_func) [] (take n base)
  /\ Sorted Z.le (take n (sort base n rate_cmp_func))
  /\ Permutation (take n (sort base n rate_cmp_func)) (take n base).
Proof.
  intros Hn. unfold sort.
  assert (Hperm : forall l, Permutation
                    (foldr (sort_insert rate_cmp_func) [] l) l).
  { induction l as [| x l IH]; cbn [foldr]; [reflexivity |].
    rewrite sort_insert_perm, IH. reflexivity. }
  assert (Hsorted : forall l, Sorted Z.le
                      (foldr (sort_insert rate_cmp_func) [] l)).
  { induction l as [| x l IH]; cbn [foldr]; [constructor |].
    apply sort_insert_sorted. exact IH. }
  assert (Hlen : length (foldr (sort_insert rate_cmp_func) [] (take n base))
                 = n).
  { rewrite (Permutation_length (Hperm _)), length_take. lia. }
  assert (Htake : take n (foldr (sort_insert rate_cmp_func) [] (take n base)
                          ++ drop n base)
                  = foldr (sort_insert rate_cmp_func) [] (take n base)).
  { rewrite take_app_le by lia. apply take_ge. lia. }
  rewrite Htake. split; [reflexivity |]. split; [apply Hsorted | apply Hperm].
Qed.

(** The three outcomes of the state update on a rate reply. *)
Lemma describe_update_cases (st : scmi_iterator_state) (resp : list Z)
    (p : scmi_clk_ipriv) :
  let flags := get_unaligned_le32 resp 0 in
  let q b := mk_priv (priv_clk_id p) (set_rate_discrete b (priv_clk p)) in
  (RATE_DISCRETE flags = true
   /\ iter_clk_describe_update_state st resp p
      = (0, (set_returned (NUM_RETURNED flags) (NUM_REMAINING flags) st,
             q true)))
  \/ (RATE_DISCRETE flags = false
      /\ (NUM_REMAINING flags <> 0
          \/ (NUM_RETURNED flags <> 3
              /\ rx_len st <> describe_rates_triplet_len))
      /\ iter_clk_describe_update_state st resp p
         = (- EPROTO,
            (set_returned (NUM_RETURNED flags) (NUM_REMAINING flags) st,
             q false)))
  \/ (RATE_DISCRETE flags = false
      /\ NUM_REMAINING flags = 0
      /\ (NUM_RETURNED flags = 3 \/ rx_len st = describe_rates_triplet_len)
      /\ iter_clk_describe_update_state st resp p
         = (0, (set_returned 3 0 st, q false))).
Proof.
  cbv zeta. unfold iter_clk_describe_update_state.
  cbn [priv_clk rate_discrete set_rate_discrete set_returned num_returned
       num_remaining rx_len].
  destruct (RATE_DISCRETE (get_unaligned_le32 resp 0)); cbn [negb andb].
  - left. split; reflexivity.
  - right.
    destruct (Z.eqb_spec (NUM_RETURNED (get_unaligned_le32 resp 0)) 3)
      as [H3 | H3];
    destruct (Z.eqb_spec (NUM_REMAINING (get_unaligned_le32 resp 0)) 0)
      as [H0 | H0];
    destruct (Z.eqb_spec (rx_len st) describe_rates_triplet_len)
      as [Hl | Hl]; cbn [negb andb orb].
    all: try (left; split; [reflexivity |]; split; [| reflexivity]; tauto).
    all: right; split; [reflexivity |]; split; [assumption |];
      (split; [tauto |]); rewrite ?H3, ?H0; reflexivity.
Qed.

Lemma take_insert_next (l : list Z) (k : nat) (v : Z) :
  (k < length l)%nat -> take (S k) (<[k := v]> l) = take k l ++ [v].
Proof.
  intros Hk. rewrite (take_S_r _ _ v).
  - rewrite take_insert_ge by lia. reflexivity.
  - apply list_lookup_insert_eq. exact Hk.
Qed.

Lemma describe_process_keeps_shape (resp : list Z) (n : nat) :
  forall st p,
    rate_discrete (priv_clk (snd (snd (iter_process describe_rates_ops resp n
                                         st p))))
      = rate_discrete (priv_clk p).
Proof.
  induction n as [| n IH]; intros st p; cbn [iter_process]; [reflexivity |].
  cbn [process_response describe_rates_ops].
  unfold iter_clk_describe_process_response.
  destruct (rate_discrete (priv_clk p)) eqn:Hd; cbn [negb].
  - change (nonzero 0) with false. cbv iota. rewrite IH. exact Hd.
  - repeat match goal with
    | |- context [if ?b then _ else _] => destruct b
    end; cbn [snd fst]; try exact Hd;
    change (nonzero 0) with false; cbv iota; rewrite IH; exact Hd.
Qed.

(** Discrete items land at their absolute positions. *)
Lemma describe_process_discrete (resp : list Z) (n : nat) :
  forall st p,
    rate_discrete (priv_clk p) = true ->
    0 <= desc_index st -> 0 <= loop_idx st ->
    desc_index st + loop_idx st + Z.of_nat n <= SCMI_MAX_NUM_RATES ->
    length (list_rates (priv_clk p)) = Z.to_nat SCMI_MAX_NUM_RATES ->
    0 <= list_num_rates (priv_clk p) <= SCMI_MAX_NUM_RATES - Z.of_nat n ->
    let res := iter_process describe_rates_ops resp n st p in
    let c' := priv_clk (snd (snd res)) in
    fst res = 0
    /\ length (list_rates c') = Z.to_nat SCMI_MAX_NUM_RATES
    /\ list_num_rates c' = list_num_rates (priv_clk p) + Z.of_nat n
    /\ take (Z.to_nat (desc_index st + loop_idx st) + n) (list_rates c')
       = take (Z.to_nat (desc_index st + loop_idx st))
              (list_rates (priv_clk p))
         ++ map (RATE_TO_U64 resp) (seq (Z.to_nat (loop_idx st)) n)
    /\ desc_index (fst (snd res)) = desc_index st
    /\ num_returned (fst (snd res)) = num_returned st
    /\ num_remaining (fst (snd res)) = num_remaining st
    /\ max_resources (fst (snd res)) = max_resources st.
Proof.
  unfold SCMI_MAX_NUM_RATES.
  induction n as [| n IH]; intros st p Hd Hdi Hli Hroom Hlen Hnum;
    cbn [iter_process].
  - cbn [fst snd seq map]. rewrite Nat.add_0_r, app_nil_r, Z.add_0_r.
    repeat split; try reflexivity; exact Hlen.
  - cbn [process_response describe_rates_ops].
    unfold iter_clk_describe_process_response. rewrite Hd. cbn [negb].
    change (nonzero 0) with false. cbv iota.
    rewrite (to_u32_small (desc_index st + loop_idx st)) by lia.
    rewrite (to_int_small (list_num_rates (priv_clk p) + 1)) by lia.
    match goal with
    | |- context [iter_process _ _ n ?s ?q] =>
        pose proof (IH s q) as IH'
    end.
    cbn [priv_clk rate_discrete set_list list_rates list_num_rates
         desc_index loop_idx set_loop_idx num_returned num_remaining
         max_resources] in IH'.
    rewrite length_insert in IH'.
    destruct IH' as (Hr & Hl & Hn & Ht & Hs1 & Hs2 & Hs3 & Hs4);
      [exact Hd | lia | lia | lia | exact Hlen | lia |].
    split; [exact Hr |]. split; [exact Hl |]. split; [lia |].
    split; [| repeat split; assumption].
    replace (Z.to_nat (desc_index st + loop_idx st) + S n)%nat
      with (Z.to_nat (desc_index st + (loop_idx st + 1)) + n)%nat by lia.
    rewrite Ht.
    replace (Z.to_nat (desc_index st + (loop_idx st + 1)))
      with (S (Z.to_nat (desc_index st + loop_idx st))) by lia.
    rewrite take_insert_next by lia.
    rewrite <- app_assoc. cbn [seq map app].
    replace (Z.to_nat (loop_idx st + 1)) with (S (Z.to_nat (loop_idx st)))
      by lia.
    reflexivity.
Qed.

(** Processing items moves the loop index only. *)
Lemma iter_process_state (ops : scmi_iterator_ops) (resp : list Z) (n : nat) :
  forall st p,
    let st' := fst (snd (iter_process ops resp n st p)) in
    desc_index st' = desc_index st
    /\ num_returned st' = num_returned st
    /\ num_remaining st' = num_remaining st
    /\ max_resources st' = max_resources st.
Proof.
  induction n as [| n IH]; intros st p; cbn [iter_process].
  - cbn. repeat split.
  - destruct (process_response ops resp st p) as [r p'].
    destruct (nonzero r); [cbn; repeat split |].
    apply (IH (set_loop_idx (loop_idx st + 1) st) p').
Qed.

Lemma num_returned_nonneg (x : Z) : 0 <= NUM_RETURNED x.
Proof. unfold NUM_RETURNED. apply Z.land_nonneg. right. lia. Qed.

Lemma nonzero_false (x : Z) : nonzero x = false -> x = 0.
Proof.
  unfold nonzero. destruct (Z.eqb_spec x 0); [trivial | discriminate].
Qed.

Lemma describe_process_id (resp : list Z) (n : nat) :
  forall st p,
    priv_clk_id (snd (snd (iter_process describe_rates_ops resp n st p)))
    = priv_clk_id p.
Proof.
  induction n as [| n IH]; intros st p; cbn [iter_process]; [reflexivity |].
  cbn [process_response describe_rates_ops].
  assert (Hid : priv_clk_id
                  (snd (iter_clk_describe_process_response resp st p))
                = priv_clk_id p).
  { unfold iter_clk_describe_process_response.
    repeat match goal with
    | |- context [if ?b then _ else _] => destruct b
    end; reflexivity. }
  destruct (iter_clk_describe_process_response resp st p) as [r p'].
  cbn [snd] in Hid. destruct (nonzero r); cbn [snd]; [exact Hid |].
  rewrite IH. exact Hid.
Qed.

(** A successful discrete run: it takes pages off the script until one
    announces that nothing remains or the array is full, asks for each
    page at the number of rates received so far, and stores every rate at
    its absolute position. *)
Lemma describe_loop_discrete (fuel : nat) :
  forall st p w,
    max_resources st = SCMI_MAX_NUM_RATES ->
    0 <= desc_index st <= SCMI_MAX_NUM_RATES ->
    list_num_rates (priv_clk p) = desc_index st ->
    length (list_rates (priv_clk p)) = Z.to_nat SCMI_MAX_NUM_RATES ->
    let res := iter_loop fuel describe_rates_ops CLOCK_DESCRIBE_RATES st p w in
    let c' := priv_clk (snd (fst res)) in
    fst (fst res) = 0 ->
    rate_discrete c' = true ->
    exists pages last,
      replies w = (pages ++ [last]) ++ replies (snd res)
      /\ sent (trace (snd res))
         = sent (trace w)
           ++ rates_requests (priv_clk_id p) (desc_index st) (pages ++ [last])
      /\ Forall (fun rp => NUM_REMAINING (get_unaligned_le32 (rx_buf rp) 0)
                           <> 0) pages
      /\ (NUM_REMAINING (get_unaligned_le32 (rx_buf last) 0) = 0
          \/ list_num_rates c' = SCMI_MAX_NUM_RATES)
      /\ list_num_rates c'
         = desc_index st
           + Z.of_nat (length (received_rates (pages ++ [last])))
      /\ 0 <= list_num_rates c' <= SCMI_MAX_NUM_RATES
      /\ length (list_rates c') = Z.to_nat SCMI_MAX_NUM_RATES
      /\ take (Z.to_nat (list_num_rates c')) (list_rates c')
         = take (Z.to_nat (desc_index st)) (list_rates (priv_clk p))
           ++ received_rates (pages ++ [last]).
Proof.
  unfold SCMI_MAX_NUM_RATES.
  induction fuel as [| fuel IH]; intros st p w Hmax Hdi Hnum Hlen;
    cbv zeta; cbn [iter_loop].
  - mrun. intros H. discriminate H.
  - mrun. destruct (replies w) as [| rp rest] eqn:Hrep; cbn [next_reply tail].
    + change (nonzero (status timeout_reply)) with true. mrun.
      intros H. discriminate H.
    + destruct (nonzero (status rp)) eqn:Hst; mrun.
      { intros H. rewrite H in Hst. discriminate Hst. }
      cbn [update_state describe_rates_ops prepare_message]. mrun.
      unfold iter_clk_describe_prepare_message.
      set (t := mk_xfer CLOCK_DESCRIBE_RATES _ false false).
      assert (Hsent1 : sent (trace w ++ [EvXfer t]) = sent (trace w) ++ [t])
        by (rewrite sent_app; reflexivity).
      match goal with
      | |- context [iter_clk_describe_update_state ?s ?r ?q] =>
          destruct (describe_update_cases s r q)
            as [(Hdsc & Hu) | [(Hdsc & Hbad & Hu) | (Hdsc & Hrem & Hq & Hu)]];
          rewrite Hu; clear Hu
      end; mrun.
      * (* a discrete page *)
        change (nonzero 0) with false. cbv iota.
        set (flags := get_unaligned_le32 (rx_buf rp) 0) in *.
        pose proof (num_returned_nonneg flags) as Hnn.
        stsimpl. rewrite Hmax. rewrite to_u32_small by lia.
        destruct (Z.gtb_spec (NUM_RETURNED flags) (16 - desc_index st))
          as [Hover | Hroom]; mrun; [intros H; discriminate H |].
        match goal with
        | |- context [iter_process describe_rates_ops ?r ?n ?s ?q] =>
            pose proof (describe_process_discrete r n s q) as Hproc;
            pose proof (describe_process_id r n s q) as Hid3;
            destruct (iter_process describe_rates_ops r n s q)
              as [r3 [st3 p3]]
        end.
        unfold SCMI_MAX_NUM_RATES in Hproc. cbv zeta in Hproc.
        cbn [fst snd] in *. stsimpl_in Hproc. stsimpl_in Hid3.
        cbn [rate_discrete list_rates list_num_rates set_rate_discrete] in Hproc.
        destruct Hproc as (Hr3 & Hl3 & Hn3 & Ht3 & Hd3 & Hret3 & Hrem3 & Hmx3);
          [reflexivity | lia | lia | lia | exact Hlen | lia |].
        subst r3. change (nonzero 0) with false. cbv iota.
        rewrite Hd3, Hret3, Hrem3, Hmx3, Hmax.
        rewrite (to_u32_small (desc_index st + NUM_RETURNED flags)) by lia.
        rewrite Z.add_0_r in Ht3. rewrite Z2Nat.id in Hn3 by lia.
        assert (Hpage : page_rates rp
                        = map (RATE_TO_U64 (rx_buf rp))
                              (seq (Z.to_nat 0) (Z.to_nat (NUM_RETURNED flags))))
          by reflexivity.
        destruct (nonzero (NUM_REMAINING flags)
                  && (desc_index st + NUM_RETURNED flags <? 16)) eqn:Hgo;
          mrun.
        -- apply andb_prop in Hgo. destruct Hgo as [Hmore _].
           assert (Hmore' : NUM_REMAINING flags <> 0).
           { intros Hz. rewrite Hz in Hmore. discriminate Hmore. }
           match goal with
           | |- context [iter_loop fuel _ _ ?s ?q ?v] =>
               pose proof (IH s q v) as IH';
               set (X := iter_loop fuel describe_rates_ops
                           CLOCK_DESCRIBE_RATES s q v) in *
           end.
           stsimpl_in IH'. cbn [replies trace] in IH'.
           intros H0 Hdisc.
           destruct IH' as (pages & last & Hp1 & Hs & Hall & Hend & Hp2 & Hp3
                            & Hp4 & Hp5);
             [congruence | lia | lia | exact Hl3 | exact H0 | exact Hdisc |].
           exists (rp :: pages), last.
           change ((rp :: pages) ++ [last]) with (rp :: (pages ++ [last])).
           cbn [app received_rates flat_map].
           fold (received_rates (pages ++ [last])).
           split; [rewrite Hp1; reflexivity |].
           split.
           { rewrite Hs, Hsent1, <- app_assoc, Hid3. reflexivity. }
           split; [constructor; [exact Hmore' | exact Hall] |].
           split; [exact Hend |].
           rewrite length_app, Hpage, length_map, length_seq.
           split; [lia |]. split; [exact Hp3 |]. split; [exact Hp4 |].
           rewrite Hp5, app_assoc. f_equal. rewrite <- Ht3. f_equal. lia.
        -- intros _ Hdisc. exists [], rp.
           cbn [app received_rates flat_map].
           rewrite app_nil_r, Hpage, length_map, length_seq.
           split; [reflexivity |].
           split; [rewrite Hsent1; reflexivity |].
           split; [constructor |].
           split.
           { apply andb_false_iff in Hgo. destruct Hgo as [Hz | Hfull].
             - left. apply nonzero_false. exact Hz.
             - right. apply Z.ltb_ge in Hfull. lia. }
           split; [lia |]. split; [lia |].
           split; [exact Hl3 |].
           rewrite <- Ht3. f_equal. lia.
      * (* a continuous reply that cannot be fixed *)
        change (nonzero (- EPROTO)) with true. mrun.
        intros H. discriminate H.
      * (* a continuous triplet ends the run with a continuous shape *)
        change (nonzero 0) with false. cbv iota.
        stsimpl. rewrite Hmax. rewrite to_u32_small by lia.
        destruct (3 >? 16 - desc_index st); mrun;
          [intros H; discriminate H |].
        match goal with
        | |- context [iter_process describe_rates_ops ?r ?n ?s ?q] =>
            pose proof (describe_process_keeps_shape r n s q) as Hshape;
            destruct (iter_process_state describe_rates_ops r n s q)
              as (_ & _ & Hrem3 & _);
            destruct (iter_process describe_rates_ops r n s q)
              as [r3 [st3 p3]]
        end.
        cbn [fst snd] in *. stsimpl_in Hrem3. stsimpl_in Hshape.
        cbn [rate_discrete set_rate_discrete] in Hshape.
        destruct (nonzero r3) eqn:Hnz; mrun.
        -- intros H. rewrite H in Hnz. discriminate Hnz.
        -- rewrite Hrem3. change (nonzero 0) with false. mrun.
           intros _ Hdisc. congruence.
Qed.

Lemma consumed_prefix (w w' : world) (pages : list scmi_reply) :
  replies w = pages ++ replies w' -> consumed w w' = pages.
Proof.
  intros H. unfold consumed. rewrite H, length_app.
  replace (length pages + length (replies w') - length (replies w'))%nat
    with (length pages) by lia.
  apply take_app_length.
Qed.

(** C9.  A successful rate enumeration of a discrete-rate domain (the
    record starts with an empty list, as allocated; every reply fits the
    room the rate array has left) drains the firmware before it sorts: it
    takes replies until one announces that nothing remains or the array is
    full, asking for each at the number of rates received so far.  The
    rate count is then the number of rate values in those replies, and the
    first [num_rates] entries of the rate list are in ascending order and
    are a permutation of these values: duplicates are kept, only the order
    changes. *)
Theorem discrete_rates_sorted_permutation (clk_id : Z)
    (c : scmi_clock_info) (w : world)
    (Hnum : list_num_rates c = 0)
    (Hlen : length (list_rates c) = Z.to_nat SCMI_MAX_NUM_RATES) :
  let res := scmi_clock_describe_rates_get clk_id c w in
  let c' := snd (fst res) in
  let n := Z.to_nat (list_num_rates c') in
  fst (fst res) = 0 ->
  rate_discrete c' = true ->
  rates_fit 0 (consumed w (snd res)) ->
  (exists pages last,
     consumed w (snd res) = pages ++ [last]
     /\ Forall (fun rp => NUM_REMAINING (get_unaligned_le32 (rx_buf rp) 0)
                          <> 0) pages
     /\ (NUM_REMAINING (get_unaligned_le32 (rx_buf last) 0) = 0
         \/ list_num_rates c' = SCMI_MAX_NUM_RATES))
  /\ sent (trace (snd res))
     = sent (trace w) ++ rates_requests clk_id 0 (consumed w (snd res))
  /\ list_num_rates c'
     = Z.of_nat (length (received_rates (consumed w (snd res))))
  /\ Sorted Z.le (take n (list_rates c'))
  /\ Permutation (take n (list_rates c'))
                 (received_rates (consumed w (snd res))).
Proof.
  cbv zeta. unfold scmi_clock_describe_rates_get, iter_response_init. mrun.
  destruct (nonzero (next_init (inits w))) eqn:Hinit; mrun.
  { intros H. rewrite H in Hinit. discriminate Hinit. }
  unfold iter_response_run. mrun.
  cbn [iter_msg_id iter_ops iter_state iter_priv].
  match goal with
  | |- context [iter_loop ?f ?o ?m ?s ?q ?v] =>
      pose proof (describe_loop_discrete f s q v) as Hloop;
      destruct (iter_loop f o m s q v) as [[r p'] w'] eqn:Hrun
  end.
  cbv zeta in Hloop.
  specialize (Hloop eq_refl ltac:(vm_compute; split; discriminate) Hnum Hlen).
  mrun. cbn [fst snd] in Hloop. stsimpl_in Hloop.
  cbn [replies trace] in Hloop.
  destruct (nonzero r) eqn:Hr; mrun.
  { intros H. rewrite H in Hr. discriminate Hr. }
  apply nonzero_false in Hr. subst r.
  destruct (rate_discrete (priv_clk p')) eqn:Hdisc; cbn [negb]; mrun;
    [| intros _ H; congruence].
  destruct (Hloop eq_refl eq_refl)
    as (pages & last & Hp1 & Hs & Hall & Hend & Hp2 & Hp3 & Hp4 & Hp5).
  assert (Hcons : forall tr,
            consumed w (mk_world (inits w') (replies w') (allocs w')
                          (privs w') tr)
            = pages ++ [last])
    by (intros tr; apply consumed_prefix; exact Hp1).
  change (Z.to_nat 0) with 0%nat in Hp5. rewrite take_0, app_nil_l in Hp5.
  rewrite sent_app in Hs. cbn [sent omap] in Hs. rewrite app_nil_r in Hs.
  assert (Hsent : forall m,
            sent (trace w' ++ [EvPut m])
            = sent (trace w) ++ rates_requests clk_id 0 (pages ++ [last])).
  { intros m. rewrite sent_app, Hs. cbn [sent omap]. apply app_nil_r. }
  destruct (nonzero (list_num_rates (priv_clk p'))) eqn:Hnz; mrun;
    intros _ _ _; rewrite Hcons, Hsent;
    cbn [list_rates list_num_rates set_list];
    (split; [exists pages, last; repeat split; assumption |]);
    (split; [reflexivity |]); (split; [lia |]).
  - destruct (sort_prefix (list_rates (priv_clk p'))
                (Z.to_nat (list_num_rates (priv_clk p'))))
      as (_ & Hsorted & Hperm); [unfold SCMI_MAX_NUM_RATES in *; lia |].
    split; [exact Hsorted |]. rewrite Hperm, Hp5. reflexivity.
  - apply nonzero_false in Hnz. rewrite <- Hp5, Hnz.
    change (Z.to_nat 0) with 0%nat. rewrite !take_0. split; constructor.
Qed.

(** A continuous triplet fills the range, whatever the record held. *)
Lemma describe_process_triplet (resp : list Z) (st : scmi_iterator_state)
    (p : scmi_clk_ipriv) :
  rate_discrete (priv_clk p) = false ->
  desc_index st = 0 ->
  let res := iter_process describe_rates_ops resp 3 (set_loop_idx 0 st) p in
  let c' := priv_clk (snd (snd res)) in
  fst res = 0
  /\ rate_discrete c' = false
  /\ range_min_rate c' = RATE_TO_U64 resp 0
  /\ range_max_rate c' = RATE_TO_U64 resp 1
  /\ range_step_size c' = RATE_TO_U64 resp 2.
Proof.
  intros Hd Hz. destruct p as [id c]. destruct c. destruct st.
  simpl in Hd, Hz. subst.
  cbv zeta. cbn -[RATE_TO_U64]. repeat split.
Qed.

(** A continuous triplet processed at a resume index past 0 runs into the
    default case of the switch. *)
Lemma describe_process_continuous_late (resp : list Z)
    (st : scmi_iterator_state) (p : scmi_clk_ipriv) :
  rate_discrete (priv_clk p) = false ->
  0 < desc_index st < 2 ^ 31 ->
  fst (iter_process describe_rates_ops resp 3 (set_loop_idx 0 st) p)
  = - EINVAL.
Proof.
  intros Hd Hdi.
  assert (Hstep : forall q l,
            rate_discrete (priv_clk q) = false -> 0 <= l < 3 ->
            let r := iter_clk_describe_process_response resp
                       (set_loop_idx l st) q in
            (desc_index st + l <= 2 ->
             fst r = 0 /\ rate_discrete (priv_clk (snd r)) = false)
            /\ (2 < desc_index st + l -> fst r = - EINVAL)).
  { intros q l Hq Hl. cbv zeta.
    unfold iter_clk_describe_process_response. stsimpl.
    rewrite Hq. cbn [negb].
    rewrite (to_u32_small (desc_index st + l)) by lia.
    destruct (Z.eqb_spec (desc_index st + l) 0); [lia |].
    destruct (Z.eqb_spec (desc_index st + l) 1);
      [split; [intros _; split; [reflexivity | exact Hq] | lia] |].
    destruct (Z.eqb_spec (desc_index st + l) 2);
      [split; [intros _; split; [reflexivity | exact Hq] | lia] |].
    split; [lia | reflexivity]. }
  cbn [iter_process process_response describe_rates_ops]. stsimpl.
  destruct (Hstep p 0 Hd ltac:(lia)) as [Hok0 Hbad0]. cbv zeta in Hok0, Hbad0.
  destruct (iter_clk_describe_process_response resp (set_loop_idx 0 st) p)
    as [r0 p0]. cbn [fst snd] in *.
  destruct (Z_le_gt_dec (desc_index st + 0) 2) as [Hle0 | Hgt0];
    [| rewrite (Hbad0 ltac:(lia)); reflexivity].
  destruct (Hok0 Hle0) as [-> Hd0]. change (nonzero 0) with false. cbv iota.
  change (0 + 1) with 1.
  change (set_loop_idx 1 (set_loop_idx 0 st)) with (set_loop_idx 1 st).
  destruct (Hstep p0 1 Hd0 ltac:(lia)) as [Hok1 Hbad1].
  cbv zeta in Hok1, Hbad1.
  destruct (iter_clk_describe_process_response resp (set_loop_idx 1 st) p0)
    as [r1 p1]. cbn [fst snd] in *.
  destruct (Z_le_gt_dec (desc_index st + 1) 2) as [Hle1 | Hgt1];
    [| rewrite (Hbad1 ltac:(lia)); reflexivity].
  destruct (Hok1 Hle1) as [-> Hd1]. change (nonzero 0) with false. cbv iota.
  change (1 + 1) with 2.
  change (set_loop_idx 2 (set_loop_idx 1 st)) with (set_loop_idx 2 st).
  destruct (Hstep p1 2 Hd1 ltac:(lia)) as [_ Hbad2]. cbv zeta in Hbad2.
  destruct (iter_clk_describe_process_response resp (set_loop_idx 2 st) p1)
    as [r2 p2]. cbn [fst snd] in *.
  rewrite (Hbad2 ltac:(lia)). reflexivity.
Qed.

(** C3 (as amended).  A continuous-range reply at resume index 0, as the
    first reply of a rate enumeration is, whose remaining-count is 0 and
    whose raw length is the header plus 3 rate entries is accepted as the
    (min, max, step) triplet whatever its returned-count: a count other
    than 3, be it 1 or 2, is corrected to 3 (so is a conforming reply with
    count 3 of any length).  A continuous-range reply, at whatever resume
    index, is rejected with [-EPROTO], and the enumeration of the domain
    abandoned, exactly when its remaining-count is not 0, or its
    returned-count is not 3 and its raw length is not the header plus 3
    entries.  A continuous-range reply that passes this test but comes at a
    resume index above 0, after rates were received, is not accepted
    either: the enumeration fails with [-EINVAL]. *)
Theorem continuous_reply_quirk (clk_id : Z) (c : scmi_clock_info) (w : world)
    (Hinit : next_init (inits w) = 0)
    (Hok : status (next_reply (replies w)) = 0)
    (Hcont : RATE_DISCRETE
               (get_unaligned_le32 (rx_buf (next_reply (replies w))) 0)
             = false) :
  let rx := rx_buf (next_reply (replies w)) in
  let flags := get_unaligned_le32 rx 0 in
  let res := scmi_clock_describe_rates_get clk_id c w in
  let c' := snd (fst res) in
  (NUM_REMAINING flags = 0 ->
   NUM_RETURNED flags = 3
   \/ Z.of_nat (length rx) = describe_rates_triplet_len ->
   fst (fst res) = 0
   /\ rate_discrete c' = false
   /\ range_min_rate c' = RATE_TO_U64 rx 0
   /\ range_max_rate c' = RATE_TO_U64 rx 1
   /\ range_step_size c' = RATE_TO_U64 rx 2)
  /\ (NUM_REMAINING flags <> 0
      \/ (NUM_RETURNED flags <> 3
          /\ Z.of_nat (length rx) <> describe_rates_triplet_len) ->
      fst (fst res) = - EPROTO)
  /\ (forall (fuel : nat) (st : scmi_iterator_state) (p : scmi_clk_ipriv)
             (w' : world),
        let rx' := rx_buf (next_reply (replies w')) in
        let flags' := get_unaligned_le32 rx' 0 in
        let run := iter_loop (S fuel) describe_rates_ops
                     CLOCK_DESCRIBE_RATES st p w' in
        let d := priv_clk (snd (fst run)) in
        status (next_reply (replies w')) = 0 ->
        RATE_DISCRETE flags' = false ->
        max_resources st = SCMI_MAX_NUM_RATES ->
        0 <= desc_index st <= SCMI_MAX_NUM_RATES ->
        (NUM_REMAINING flags' <> 0
         \/ (NUM_RETURNED flags' <> 3
             /\ Z.of_nat (length rx') <> describe_rates_triplet_len) ->
         fst (fst run) = - EPROTO)
        /\ (NUM_REMAINING flags' = 0 ->
            NUM_RETURNED flags' = 3
            \/ Z.of_nat (length rx') = describe_rates_triplet_len ->
            (desc_index st = 0 ->
             fst (fst run) = 0
             /\ rate_discrete d = false
             /\ range_min_rate d = RATE_TO_U64 rx' 0
             /\ range_max_rate d = RATE_TO_U64 rx' 1
             /\ range_step_size d = RATE_TO_U64 rx' 2)
            /\ (0 < desc_index st -> fst (fst run) = - EINVAL))).
Proof.
  assert (Hround :
    forall (fuel : nat) (st : scmi_iterator_state) (p : scmi_clk_ipriv)
           (w' : world),
      let rx' := rx_buf (next_reply (replies w')) in
      let flags' := get_unaligned_le32 rx' 0 in
      let run := iter_loop (S fuel) describe_rates_ops
                   CLOCK_DESCRIBE_RATES st p w' in
      let d := priv_clk (snd (fst run)) in
      status (next_reply (replies w')) = 0 ->
      RATE_DISCRETE flags' = false ->
      max_resources st = SCMI_MAX_NUM_RATES ->
      0 <= desc_index st <= SCMI_MAX_NUM_RATES ->
      (NUM_REMAINING flags' <> 0
       \/ (NUM_RETURNED flags' <> 3
           /\ Z.of_nat (length rx') <> describe_rates_triplet_len) ->
       fst (fst run) = - EPROTO)
      /\ (NUM_REMAINING flags' = 0 ->
          NUM_RETURNED flags' = 3
          \/ Z.of_nat (length rx') = describe_rates_triplet_len ->
          (desc_index st = 0 ->
           fst (fst run) = 0
           /\ rate_discrete d = false
           /\ range_min_rate d = RATE_TO_U64 rx' 0
           /\ range_max_rate d = RATE_TO_U64 rx' 1
           /\ range_step_size d = RATE_TO_U64 rx' 2)
          /\ (0 < desc_index st -> fst (fst run) = - EINVAL))).
  { intros fuel st p w' rx' flags' run d Hok' Hcont' Hmax Hdi.
    subst run d flags' rx'.
    unfold SCMI_MAX_NUM_RATES in *. cbn [iter_loop]. mrun.
    rewrite Hok'. change (nonzero 0) with false. mrun.
    cbn [update_state describe_rates_ops]. mrun.
    match goal with
    | |- context [iter_clk_describe_update_state ?s ?r ?q] =>
        destruct (describe_update_cases s r q)
          as [(Hdsc & Hu) | [(Hdsc & Hbad & Hu) | (Hdsc & Hr0 & Hq & Hu)]];
        rewrite Hu; clear Hu
    end.
    - rewrite Hcont' in Hdsc. discriminate Hdsc.
    - stsimpl_in Hbad. mrun. change (nonzero (- EPROTO)) with true. mrun.
      split; [reflexivity |]. intros Hrem [H3 | Hl]; exfalso; tauto.
    - stsimpl_in Hq. split; [intros [Hn | [Hn Hl]]; exfalso; tauto |].
      intros _ _. mrun. change (nonzero 0) with false. cbv iota. stsimpl.
      rewrite Hmax. rewrite to_u32_small by lia. split.
      + intros Hz. rewrite Hz. change (3 >? 16 - 0) with false. mrun.
        change (Z.to_nat 3) with 3%nat.
        match goal with
        | |- context [iter_process describe_rates_ops ?r 3 (set_loop_idx 0 ?s)
                        ?q] =>
            destruct (describe_process_triplet r s q eq_refl Hz)
              as (Hr & Hd & H0 & H1 & H2);
            destruct (iter_process_state describe_rates_ops r 3
                        (set_loop_idx 0 s) q) as (_ & _ & Hrem3 & _);
            destruct (iter_process describe_rates_ops r 3 (set_loop_idx 0 s)
                        q) as [r3 [st3 p3]]
        end.
        cbn [fst snd] in *. stsimpl_in Hrem3. subst r3.
        change (nonzero 0) with false. cbv iota. stsimpl. rewrite Hrem3.
        change (nonzero 0) with false. mrun.
        repeat split; assumption.
      + intros Hpos.
        destruct (Z.gtb_spec 3 (16 - desc_index st)) as [Hover | Hroom]; mrun;
          [reflexivity |].
        change (Z.to_nat 3) with 3%nat.
        match goal with
        | |- context [iter_process describe_rates_ops ?r 3 (set_loop_idx 0 ?s)
                        ?q] =>
            pose proof (describe_process_continuous_late r s q) as Hlate;
            destruct (iter_process describe_rates_ops r 3 (set_loop_idx 0 s)
                        q) as [r3 [st3 p3]]
        end.
        cbn [fst snd] in *. stsimpl_in Hlate.
        cbn [rate_discrete set_rate_discrete] in Hlate.
        rewrite (Hlate eq_refl ltac:(lia)).
        change (nonzero (- EINVAL)) with true. mrun. reflexivity. }
  cbv zeta. split; [| split; [| exact Hround]].
  - intros Hrem Hthree.
    unfold scmi_clock_describe_rates_get, iter_response_init. mrun.
    rewrite Hinit. change (nonzero 0) with false. mrun.
    unfold iter_response_run. mrun.
    cbn [iter_msg_id iter_ops iter_state iter_priv].
    match goal with
    | |- context [iter_loop (S ?f) ?o ?m ?s ?q ?v] =>
        destruct (Hround f s q v Hok Hcont eq_refl
                    ltac:(vm_compute; split; discriminate))
          as [_ Hpass];
        destruct (Hpass Hrem Hthree) as [Hacc _];
        destruct (Hacc eq_refl) as (Hr & Hd & H0 & H1 & H2);
        destruct (iter_loop (S f) o m s q v) as [[r p'] w2]
    end.
    cbn [fst snd replies] in *. subst r. mrun.
    change (nonzero 0) with false. mrun. rewrite Hd. mrun.
    repeat split; assumption.
  - intros Hbad.
    unfold scmi_clock_describe_rates_get, iter_response_init. mrun.
    rewrite Hinit. change (nonzero 0) with false. mrun.
    unfold iter_response_run. mrun.
    cbn [iter_msg_id iter_ops iter_state iter_priv].
    match goal with
    | |- context [iter_loop (S ?f) ?o ?m ?s ?q ?v] =>
        destruct (Hround f s q v Hok Hcont eq_refl
                    ltac:(vm_compute; split; discriminate))
          as [Hrej _];
        specialize (Hrej Hbad);
        destruct (iter_loop (S f) o m s q v) as [[r p'] w2]
    end.
    cbn [fst snd replies] in *. subst r. mrun.
    change (nonzero (- EPROTO)) with true. mrun. reflexivity.
Qed.

(** The two pages of [w_two_pages]: both are taken, the second is asked
    for at index 2, and four rates are stored. *)
Lemma discrete_rates_sorted_permutation_witness :
  let res := scmi_clock_describe_rates_get 0 clk_zero w_two_pages in
  let c' := snd (fst res) in
  let n := Z.to_nat (list_num_rates c') in
  (exists pages last,
     consumed w_two_pages (snd res) = pages ++ [last]
     /\ Forall (fun rp => NUM_REMAINING (get_unaligned_le32 (rx_buf rp) 0)
                          <> 0) pages
     /\ (NUM_REMAINING (get_unaligned_le32 (rx_buf last) 0) = 0
         \/ list_num_rates c' = SCMI_MAX_NUM_RATES))
  /\ sent (trace (snd res))
     = sent (trace w_two_pages)
       ++ rates_requests 0 0 (consumed w_two_pages (snd res))
  /\ list_num_rates c'
     = Z.of_nat (length (received_rates (consumed w_two_pages (snd res))))
  /\ Sorted Z.le (take n (list_rates c'))
  /\ Permutation (take n (list_rates c'))
                 (received_rates (consumed w_two_pages (snd res))).
Proof.
  apply (discrete_rates_sorted_permutation 0 clk_zero w_two_pages);
    try reflexivity.
  vm_compute. repeat split; discriminate.
Defined.

(** The enumeration of the witness, evaluated: the pages (30, 10) and
    (20, 10) give the list 10, 10, 20, 30. *)
Example two_pages_sorted :
  let c' := snd (fst (scmi_clock_describe_rates_get 0 clk_zero w_two_pages)) in
  take (Z.to_nat (list_num_rates c')) (list_rates c') = [10; 10; 20; 30].
Proof. reflexivity. Qed.

Lemma continuous_reply_quirk_witness :
  let res := scmi_clock_describe_rates_get 0 clk_zero (w_triplet 1) in
  let c' := snd (fst res) in
  (fst (fst res) = 0
   /\ rate_discrete c' = false
   /\ range_min_rate c' = 100
   /\ range_max_rate c' = 200
   /\ range_step_size c' = 10)
  /\ fst (fst (iter_loop 1 describe_rates_ops CLOCK_DESCRIBE_RATES
                 (mk_st 2 0 0 SCMI_MAX_NUM_RATES 0 0) (mk_priv 0 clk_zero)
                 (w_triplet 1))) = - EINVAL.
Proof.
  destruct (continuous_reply_quirk 0 clk_zero (w_triplet 1) eq_refl eq_refl
              eq_refl) as (Hfirst & _ & Hlater).
  split.
  - apply Hfirst; [reflexivity | right; reflexivity].
  - destruct (Hlater 0%nat (mk_st 2 0 0 SCMI_MAX_NUM_RATES 0 0)
                (mk_priv 0 clk_zero) (w_triplet 1)) as [_ Hpass];
      [reflexivity | reflexivity | reflexivity
      | cbn; unfold SCMI_MAX_NUM_RATES; lia |].
    destruct (Hpass eq_refl ltac:(right; reflexivity)) as [_ Hlate].
    apply Hlate. cbn. lia.
Defined.

(** C3 (as stated) fails: a continuous-range reply with returned-count 2,
    remaining-count 0 and a raw length of the header plus 3 entries is not
    rejected; its count is corrected to 3 and the triplet is stored. *)
Lemma continuous_reply_two_accepted :
  let rx := rx_buf (next_reply (replies (w_triplet 2))) in
  let flags := get_unaligned_le32 rx 0 in
  let st := mk_st 0 0 0 SCMI_MAX_NUM_RATES 0 (Z.of_nat (length rx)) in
  let res := scmi_clock_describe_rates_get 0 clk_zero (w_triplet 2) in
  RATE_DISCRETE flags = false
  /\ NUM_RETURNED flags = 2
  /\ NUM_REMAINING flags = 0
  /\ Z.of_nat (length rx) = describe_rates_triplet_len
  /\ fst (iter_clk_describe_update_state st rx (mk_priv 0 clk_zero)) = 0
  /\ num_returned
       (fst (snd (iter_clk_describe_update_state st rx (mk_priv 0 clk_zero))))
     = 3
  /\ fst (fst res) = 0
  /\ fst (fst res) <> - EPROTO
  /\ range_min_rate (snd (fst res)) = 100
  /\ range_max_rate (snd (fst res)) = 200
  /\ range_step_size (snd (fst res)) = 10.
Proof. vm_compute. repeat split. discriminate. Qed.

(** ** Fuel of the iterator

    The run gives [iter_loop] one round more than the script holds
    outcomes.  That is always enough: more fuel does not change the
    result, so no run ends for lack of fuel. *)

Section IterFuel.
Variable ops : scmi_iterator_ops.
Hypothesis update_keeps_script : forall st resp p w,
  replies (snd (update_state ops st resp p w)) = replies w.

Lemma iter_loop_fuel_enough (msg_id : Z) (fuel : nat) :
  forall extra st p w,
    (length (replies w) < fuel)%nat ->
    iter_loop (fuel + extra) ops msg_id st p w
    = iter_loop fuel ops msg_id st p w.
Proof.
  induction fuel as [| fuel IH]; intros extra st p w Hlen; [lia |].
  replace (S fuel + extra)%nat with (S (fuel + extra)) by lia.
  cbn [iter_loop]. mrun.
  destruct (nonzero (status (next_reply (replies w)))) eqn:Hst;
    [reflexivity |].
  match goal with
  | |- context [update_state ops ?s ?r ?q ?v] =>
      pose proof (update_keeps_script s r q v) as Hk;
      destruct (update_state ops s r q v) as [[ru [st2 p2]] w2]
  end.
  cbn [fst snd replies] in *.
  destruct (nonzero ru); [reflexivity |].
  destruct (num_returned st2 >? to_u32 (max_resources st2 - desc_index st2));
    [reflexivity |].
  destruct (iter_process ops (rx_buf (next_reply (replies w)))
              (Z.to_nat (num_returned st2)) (set_loop_idx 0 st2) p2)
    as [r3 [st3 p3]].
  cbn [fst snd].
  destruct (nonzero r3); [reflexivity |].
  match goal with
  | |- context [if ?b then _ else _] => destruct b
  end; [| reflexivity].
  apply IH. rewrite Hk. revert Hlen Hst.
  destruct (replies w); cbn [tail length next_reply];
    [intros _ H; discriminate H | lia].
Qed.
End IterFuel.

Lemma describe_rates_fuel_enough (extra : nat) (st : scmi_iterator_state)
    (p : scmi_clk_ipriv) (w : world) :
  iter_loop (S (length (replies w)) + extra) describe_rates_ops
            CLOCK_DESCRIBE_RATES st p w
  = iter_loop (S (length (replies w))) describe_rates_ops
              CLOCK_DESCRIBE_RATES st p w.
Proof.
  apply iter_loop_fuel_enough; [| lia].
  intros st0 resp p0 w0. reflexivity.
Qed.

Lemma possible_parents_fuel_enough (extra : nat) (st : scmi_iterator_state)
    (p : scmi_clk_ipriv) (w : world) :
  iter_loop (S (length (replies w)) + extra) possible_parents_ops
            CLOCK_POSSIBLE_PARENTS_GET st p w
  = iter_loop (S (length (replies w))) possible_parents_ops
              CLOCK_POSSIBLE_PARENTS_GET st p w.
Proof.
  apply iter_loop_fuel_enough; [| lia].
  intros st0 resp p0 w0. cbn [update_state possible_parents_ops].
  unfold iter_clk_possible_parents_update_state.
  destruct (negb (nonzero (max_resources _))); mrun; [| reflexivity].
  destruct (negb (next_alloc (allocs w0))); reflexivity.
Qed.

(** ** What initialisation establishes

    The hypotheses of the statements above on the table of domains hold of
    every table [scmi_clock_protocol_init] returns. *)

Lemma to_u32_range (x : Z) : 0 <= to_u32 x < 2 ^ 32.
Proof. unfold to_u32. apply Z.mod_pos_bound. lia. Qed.

Lemma possible_parents_update_wf st resp p w :
  attempted (trace (snd (iter_clk_possible_parents_update_state st resp p w)))
    = attempted (trace w)
  /\ keeps_parents_wf p
       (snd (snd (fst (iter_clk_possible_parents_update_state st resp p w)))).
Proof.
  split; [apply possible_parents_update_quiet |].
  unfold iter_clk_possible_parents_update_state, keeps_parents_wf, parents_wf.
  destruct (negb (nonzero (max_resources _))); mrun; [| trivial].
  destruct (negb (next_alloc (allocs w))); mrun;
    cbn [priv_clk num_parents parents set_parents]; intros _.
  - split; [reflexivity | lia].
  - match goal with
    | |- context [to_u32 ?x] => pose proof (to_u32_range x) as Hr
    end.
    rewrite length_replicate. lia.
Qed.

Lemma possible_parents_process_wf resp st p :
  keeps_parents_wf p
    (snd (iter_clk_possible_parents_process_response resp st p)).
Proof.
  unfold keeps_parents_wf, parents_wf,
    iter_clk_possible_parents_process_response.
  cbn [snd priv_clk num_parents parents set_parents].
  rewrite length_insert. trivial.
Qed.

Lemma describe_update_wf st resp p w :
  attempted (trace (snd (update_state describe_rates_ops st resp p w)))
    = attempted (trace w)
  /\ keeps_parents_wf p
       (snd (snd (fst (update_state describe_rates_ops st resp p w)))).
Proof.
  split; [reflexivity |].
  cbn [update_state describe_rates_ops]. mrun.
  destruct (describe_update_cases st resp p)
    as [(_ & Hu) | [(_ & _ & Hu) | (_ & _ & _ & Hu)]];
    rewrite Hu; cbn [fst snd]; unfold keeps_parents_wf; trivial.
Qed.

Lemma describe_process_wf resp st p :
  keeps_parents_wf p (snd (process_response describe_rates_ops resp st p)).
Proof.
  cbn [process_response describe_rates_ops].
  unfold iter_clk_describe_process_response, keeps_parents_wf.
  repeat match goal with
  | |- context [if ?b then _ else _] => destruct b
  end; cbn [snd priv_clk]; trivial.
Qed.

Lemma keeps_parents_wf_refl (p : scmi_clk_ipriv) : keeps_parents_wf p p.
Proof. unfold keeps_parents_wf. trivial. Qed.

Lemma keeps_parents_wf_trans (p q r : scmi_clk_ipriv) :
  keeps_parents_wf p q -> keeps_parents_wf q r -> keeps_parents_wf p r.
Proof. unfold keeps_parents_wf. auto. Qed.

Lemma possible_parents_wf (clk_id : Z) (c : scmi_clock_info) (w : world) :
  parents_wf c ->
  parents_wf (snd (fst (scmi_clock_possible_parents clk_id c w))).
Proof.
  intros Hwf. unfold scmi_clock_possible_parents, iter_response_init. mrun.
  destruct (nonzero (next_init (inits w))); mrun; [exact Hwf |].
  unfold iter_response_run. mrun.
  cbn [iter_msg_id iter_ops iter_state iter_priv].
  match goal with
  | |- context [iter_loop ?f ?o ?m ?s ?q ?v] =>
      destruct (iter_loop_inv o keeps_parents_wf keeps_parents_wf_refl
                  keeps_parents_wf_trans possible_parents_update_wf
                  possible_parents_process_wf m f s q v) as [_ Hr];
      destruct (iter_loop f o m s q v) as [[r p'] w']
  end.
  cbn [fst snd] in *. apply Hr. exact Hwf.
Qed.

Lemma describe_rates_wf (clk_id : Z) (c : scmi_clock_info) (w : world) :
  parents_wf c ->
  parents_wf (snd (fst (scmi_clock_describe_rates_get clk_id c w))).
Proof.
  intros Hwf. unfold scmi_clock_describe_rates_get, iter_response_init. mrun.
  destruct (nonzero (next_init (inits w))); mrun; [exact Hwf |].
  unfold iter_response_run. mrun.
  cbn [iter_msg_id iter_ops iter_state iter_priv].
  match goal with
  | |- context [iter_loop ?f ?o ?m ?s ?q ?v] =>
      destruct (iter_loop_inv o keeps_parents_wf keeps_parents_wf_refl
                  keeps_parents_wf_trans describe_update_wf
                  describe_process_wf m f s q v) as [_ Hr];
      destruct (iter_loop f o m s q v) as [[r p'] w']
  end.
  cbn [fst snd] in *. specialize (Hr Hwf).
  repeat match goal with
  | |- context [if ?b then _ else _] => destruct b; mrun
  end; exact Hr.
Qed.

Lemma attributes_get_wf (clk_id version : Z) (c : scmi_clock_info)
    (w : world) :
  parents_wf c ->
  parents_wf (snd (fst (scmi_clock_attributes_get clk_id c version w))).
Proof.
  intros Hwf. unfold scmi_clock_attributes_get. mrun.
  destruct (nonzero (next_init (inits w))); mrun; [exact Hwf |].
  assert (Hdec : forall rx, parents_wf (attributes_decode rx version c))
    by (intros rx; exact Hwf).
  destruct (nonzero (status (next_reply (replies w)))); mrun; [exact Hwf |].
  destruct (PROTOCOL_REV_MAJOR version >=? 2); mrun; [| apply Hdec].
  unfold attributes_refine. mrun.
  repeat match goal with
  | |- context [if nonzero (?f ?a) then _ else _] =>
      destruct (nonzero (f a)); mrun
  | |- context [extended_name_get ?m ?i ?n ?l ?v] =>
      destruct (extended_name_get m i n l v) as [[rn nm] wn]; mrun
  | |- context [scmi_clock_possible_parents ?i ?d ?v] =>
      let H := fresh "Hp" in
      assert (H : parents_wf d -> parents_wf
                    (snd (fst (scmi_clock_possible_parents i d v))))
        by apply possible_parents_wf;
      destruct (scmi_clock_possible_parents i d v) as [[rq c4] w4];
      cbn [fst snd] in H; mrun
  | |- context [scmi_clock_get_permissions ?i ?d ?v] =>
      let H := fresh "Hg" in
      destruct (get_permissions_spec i d v) as (_ & s1 & s2 & s3 & H);
      destruct (scmi_clock_get_permissions i d v) as [[rg c5] w5];
      cbn [fst snd] in H; subst c5; mrun
  end;
  repeat match goal with
  | H : parents_wf ?d -> parents_wf ?e |- parents_wf (_ ?e) => apply H
  | H : parents_wf ?d -> parents_wf ?e |- parents_wf ?e => apply H
  end; try (apply Hdec); try exact Hwf.
Qed.

Lemma init_domain_wf (clkid version : Z) (c : scmi_clock_info) (w : world) :
  parents_wf c -> parents_wf (fst (init_domain clkid version c w)).
Proof.
  intros Hwf. unfold init_domain. mrun.
  pose proof (attributes_get_wf clkid version c w Hwf) as Ha.
  destruct (scmi_clock_attributes_get clkid c version w) as [[r c1] w1].
  cbn [fst snd] in *.
  destruct (nonzero r); mrun; [exact Ha |].
  pose proof (describe_rates_wf clkid c1 w1 Ha) as Hd.
  destruct (scmi_clock_describe_rates_get clkid c1 w1) as [[r2 c2] w2].
  exact Hd.
Qed.

Lemma init_domains_wf (n : nat) :
  forall clkid version clks w,
    Forall parents_wf clks ->
    let clks' := fst (init_domains n clkid version clks w) in
    length clks' = length clks /\ Forall parents_wf clks'.
Proof.
  induction n as [| n IH]; intros clkid version clks w Hall; cbv zeta;
    cbn [init_domains]; mrun.
  - split; [reflexivity | exact Hall].
  - assert (Hzero : parents_wf clk_zero) by (split; [reflexivity | reflexivity]).
    assert (Hc : parents_wf (nth (Z.to_nat clkid) clks clk_zero)).
    { destruct (nth_in_or_default (Z.to_nat clkid) clks clk_zero) as [Hin | ->];
        [| exact Hzero].
      rewrite Forall_forall in Hall. apply Hall.
      apply list_elem_of_In. exact Hin. }
    pose proof (init_domain_wf clkid version _ w Hc) as Hd.
    destruct (init_domain clkid version (nth (Z.to_nat clkid) clks clk_zero) w)
      as [c' w1].
    cbn [fst] in Hd.
    destruct (IH (clkid + 1) version (<[Z.to_nat clkid := c']> clks) w1)
      as [Hlen Hall'].
    { apply Forall_insert; assumption. }
    rewrite length_insert in Hlen. split; assumption.
Qed.

Lemma byte_at_range (buf : list Z) (off : nat) : 0 <= byte_at buf off <= 255.
Proof.
  unfold byte_at.
  assert (H : Z.land (default 0 (buf !! off)) 255
              = default 0 (buf !! off) mod 2 ^ 8)
    by (change 255 with (Z.ones 8); apply Z.land_ones; lia).
  rewrite H.
  pose proof (Z.mod_pos_bound (default 0 (buf !! off)) (2 ^ 8) ltac:(lia)).
  change (2 ^ 8) with 256 in *. lia.
Qed.

Lemma get_unaligned_le16_range (buf : list Z) (off : nat) :
  0 <= get_unaligned_le16 buf off < 2 ^ 16.
Proof.
  unfold get_unaligned_le16.
  pose proof (byte_at_range buf off) as H0.
  pose proof (byte_at_range buf (off + 1)) as H1.
  rewrite Z.shiftl_mul_pow2 by lia.
  rewrite <- Z.add_nocarry_lor.
  - change (2 ^ 8) with 256. lia.
  - apply Z.bits_inj'. intros n Hn.
    rewrite Z.land_spec, Z.bits_0, <- (Z.shiftl_mul_pow2 _ 8) by lia.
    rewrite shiftl_testbit by lia.
    destruct (Z.ltb_spec n 8).
    + rewrite (Z.testbit_neg_r _ (n - 8)) by lia.
      cbn [andb]. apply andb_false_r.
    + rewrite (testbit_above (byte_at buf off) 8 n); [reflexivity | | lia].
      change (2 ^ 8) with 256. lia.
Qed.

(** What initialisation establishes about the table it returns: the
    ranges of the two protocol attributes, an idle admission counter, one
    record per domain, parent counts that agree with the parent arrays, and
    the configuration variant chosen from the version. *)
Lemma protocol_init_well_formed (w : world) (ci : clock_info) :
  fst (scmi_clock_protocol_init w) = (0, Some ci) ->
  0 <= num_clocks ci < 2 ^ 16
  /\ 0 <= max_async_req ci <= 255
  /\ cur_async_req ci = 0
  /\ Z.of_nat (length (clk ci)) = num_clocks ci
  /\ Forall parents_wf (clk ci)
  /\ (clock_config_set ci, clock_config_get ci) = select_config (version ci).
Proof.
  unfold scmi_clock_protocol_init. mrun.
  destruct (version_get w) as [[rv v] w1]. mrun.
  destruct (nonzero rv); mrun; [intros H; discriminate H |].
  destruct (negb (next_alloc (allocs w1))); mrun;
    [intros H; discriminate H |].
  unfold scmi_clock_protocol_attributes_get. mrun.
  destruct (nonzero (next_init (inits w1))) eqn:Hi; mrun; rewrite ?Hi; mrun;
    [intros H; discriminate H |].
  destruct (nonzero (status (next_reply (replies w1)))) eqn:Hs; mrun;
    rewrite ?Hs; mrun; [intros H; discriminate H |].
  match goal with
  | |- context [if negb ?b then _ else _] => destruct b
  end; mrun; [| intros H; discriminate H].
  match goal with
  | |- context [init_domains ?n ?i ?ver ?cl ?v] =>
      destruct (init_domains_wf n i ver cl v) as [Hlen Hall];
        [apply Forall_replicate; split; reflexivity |];
      destruct (init_domains n i ver cl v) as [clks w4]
  end.
  cbn [fst snd privs] in *.
  destruct (nonzero (next_init (privs w4))) eqn:Hp; intros H;
    [discriminate H |].
  injection H as _ <-.
  cbn [num_clocks max_async_req cur_async_req clk clock_config_set
       clock_config_get version].
  set (rx := rx_buf (next_reply (replies w1))) in *.
  pose proof (get_unaligned_le16_range rx 0) as H16.
  pose proof (byte_at_range rx 2) as H8.
  rewrite length_replicate in Hlen.
  split; [exact H16 |]. split; [exact H8 |]. split; [reflexivity |].
  split; [rewrite Hlen; lia |]. split; [exact Hall |].
  destruct (select_config v); reflexivity.
Qed.

Lemma protocol_init_lookup_parents (w : world) (ci : clock_info) (clk_id : Z)
    (c : scmi_clock_info) :
  fst (scmi_clock_protocol_init w) = (0, Some ci) ->
  scmi_clock_domain_lookup ci clk_id = inr c ->
  num_parents c = Z.of_nat (length (parents c))
  /\ Z.of_nat (length (parents c)) < 2 ^ 32.
Proof.
  intros Hinit Hl.
  destruct (protocol_init_well_formed w ci Hinit) as (_ & _ & _ & _ & Hall & _).
  unfold scmi_clock_domain_lookup in Hl.
  destruct (clk_id >=? to_u32 (num_clocks ci)); [discriminate Hl |].
  injection Hl as <-.
  assert (Hwf : parents_wf (nth (Z.to_nat clk_id) (clk ci) clk_zero)).
  { destruct (nth_in_or_default (Z.to_nat clk_id) (clk ci) clk_zero)
      as [Hin | ->]; [| split; reflexivity].
    rewrite Forall_forall in Hall. apply Hall.
    apply list_elem_of_In. exact Hin. }
  destruct Hwf as [Hn Hb]. split; [exact Hn | rewrite <- Hn; exact Hb].
Qed.

(** ** Further facts on the wire codec *)

Lemma get_unaligned_le32_range (buf : list Z) (off : nat) :
  0 <= get_unaligned_le32 buf off < 2 ^ 32.
Proof.
  unfold get_unaligned_le32.
  assert (Hb : forall k, 0 <= byte_at buf k < 2 ^ 8).
  { intros k. pose proof (byte_at_range buf k). change (2 ^ 8) with 256. lia. }
  assert (Hbits : forall n, 32 <= n ->
            Z.testbit
              (Z.lor (byte_at buf off)
                 (Z.lor (Z.shiftl (byte_at buf (off + 1)) 8)
                    (Z.lor (Z.shiftl (byte_at buf (off + 2)) 16)
                           (Z.shiftl (byte_at buf (off + 3)) 24)))) n
            = false).
  { intros n Hn. rewrite !Z.lor_spec.
    rewrite (shiftl_testbit _ 8), (shiftl_testbit _ 16),
      (shiftl_testbit _ 24) by lia.
    rewrite (testbit_above (byte_at buf off) 8 n) by (auto; lia).
    rewrite (testbit_above (byte_at buf (off + 1)) 8 (n - 8)) by (auto; lia).
    rewrite (testbit_above (byte_at buf (off + 2)) 8 (n - 16))
      by (auto; lia).
    rewrite (testbit_above (byte_at buf (off + 3)) 8 (n - 24))
      by (auto; lia).
    reflexivity. }
  set (v := Z.lor _ _) in *.
  assert (Hnn : 0 <= v).
  { subst v. repeat (apply Z.lor_nonneg; split);
      try (apply Z.shiftl_nonneg); apply Hb. }
  split; [exact Hnn |].
  destruct (Z.eq_dec v 0) as [-> | Hne]; [reflexivity |].
  apply Z.log2_lt_pow2; [lia |].
  destruct (Z_lt_ge_dec (Z.log2 v) 32) as [Hlt | Hge]; [exact Hlt |].
  exfalso. specialize (Hbits (Z.log2 v) ltac:(lia)).
  rewrite (Z.bit_log2 v) in Hbits by lia. discriminate Hbits.
Qed.

(** The two halves of a 64-bit value put it back together. *)
Lemma halves_join (r : Z) :
  0 <= r ->
  Z.lor (Z.land r 0xffffffff) (Z.shiftl (Z.shiftr r 32) 32) = r.
Proof.
  intros Hr. apply Z.bits_inj'. intros n Hn.
  rewrite Z.lor_spec, Z.land_spec, shiftl_testbit by lia.
  change 0xffffffff with (Z.ones 32).
  rewrite Z.testbit_ones_nonneg by lia.
  destruct (Z.leb_spec 0 n); [| lia].
  destruct (Z.ltb_spec n 32).
  - rewrite (Z.testbit_neg_r _ (n - 32)) by lia.
    rewrite andb_true_r. cbn [andb]. apply orb_false_r.
  - rewrite shiftr_testbit by lia.
    destruct (Z.leb_spec 0 (n - 32)); [| lia].
    rewrite andb_false_r, !andb_true_r. cbn [orb]. f_equal. lia.
Qed.

Lemma low_half_range (r : Z) : 0 <= Z.land r 0xffffffff < 2 ^ 32.
Proof.
  change 0xffffffff with (Z.ones 32). rewrite Z.land_ones by lia.
  apply Z.mod_pos_bound. lia.
Qed.

Lemma high_half_range (r : Z) :
  0 <= r < 2 ^ 64 -> 0 <= Z.shiftr r 32 < 2 ^ 32.
Proof.
  intros Hr. rewrite Z.shiftr_div_pow2 by lia. split.
  - apply Z.div_pos; lia.
  - apply Z.div_lt_upper_bound; lia.
Qed.

(** A 64-bit value stored as two little-endian halves, low half first, is
    read back whole. *)
Lemma get_le64_halves (pre : list Z) (r : Z) (post : list Z) :
  0 <= r < 2 ^ 64 ->
  get_unaligned_le64
    (pre ++ put_unaligned_le32 (Z.land r 0xffffffff) ++
     put_unaligned_le32 (Z.shiftr r 32) ++ post) (length pre) = r.
Proof.
  intros Hr. unfold get_unaligned_le64.
  rewrite <- (Nat.add_0_r (length pre)) at 1.
  rewrite get_le32_app, get_put_le32 by apply low_half_range.
  rewrite app_assoc.
  replace (length pre + 4)%nat
    with (length (pre ++ put_unaligned_le32 (Z.land r 0xffffffff)) + 0)%nat
    by (rewrite length_app; cbn [length put_unaligned_le32]; lia).
  rewrite get_le32_app, get_put_le32 by (apply high_half_range; exact Hr).
  apply halves_join. lia.
Qed.

Lemma below_pow2_of_bits (v k : Z) :
  0 <= v -> 0 <= k ->
  (forall n, k <= n -> Z.testbit v n = false) ->
  v < 2 ^ k.
Proof.
  intros Hv Hk Hbits.
  destruct (Z.eq_dec v 0) as [-> | Hne]; [apply Z.pow_pos_nonneg; lia |].
  apply Z.log2_lt_pow2; [lia |].
  destruct (Z_lt_ge_dec (Z.log2 v) k) as [Hlt | Hge]; [exact Hlt |].
  exfalso. specialize (Hbits (Z.log2 v) ltac:(lia)).
  rewrite (Z.bit_log2 v) in Hbits by lia. discriminate Hbits.
Qed.

Lemma get_unaligned_le64_range (buf : list Z) (off : nat) :
  0 <= get_unaligned_le64 buf off < 2 ^ 64.
Proof.
  unfold get_unaligned_le64.
  pose proof (get_unaligned_le32_range buf off) as Hlo.
  pose proof (get_unaligned_le32_range buf (off + 4)) as Hhi.
  assert (Hnn : 0 <= Z.lor (get_unaligned_le32 buf off)
                       (Z.shiftl (get_unaligned_le32 buf (off + 4)) 32)).
  { apply Z.lor_nonneg. split; [lia | apply Z.shiftl_nonneg; lia]. }
  split; [exact Hnn |].
  apply below_pow2_of_bits; [exact Hnn | lia |].
  intros n Hn. rewrite Z.lor_spec, shiftl_testbit by lia.
  rewrite (testbit_above _ 32 n) by (auto; lia).
  rewrite (testbit_above _ 32 (n - 32)) by (auto; lia).
  reflexivity.
Qed.

(** X1.  The 64-bit rate survives the wire: the request [set_rate] builds
    carries the flags, the domain id and the rate as low and high halves
    that read back, as one little-endian 64-bit value, to the rate; and the
    same two halves in entry [i] of a CLOCK_DESCRIBE_RATES reply, whatever
    [i] and whatever the entries before and after it, are decoded by
    [RATE_TO_U64] to the rate. *)
Theorem rate_value_round_trip (flags clk_id rate : Z) (i : nat)
    (hdr pre post : list Z)
    (Hflags : 0 <= flags < 2 ^ 32)
    (Hid : 0 <= clk_id < 2 ^ 32)
    (Hrate : 0 <= rate < 2 ^ 64)
    (Hhdr : length hdr = 4%nat)
    (Hpre : length pre = (8 * i)%nat) :
  let tx := tx_buf (rate_set_message flags clk_id rate) in
  length tx = 16%nat
  /\ get_unaligned_le32 tx 0 = flags
  /\ get_unaligned_le32 tx 4 = clk_id
  /\ get_unaligned_le64 tx 8 = rate
  /\ RATE_TO_U64 (hdr ++ pre ++
                  put_unaligned_le32 (Z.land rate 0xffffffff) ++
                  put_unaligned_le32 (Z.shiftr rate 32) ++ post) i = rate.
Proof.
  cbv zeta. unfold rate_set_message. cbn [tx_buf].
  split; [reflexivity |]. split; [apply get_put_le32; exact Hflags |].
  split.
  { change 4%nat with (length (put_unaligned_le32 flags) + 0)%nat.
    rewrite get_le32_app. apply get_put_le32. exact Hid. }
  split.
  { rewrite app_assoc.
    change 8%nat
      with (length (put_unaligned_le32 flags ++ put_unaligned_le32 clk_id)).
    rewrite <- (app_nil_r (put_unaligned_le32 (Z.shiftr rate 32))).
    apply get_le64_halves. exact Hrate. }
  change (RATE_TO_U64 ?b i) with (get_unaligned_le64 b (4 + 8 * i)).
  rewrite app_assoc.
  replace (4 + 8 * i)%nat with (length (hdr ++ pre))
    by (rewrite length_app; lia).
  apply get_le64_halves. exact Hrate.
Qed.

(** The third entry of a reply that holds the rates 1, 2 and 0x123456789. *)
Lemma rate_value_round_trip_witness :
  let tx := tx_buf (rate_set_message 1 3 0x123456789) in
  get_unaligned_le64 tx 8 = 0x123456789
  /\ RATE_TO_U64 ([0; 0; 0; 0] ++
                  [1; 0; 0; 0; 0; 0; 0; 0; 2; 0; 0; 0; 0; 0; 0; 0] ++
                  put_unaligned_le32 (Z.land 0x123456789 0xffffffff) ++
                  put_unaligned_le32 (Z.shiftr 0x123456789 32) ++ []) 2
     = 0x123456789.
Proof.
  destruct (rate_value_round_trip 1 3 0x123456789 2 [0; 0; 0; 0]
              [1; 0; 0; 0; 0; 0; 0; 0; 2; 0; 0; 0; 0; 0; 0; 0] [])
    as (_ & _ & _ & H64 & Hentry);
    [vm_compute; split; [discriminate | reflexivity]
    | vm_compute; split; [discriminate | reflexivity]
    | vm_compute; split; [discriminate | reflexivity]
    | reflexivity | reflexivity |].
  split; [exact H64 | exact Hentry].
Defined.

(** ** Query operations *)

(** X2.  [rate_get] asks the firmware whatever the domain id: when no
    transfer can be had it returns that error, sends nothing and leaves the
    caller's value alone; otherwise exactly one CLOCK_RATE_GET request
    carrying the id goes out and the transport status is returned, with the
    caller's value replaced, on success only, by the 64-bit little-endian
    value of the reply, which fits in 64 bits. *)
Theorem rate_get_result (clk_id value : Z) (w : world) :
  let res := scmi_clock_rate_get clk_id value w in
  let rp := next_reply (replies w) in
  (next_init (inits w) <> 0 ->
   fst (fst res) = next_init (inits w)
   /\ snd (fst res) = value
   /\ sent (trace (snd res)) = sent (trace w)
   /\ replies (snd res) = replies w)
  /\ (next_init (inits w) = 0 ->
      fst (fst res) = status rp
      /\ sent (trace (snd res))
         = sent (trace w) ++
           [mk_xfer CLOCK_RATE_GET (put_unaligned_le32 clk_id) false false]
      /\ (status rp = 0 ->
          snd (fst res) = get_unaligned_le64 (rx_buf rp) 0
          /\ 0 <= snd (fst res) < 2 ^ 64)
      /\ (status rp <> 0 -> snd (fst res) = value)).
Proof.
  cbv zeta. unfold scmi_clock_rate_get. mrun. unfold nonzero.
  destruct (Z.eqb_spec (next_init (inits w)) 0) as [Hi | Hi]; cbn [negb];
    mrun.
  - split; [intros H; contradiction |]. intros _.
    split; [reflexivity |].
    split; [rewrite <- !app_assoc, !sent_app; reflexivity |].
    destruct (Z.eqb_spec (status (next_reply (replies w))) 0) as [Hs | Hs];
      cbn [negb]; split; intros H; try contradiction; try reflexivity.
    split; [reflexivity | apply get_unaligned_le64_range].
  - split; [| intros H; contradiction]. intros _.
    repeat split; try reflexivity. rewrite sent_app. cbn. apply app_nil_r.
Qed.

Lemma rate_get_result_witness :
  fst (fst (scmi_clock_rate_get 0 7 w_one_ok)) = 0
  /\ snd (fst (scmi_clock_rate_get 0 7 w_one_ok)) = 0.
Proof.
  destruct (rate_get_result 0 7 w_one_ok) as [_ Hok].
  destruct (Hok eq_refl) as (Hret & _ & Hval & _).
  split; [exact Hret |]. apply Hval. reflexivity.
Defined.

(** X3.  [get_parent] likewise asks the firmware whatever the domain id and
    hands back, on success only, the 32-bit word of the reply as it is: a
    firmware domain id, not an index into the domain's parent list. *)
Theorem get_parent_result (clk_id parent_id : Z) (w : world) :
  let res := scmi_clock_get_parent clk_id parent_id w in
  let rp := next_reply (replies w) in
  (next_init (inits w) <> 0 ->
   fst (fst res) = next_init (inits w)
   /\ snd (fst res) = parent_id
   /\ sent (trace (snd res)) = sent (trace w)
   /\ replies (snd res) = replies w)
  /\ (next_init (inits w) = 0 ->
      fst (fst res) = status rp
      /\ sent (trace (snd res))
         = sent (trace w) ++
           [mk_xfer CLOCK_PARENT_GET (put_unaligned_le32 clk_id) false false]
      /\ (status rp = 0 ->
          snd (fst res) = get_unaligned_le32 (rx_buf rp) 0
          /\ 0 <= snd (fst res) < 2 ^ 32)
      /\ (status rp <> 0 -> snd (fst res) = parent_id)).
Proof.
  cbv zeta. unfold scmi_clock_get_parent. mrun. unfold nonzero.
  destruct (Z.eqb_spec (next_init (inits w)) 0) as [Hi | Hi]; cbn [negb];
    mrun.
  - split; [intros H; contradiction |]. intros _.
    split; [reflexivity |].
    split; [rewrite <- !app_assoc, !sent_app; reflexivity |].
    destruct (Z.eqb_spec (status (next_reply (replies w))) 0) as [Hs | Hs];
      cbn [negb]; split; intros H; try contradiction; try reflexivity.
    split; [reflexivity | apply get_unaligned_le32_range].
  - split; [| intros H; contradiction]. intros _.
    repeat split; try reflexivity. rewrite sent_app. cbn. apply app_nil_r.
Qed.

Lemma get_parent_result_witness :
  fst (fst (scmi_clock_get_parent 0 7 w_one_ok)) = 0
  /\ snd (fst (scmi_clock_get_parent 0 7 w_one_ok)) = 0.
Proof.
  destruct (get_parent_result 0 7 w_one_ok) as [_ Hok].
  destruct (Hok eq_refl) as (Hret & _ & Hval & _).
  split; [exact Hret |]. apply Hval. reflexivity.
Defined.

(** ** Mutating operations *)

(** X4.  The four mutating operations check the domain before they touch
    the transport: an id outside the table gives [-EINVAL], and a domain
    whose control is forbidden gives [-EACCES]; in both cases nothing is
    asked of the transport and the table is as it was.  [set_parent] checks
    the selector before the permission, so a selector past the parent list
    of a forbidden domain gives [-EINVAL]. *)
Theorem mutations_refused_locally (ci : clock_info) (clk_id : Z) (w : world) :
  (to_u32 (num_clocks ci) <= clk_id ->
   forall rate parent_id atomic,
     scmi_clock_rate_set ci clk_id rate w = (- EINVAL, ci, w)
     /\ scmi_clock_set_parent ci clk_id parent_id w = (- EINVAL, w)
     /\ scmi_clock_enable ci clk_id atomic w = (- EINVAL, w)
     /\ scmi_clock_disable ci clk_id atomic w = (- EINVAL, w))
  /\ (forall c, scmi_clock_domain_lookup ci clk_id = inr c ->
      (rate_ctrl_forbidden c = true ->
       forall rate, scmi_clock_rate_set ci clk_id rate w = (- EACCES, ci, w))
      /\ (state_ctrl_forbidden c = true ->
          forall atomic,
            scmi_clock_enable ci clk_id atomic w = (- EACCES, w)
            /\ scmi_clock_disable ci clk_id atomic w = (- EACCES, w))
      /\ (parent_ctrl_forbidden c = true ->
          forall parent_id,
            scmi_clock_set_parent ci clk_id parent_id w
            = (if parent_id >=? to_u32 (num_parents c)
               then - EINVAL else - EACCES, w))).
Proof.
  split.
  - intros Hout rate parent_id atomic.
    unfold scmi_clock_rate_set, scmi_clock_set_parent, scmi_clock_enable,
      scmi_clock_disable.
    rewrite (lookup_out_of_range ci clk_id Hout). repeat split.
  - intros c Hl.
    unfold scmi_clock_rate_set, scmi_clock_set_parent, scmi_clock_enable,
      scmi_clock_disable.
    rewrite Hl. split; [| split].
    + intros -> rate. reflexivity.
    + intros -> atomic. split; reflexivity.
    + intros -> parent_id.
      destruct (parent_id >=? to_u32 (num_parents c)); reflexivity.
Qed.

Lemma mutations_refused_locally_witness :
  scmi_clock_rate_set ci_forbidden 1 1000 w_one_ok
    = (- EINVAL, ci_forbidden, w_one_ok)
  /\ scmi_clock_rate_set ci_forbidden 0 1000 w_one_ok
    = (- EACCES, ci_forbidden, w_one_ok)
  /\ scmi_clock_enable ci_forbidden 0 false w_one_ok = (- EACCES, w_one_ok)
  /\ scmi_clock_set_parent ci_forbidden 0 2 w_one_ok = (- EINVAL, w_one_ok)
  /\ scmi_clock_set_parent ci_forbidden 0 1 w_one_ok = (- EACCES, w_one_ok).
Proof.
  destruct (mutations_refused_locally ci_forbidden 1 w_one_ok) as [Hout _].
  destruct (mutations_refused_locally ci_forbidden 0 w_one_ok) as [_ Hin].
  destruct (Hin clk_forbidden eq_refl) as (Hrate & Hstate & Hparent).
  split; [apply (Hout ltac:(vm_compute; discriminate) 1000 0 false) |].
  split; [apply (Hrate eq_refl) |].
  split; [apply (Hstate eq_refl false) |].
  split; [apply (Hparent eq_refl 2) | apply (Hparent eq_refl 1)].
Defined.

Lemma nonzero_land_bit (x n : Z) :
  0 <= n -> nonzero (Z.land x (BIT n)) = Z.testbit x n.
Proof.
  intros Hn. unfold nonzero, BIT. rewrite Z.shiftl_1_l.
  destruct (Z.testbit x n) eqn:Hb.
  - destruct (Z.eqb_spec (Z.land x (2 ^ n)) 0) as [Hz | Hnz]; [| reflexivity].
    exfalso.
    assert (Hbit : Z.testbit (Z.land x (2 ^ n)) n = true).
    { rewrite Z.land_spec, Hb, Z.pow2_bits_true by lia. reflexivity. }
    rewrite Hz, Z.bits_0 in Hbit. discriminate Hbit.
  - assert (Hz : Z.land x (2 ^ n) = 0).
    { apply Z.bits_inj'. intros m Hm.
      rewrite Z.land_spec, Z.bits_0, Z.pow2_bits_eqb by lia.
      destruct (Z.eqb_spec n m) as [<- | Hne];
        [rewrite Hb; reflexivity | apply andb_false_r]. }
    rewrite Hz. reflexivity.
Qed.

Lemma field_prep_small (h l v : Z) :
  0 <= l -> l <= h -> 0 <= v < 2 ^ (h - l + 1) ->
  FIELD_PREP h l v = Z.shiftl v l.
Proof.
  intros Hl Hh Hv. unfold FIELD_PREP, GENMASK.
  rewrite <- Z.shiftl_land, Z.land_ones by lia.
  rewrite Z.mod_small by lia. reflexivity.
Qed.

Lemma config_set_v2_attrs (oem_type : Z) (state : clk_state) :
  0 <= oem_type < 2 ^ 8 ->
  Z.lor (FIELD_PREP 23 16 oem_type) (FIELD_PREP 1 0 (clk_state_val state))
  = oem_type * 2 ^ 16 + clk_state_val state.
Proof.
  intros Ho.
  rewrite (field_prep_small 23 16 oem_type) by (change (23 - 16 + 1) with 8; lia).
  rewrite (field_prep_small 1 0 (clk_state_val state))
    by (try lia; change (2 ^ (1 - 0 + 1)) with 4; destruct state; cbn; lia).
  rewrite Z.shiftl_0_r.
  assert (Hs : 0 <= clk_state_val state < 2 ^ 16)
    by (destruct state; cbn; lia).
  assert (Hdisj : Z.land (Z.shiftl oem_type 16) (clk_state_val state) = 0).
  { apply Z.bits_inj'. intros m Hm.
    rewrite Z.land_spec, Z.bits_0, shiftl_testbit by lia.
    destruct (Z.ltb_spec m 16).
    - rewrite (Z.testbit_neg_r oem_type (m - 16)) by lia. reflexivity.
    - rewrite (testbit_above (clk_state_val state) 16 m) by (auto; lia).
      apply andb_false_r. }
  rewrite <- (Z.lxor_lor _ _ Hdisj), <- (Z.add_nocarry_lxor _ _ Hdisj).
  rewrite Z.shiftl_mul_pow2 by lia. reflexivity.
Qed.

(** X5.  The CLOCK_CONFIG_SET request of protocol 2.1: unless the state is
    the reserved one, or the OEM type is zero and the state is "unchanged"
    (both refused with [-EINVAL] before the transport is touched), and with
    a transfer at hand, exactly one request goes out; its attribute word is
    the OEM type in bits 23:16 over the state in bits 1:0, all other bits
    clear, and its third word is the OEM value when an OEM type is given and
    zero otherwise, whatever OEM value the caller passed.  The transport
    status is returned as it is. *)
Theorem config_set_v2_message (clk_id oem_type oem_val : Z)
    (state : clk_state) (atomic : bool) (w : world)
    (Htype : 0 <= oem_type < 2 ^ 8) :
  let res := scmi_clock_config_set_v2 clk_id state oem_type oem_val atomic w in
  (state = CLK_STATE_RESERVED
   \/ (oem_type = 0 /\ state = CLK_STATE_UNCHANGED) ->
   res = (- EINVAL, w))
  /\ (state <> CLK_STATE_RESERVED ->
      (oem_type = 0 -> state <> CLK_STATE_UNCHANGED) ->
      next_init (inits w) = 0 ->
      fst res = status (next_reply (replies w))
      /\ sent (trace (snd res))
         = sent (trace w) ++
           [mk_xfer CLOCK_CONFIG_SET
              (put_unaligned_le32 clk_id ++
               put_unaligned_le32 (oem_type * 2 ^ 16 + clk_state_val state) ++
               put_unaligned_le32 (if oem_type =? 0 then 0 else oem_val))
              atomic false]).
Proof.
  cbv zeta. unfold scmi_clock_config_set_v2. split.
  - intros [-> | [-> ->]]; reflexivity.
  - intros Hres Hunch Hinit.
    assert (Hguard : clk_state_eqb state CLK_STATE_RESERVED
                     || negb (nonzero oem_type)
                        && clk_state_eqb state CLK_STATE_UNCHANGED = false).
    { unfold nonzero.
      destruct state; cbn [clk_state_eqb clk_state_val Z.eqb Pos.eqb orb].
      - apply andb_false_r.
      - apply andb_false_r.
      - exfalso. apply Hres. reflexivity.
      - destruct (Z.eqb_spec oem_type 0) as [Ho | Ho]; [| reflexivity].
        exfalso. apply (Hunch Ho). reflexivity. }
    rewrite Hguard. mrun. rewrite Hinit. change (nonzero 0) with false. mrun.
    split; [reflexivity |].
    rewrite <- !app_assoc, !sent_app.
    rewrite (config_set_v2_attrs oem_type state Htype).
    unfold nonzero. destruct (oem_type =? 0); reflexivity.
Qed.

Lemma config_set_v2_message_witness :
  scmi_clock_config_set_v2 0 CLK_STATE_UNCHANGED 0 9 false w_one_ok
    = (- EINVAL, w_one_ok)
  /\ sent (trace (snd (scmi_clock_config_set_v2 0 CLK_STATE_UNCHANGED 5 9
                         false w_one_ok)))
     = sent (trace w_one_ok) ++
       [mk_xfer CLOCK_CONFIG_SET
          (put_unaligned_le32 0 ++
           put_unaligned_le32 (5 * 2 ^ 16 + clk_state_val CLK_STATE_UNCHANGED)
           ++ put_unaligned_le32 (if 5 =? 0 then 0 else 9))
          false false].
Proof.
  split.
  - apply (config_set_v2_message 0 0 9 CLK_STATE_UNCHANGED false w_one_ok);
      [lia | right; split; reflexivity].
  - apply (config_set_v2_message 0 5 9 CLK_STATE_UNCHANGED false w_one_ok);
      [lia | discriminate | intros H; discriminate H | reflexivity].
Defined.

(** X6.  [enable] and [disable] on a domain that allows state control, with
    a transfer at hand, send exactly one CLOCK_CONFIG_SET request on either
    message variant and return the transport status: neither variant
    refuses them.  The request names the domain and carries 1 for enable
    and 0 for disable as its second word; the 2.1 variant appends a zero
    OEM value, the older one has two words only.  The polling mode is the
    caller's. *)
Theorem enable_disable_messages (ci : clock_info) (clk_id : Z)
    (c : scmi_clock_info) (atomic : bool) (w : world)
    (Hl : scmi_clock_domain_lookup ci clk_id = inr c)
    (Hperm : state_ctrl_forbidden c = false)
    (Hinit : next_init (inits w) = 0) :
  let tail_words :=
    match clock_config_set ci with
    | PTR_scmi_clock_config_set => []
    | PTR_scmi_clock_config_set_v2 => put_unaligned_le32 0
    end in
  let msg (v : Z) :=
    mk_xfer CLOCK_CONFIG_SET
      (put_unaligned_le32 clk_id ++ put_unaligned_le32 v ++ tail_words)
      atomic false in
  fst (scmi_clock_enable ci clk_id atomic w) = status (next_reply (replies w))
  /\ sent (trace (snd (scmi_clock_enable ci clk_id atomic w)))
     = sent (trace w) ++ [msg 1]
  /\ fst (scmi_clock_disable ci clk_id atomic w)
     = status (next_reply (replies w))
  /\ sent (trace (snd (scmi_clock_disable ci clk_id atomic w)))
     = sent (trace w) ++ [msg 0].
Proof.
  cbv zeta. unfold scmi_clock_enable, scmi_clock_disable.
  rewrite Hl, Hperm.
  destruct (clock_config_set ci); cbn [call_config_set];
    unfold scmi_clock_config_set, scmi_clock_config_set_v2;
    cbn [clk_state_val clk_state_eqb Z.geb Z.compare Z.eqb Pos.compare
         Pos.compare_cont Pos.eqb orb andb negb NULL_OEM_TYPE nonzero];
    mrun; rewrite Hinit; change (nonzero 0) with false; mrun;
    rewrite <- !app_assoc, !sent_app; repeat split.
Qed.

Lemma enable_disable_messages_witness :
  fst (scmi_clock_enable ci_v2_0 0 true w_one_ok) = 0
  /\ sent (trace (snd (scmi_clock_enable ci_v2_0 0 true w_one_ok)))
     = [mk_xfer CLOCK_CONFIG_SET
          (put_unaligned_le32 0 ++ put_unaligned_le32 1 ++ []) true false]
  /\ sent (trace (snd (scmi_clock_disable ci_v2_1 0 false w_one_ok)))
     = [mk_xfer CLOCK_CONFIG_SET
          (put_unaligned_le32 0 ++ put_unaligned_le32 0 ++
           put_unaligned_le32 0) false false].
Proof.
  destruct (enable_disable_messages ci_v2_0 0 clk_two_parents true w_one_ok
              eq_refl eq_refl eq_refl) as (Hret & Hen & _ & _).
  destruct (enable_disable_messages ci_v2_1 0 clk_two_parents false w_one_ok
              eq_refl eq_refl eq_refl) as (_ & _ & _ & Hdis).
  split; [exact Hret |]. split; [exact Hen | exact Hdis].
Defined.

(** ** Configuration queries *)

(** X7.  [state_get] forwards the caller's pointer to the variant chosen at
    initialisation.  The older variant refuses a NULL pointer with
    [-EINVAL] before the transport is touched; the 2.1 variant accepts it
    and stores no flag.  In every other case a transfer is asked for: if
    none can be had that error is returned, nothing is sent and the flag is
    as the caller left it; otherwise one request goes out (CLOCK_ATTRIBUTES
    naming the domain on the older variant, CLOCK_CONFIG_GET with a zero
    flags word on the 2.1 variant) and the transport status is returned.
    On success the flag is bit 0 of the attribute word (first word of the
    reply) on the older variant and bit 0 of the configuration word (second
    word of the reply) on the 2.1 variant; on failure it is as the caller
    left it. *)
Theorem state_get_result (ci : clock_info) (clk_id : Z)
    (enabled : option bool) (atomic : bool) (w : world) :
  let res := scmi_clock_state_get ci clk_id enabled atomic w in
  let rp := next_reply (replies w) in
  let request :=
    match clock_config_get ci with
    | PTR_scmi_clock_config_get =>
        mk_xfer CLOCK_ATTRIBUTES (put_unaligned_le32 clk_id) atomic false
    | PTR_scmi_clock_config_get_v2 =>
        mk_xfer CLOCK_CONFIG_GET
          (put_unaligned_le32 clk_id ++ put_unaligned_le32 0) atomic false
    end in
  let word :=
    match clock_config_get ci with
    | PTR_scmi_clock_config_get => get_unaligned_le32 (rx_buf rp) 0
    | PTR_scmi_clock_config_get_v2 => get_unaligned_le32 (rx_buf rp) 4
    end in
  (clock_config_get ci = PTR_scmi_clock_config_get -> enabled = None ->
   res = (- EINVAL, mk_cells None None None, w))
  /\ (clock_config_get ci = PTR_scmi_clock_config_get_v2
      \/ enabled <> None ->
      (next_init (inits w) <> 0 ->
       fst res = (next_init (inits w), mk_cells None enabled None)
       /\ sent (trace (snd res)) = sent (trace w))
      /\ (next_init (inits w) = 0 ->
          fst (fst res) = status rp
          /\ sent (trace (snd res)) = sent (trace w) ++ [request]
          /\ snd (fst res)
             = mk_cells None
                 (if status rp =? 0
                  then store enabled (Z.testbit word 0) else enabled)
                 None)).
Proof.
  cbv zeta. unfold scmi_clock_state_get. split.
  - intros -> ->. reflexivity.
  - intros Hgo.
    assert (Hcase : clock_config_get ci = PTR_scmi_clock_config_get_v2
                    \/ exists b, enabled = Some b).
    { destruct Hgo as [Hv | Hp]; [left; exact Hv |].
      destruct enabled as [b |]; [right; exists b; reflexivity |].
      contradiction. }
    clear Hgo.
    assert (Hbit : forall x, IS_CLK_ENABLED x = Z.testbit x 0).
    { intros x. unfold IS_CLK_ENABLED. apply nonzero_land_bit. lia. }
    destruct (clock_config_get ci) eqn:Hget; cbn [call_config_get].
    + destruct Hcase as [Hv | [b ->]]; [discriminate Hv |].
      unfold scmi_clock_config_get.
      cbn [enabled_p attributes_p oem_val_p store]. mrun.
      destruct (nonzero (next_init (inits w))) eqn:Hi; mrun.
      * split; [| intros Hz; rewrite Hz in Hi; discriminate Hi].
        intros _. split; [reflexivity |].
        rewrite sent_app. cbn. apply app_nil_r.
      * split; [intros Hnz; apply nonzero_false in Hi; contradiction |].
        intros _. rewrite <- !app_assoc, !sent_app.
        split; [reflexivity |]. split; [reflexivity |].
        unfold nonzero at 1.
        destruct (status (next_reply (replies w)) =? 0); cbn [negb];
          rewrite ?Hbit; reflexivity.
    + unfold scmi_clock_config_get_v2.
      cbn [enabled_p attributes_p oem_val_p store NULL_OEM_TYPE]. mrun.
      destruct (nonzero (next_init (inits w))) eqn:Hi; mrun.
      * split; [| intros Hz; rewrite Hz in Hi; discriminate Hi].
        intros _. split; [reflexivity |].
        rewrite sent_app. cbn. apply app_nil_r.
      * split; [intros Hnz; apply nonzero_false in Hi; contradiction |].
        intros _. rewrite <- !app_assoc, !sent_app.
        split; [reflexivity |]. split; [reflexivity |].
        unfold nonzero at 1.
        destruct (status (next_reply (replies w)) =? 0); cbn [negb];
          [| reflexivity].
        change (nonzero NULL_OEM_TYPE) with false. cbv iota.
        destruct enabled as [b |]; cbn [store]; rewrite ?Hbit; reflexivity.
Qed.

Lemma state_get_result_witness :
  scmi_clock_state_get ci_v2_0 0 None false w_one_ok
    = (- EINVAL, mk_cells None None None, w_one_ok)
  /\ fst (fst (scmi_clock_state_get ci_v2_0 0 (Some true) false w_one_ok)) = 0
  /\ snd (fst (scmi_clock_state_get ci_v2_0 0 (Some true) false w_one_ok))
     = mk_cells None (Some false) None
  /\ fst (scmi_clock_state_get ci_v2_1 0 None false w_one_ok)
     = (0, mk_cells None None None).
Proof.
  destruct (state_get_result ci_v2_0 0 None false w_one_ok) as [Hnull _].
  destruct (state_get_result ci_v2_0 0 (Some true) false w_one_ok)
    as [_ Hsome].
  destruct (state_get_result ci_v2_1 0 None false w_one_ok) as [_ Hv2].
  destruct (Hsome ltac:(right; discriminate)) as [_ Hs].
  destruct (Hs eq_refl) as (Hret & _ & Hcells).
  destruct (Hv2 ltac:(left; reflexivity)) as [_ Hv].
  destruct (Hv eq_refl) as (Hret2 & _ & Hcells2).
  split; [apply Hnull; reflexivity |].
  split; [exact Hret |]. split; [exact Hcells |].
  rewrite (surjective_pairing (fst _)), Hret2, Hcells2. reflexivity.
Defined.

(** X8.  [config_oem_get] on the 2.1 variant, with a transfer at hand,
    sends one CLOCK_CONFIG_GET request whose flags word is the OEM type and
    returns the transport status.  It writes through the pointers it was
    given and through no other: the attribute word on success, the OEM
    value on success only when the OEM type is not zero; the enabled flag
    is never asked for.  On failure every cell is as the caller left it. *)
Theorem config_oem_get_result (ci : clock_info) (clk_id oem_type : Z)
    (oem_val attributes : option Z) (atomic : bool) (w : world)
    (Hget : clock_config_get ci = PTR_scmi_clock_config_get_v2)
    (Htype : 0 <= oem_type < 2 ^ 8)
    (Hinit : next_init (inits w) = 0) :
  let res := scmi_clock_config_oem_get ci clk_id oem_type oem_val attributes
               atomic w in
  let rp := next_reply (replies w) in
  fst (fst res) = status rp
  /\ sent (trace (snd res))
     = sent (trace w) ++
       [mk_xfer CLOCK_CONFIG_GET
          (put_unaligned_le32 clk_id ++ put_unaligned_le32 oem_type)
          atomic false]
  /\ enabled_p (snd (fst res)) = None
  /\ (status rp <> 0 ->
      snd (fst res) = mk_cells attributes None oem_val)
  /\ (status rp = 0 ->
      attributes_p (snd (fst res))
      = store attributes (get_unaligned_le32 (rx_buf rp) 0)
      /\ oem_val_p (snd (fst res))
         = if oem_type =? 0 then oem_val
           else store oem_val (get_unaligned_le32 (rx_buf rp) 8)).
Proof.
  cbv zeta. unfold scmi_clock_config_oem_get. rewrite Hget.
  cbn [call_config_get]. unfold scmi_clock_config_get_v2.
  rewrite (field_prep_small 7 0 oem_type)
    by (try lia; change (7 - 0 + 1) with 8; lia).
  rewrite Z.shiftl_0_r.
  mrun. rewrite Hinit. change (nonzero 0) with false. mrun.
  rewrite <- !app_assoc, !sent_app.
  split; [reflexivity |]. split; [reflexivity |].
  unfold nonzero.
  destruct (Z.eqb_spec (status (next_reply (replies w))) 0) as [Hs | Hs];
    cbn [negb enabled_p attributes_p oem_val_p store].
  - split; [reflexivity |]. split; [intros H; contradiction |].
    intros _. split; [reflexivity |].
    destruct (oem_type =? 0); reflexivity.
  - split; [reflexivity |]. split; [reflexivity |].
    intros H; contradiction.
Qed.

Lemma config_oem_get_result_witness :
  fst (fst (scmi_clock_config_oem_get ci_v2_1 0 0 (Some 7) None false
              w_one_ok)) = 0
  /\ oem_val_p (snd (fst (scmi_clock_config_oem_get ci_v2_1 0 0 (Some 7) None
                            false w_one_ok))) = Some 7.
Proof.
  destruct (config_oem_get_result ci_v2_1 0 0 (Some 7) None false w_one_ok
              eq_refl ltac:(lia) eq_refl) as (Hret & _ & _ & _ & Hok).
  split; [exact Hret |]. apply (Hok eq_refl).
Defined.

(** ** What the operations look up *)

Lemma rate_set_attempts (ci : clock_info) (clk_id rate : Z) (w : world)
    (c : scmi_clock_info) :
  scmi_clock_domain_lookup ci clk_id = inr c ->
  rate_ctrl_forbidden c = false ->
  attempted (trace (snd (scmi_clock_rate_set ci clk_id rate w)))
  = attempted (trace w) ++ [CLOCK_RATE_SET].
Proof.
  intros Hl Hperm. unfold scmi_clock_rate_set. rewrite Hl, Hperm.
  unfold rate_set_xfer.
  destruct (rate_set_flags ci) as [fl ci1]. mrun.
  destruct (nonzero (next_init (inits w))); mrun; [apply attempted_init |].
  destruct (nonzero (Z.land fl CLOCK_SET_ASYNC)); mrun.
  - destruct (nonzero (status (next_reply (replies w))));
      [| destruct (get_unaligned_le32 (rx_buf (next_reply (replies w))) 0
                   =? clk_id)];
      mrun; rewrite attempted_put, attempted_xfer, attempted_init;
      reflexivity.
  - rewrite attempted_put, attempted_xfer, attempted_init. reflexivity.
Qed.

Lemma set_parent_attempts (ci : clock_info) (clk_id parent_id : Z) (w : world)
    (c : scmi_clock_info) :
  scmi_clock_domain_lookup ci clk_id = inr c ->
  parent_id < to_u32 (num_parents c) ->
  parent_ctrl_forbidden c = false ->
  attempted (trace (snd (scmi_clock_set_parent ci clk_id parent_id w)))
  = attempted (trace w) ++ [CLOCK_PARENT_SET].
Proof.
  intros Hl Hsel Hperm. unfold scmi_clock_set_parent. rewrite Hl, Hperm.
  destruct (Z.geb_spec parent_id (to_u32 (num_parents c))); [lia |].
  mrun. destruct (nonzero (next_init (inits w))); mrun;
    [apply attempted_init |].
  rewrite attempted_put, attempted_xfer, attempted_init. reflexivity.
Qed.

Lemma enable_disable_attempts (ci : clock_info) (clk_id : Z) (atomic : bool)
    (w : world) (c : scmi_clock_info) :
  scmi_clock_domain_lookup ci clk_id = inr c ->
  state_ctrl_forbidden c = false ->
  attempted (trace (snd (scmi_clock_enable ci clk_id atomic w)))
  = attempted (trace w) ++ [CLOCK_CONFIG_SET]
  /\ attempted (trace (snd (scmi_clock_disable ci clk_id atomic w)))
     = attempted (trace w) ++ [CLOCK_CONFIG_SET].
Proof.
  intros Hl Hperm. unfold scmi_clock_enable, scmi_clock_disable.
  rewrite Hl, Hperm.
  destruct (clock_config_set ci); cbn [call_config_set];
    unfold scmi_clock_config_set, scmi_clock_config_set_v2;
    cbn [clk_state_val clk_state_eqb Z.geb Z.compare Z.eqb Pos.compare
         Pos.compare_cont Pos.eqb orb andb negb NULL_OEM_TYPE nonzero];
    mrun; destruct (nonzero (next_init (inits w))); mrun;
    rewrite ?attempted_put, ?attempted_xfer, !attempted_init; split;
    reflexivity.
Qed.

(** C7 (as amended).  [info(id)] is absent exactly when the id is out of
    [0, clock_count) or the domain at that id has an empty name.  The
    operations that look a domain up ([set_rate], [set_parent], [enable]
    and [disable]) go through [scmi_clock_domain_lookup], which refuses an
    id exactly when it is out of range and never looks at the name: on an
    in-range id, whatever the name, [enable], [disable] and [set_rate] go
    on to their permission check and then to the transport, and
    [set_parent] goes on to its selector check, then to its permission
    check and then to the transport. *)
Theorem info_get_absent_iff (ci : clock_info) (clk_id : Z)
    (Hn : 0 <= num_clocks ci < 2 ^ 16) (Hid : 0 <= clk_id < 2 ^ 32) :
  let c := nth (Z.to_nat clk_id) (clk ci) clk_zero in
  (scmi_clock_info_get ci clk_id = None <->
     ~ (0 <= clk_id < num_clocks ci) \/ name c = [])
  /\ (scmi_clock_domain_lookup ci clk_id = inl (- EINVAL) <->
        ~ (0 <= clk_id < num_clocks ci))
  /\ (0 <= clk_id < num_clocks ci ->
      scmi_clock_domain_lookup ci clk_id = inr c
      /\ (forall atomic,
            scmi_clock_enable ci clk_id atomic =
            if state_ctrl_forbidden c then ret (- EACCES)
            else call_config_set (clock_config_set ci) clk_id
                   CLK_STATE_ENABLE NULL_OEM_TYPE 0 atomic)
      /\ (forall atomic,
            scmi_clock_disable ci clk_id atomic =
            if state_ctrl_forbidden c then ret (- EACCES)
            else call_config_set (clock_config_set ci) clk_id
                   CLK_STATE_DISABLE NULL_OEM_TYPE 0 atomic)
      /\ (forall rate w,
            if rate_ctrl_forbidden c
            then scmi_clock_rate_set ci clk_id rate w = (- EACCES, ci, w)
            else attempted
                   (trace (snd (scmi_clock_rate_set ci clk_id rate w)))
                 = attempted (trace w) ++ [CLOCK_RATE_SET])
      /\ (forall parent_id w,
            if parent_id >=? to_u32 (num_parents c)
            then scmi_clock_set_parent ci clk_id parent_id w = (- EINVAL, w)
            else if parent_ctrl_forbidden c
            then scmi_clock_set_parent ci clk_id parent_id w = (- EACCES, w)
            else attempted
                   (trace (snd (scmi_clock_set_parent ci clk_id parent_id w)))
                 = attempted (trace w) ++ [CLOCK_PARENT_SET])).
Proof.
  intros c.
  assert (Hu : to_u32 (num_clocks ci) = num_clocks ci)
    by (apply to_u32_small; lia).
  destruct (Z_lt_ge_dec clk_id (num_clocks ci)) as [Hlt | Hge].
  - assert (Hl : scmi_clock_domain_lookup ci clk_id = inr c)
      by (apply lookup_in_range; lia).
    split; [| split].
    + unfold scmi_clock_info_get. rewrite Hl. fold c.
      destruct (name c) as [| b bs]; split; intros H.
      * right; reflexivity.
      * reflexivity.
      * discriminate H.
      * destruct H as [H | H]; [lia | discriminate H].
    + rewrite Hl. split; intros H; [discriminate H | lia].
    + intros _. split; [exact Hl |].
      split; [| split; [| split]].
      * intros atomic. unfold scmi_clock_enable. rewrite Hl. reflexivity.
      * intros atomic. unfold scmi_clock_disable. rewrite Hl. reflexivity.
      * intros rate w. destruct (rate_ctrl_forbidden c) eqn:Hperm.
        -- unfold scmi_clock_rate_set. rewrite Hl, Hperm. reflexivity.
        -- apply (rate_set_attempts ci clk_id rate w c Hl Hperm).
      * intros parent_id w.
        destruct (Z.geb_spec parent_id (to_u32 (num_parents c)))
          as [Hsel | Hsel].
        -- unfold scmi_clock_set_parent. rewrite Hl.
           destruct (Z.geb_spec parent_id (to_u32 (num_parents c)));
             [reflexivity | lia].
        -- destruct (parent_ctrl_forbidden c) eqn:Hperm.
           ++ unfold scmi_clock_set_parent. rewrite Hl, Hperm.
              destruct (Z.geb_spec parent_id (to_u32 (num_parents c)));
                [lia | reflexivity].
           ++ apply (set_parent_attempts ci clk_id parent_id w c Hl Hsel
                       Hperm).
  - assert (Hl : scmi_clock_domain_lookup ci clk_id = inl (- EINVAL))
      by (apply lookup_out_of_range; lia).
    split; [| split].
    + unfold scmi_clock_info_get. rewrite Hl.
      split; intros _; [left; lia | reflexivity].
    + rewrite Hl. split; intros _; [lia | reflexivity].
    + intros H. lia.
Qed.

(** The unnamed domain of [ci_unnamed]: absent for [info], yet [set_rate]
    asks for its transfer and [set_parent] gets as far as the selector
    check. *)
Lemma info_get_absent_iff_witness :
  (scmi_clock_info_get ci_unnamed 0 = None <->
   ~ (0 <= 0 < num_clocks ci_unnamed) \/
   name (nth (Z.to_nat 0) (clk ci_unnamed) clk_zero) = [])
  /\ attempted (trace (snd (scmi_clock_rate_set ci_unnamed 0 1000 w_one_ok)))
     = attempted (trace w_one_ok) ++ [CLOCK_RATE_SET]
  /\ scmi_clock_set_parent ci_unnamed 0 0 w_one_ok = (- EINVAL, w_one_ok).
Proof.
  destruct (info_get_absent_iff ci_unnamed 0) as (Hinfo & _ & Hops);
    [simpl; lia | lia |].
  destruct Hops as (_ & _ & _ & Hrate & Hparent); [simpl; lia |].
  split; [exact Hinfo |].
  split; [apply (Hrate 1000 w_one_ok) | apply (Hparent 0 w_one_ok)].
Defined.

(** C7 (as stated) fails: an operation that looks a domain up does not
    refuse a domain whose name is empty.  [enable] on such a domain sends
    its CLOCK_CONFIG_SET request and succeeds, and so does [set_rate]. *)
Lemma lookup_accepts_unnamed_domain :
  name (nth (Z.to_nat 0) (clk ci_unnamed) clk_zero) = []
  /\ scmi_clock_info_get ci_unnamed 0 = None
  /\ fst (scmi_clock_enable ci_unnamed 0 false w_one_ok) = 0
  /\ map hdr_id (sent (trace (snd (scmi_clock_enable ci_unnamed 0 false
                                     w_one_ok)))) = [CLOCK_CONFIG_SET]
  /\ fst (fst (scmi_clock_rate_set ci_unnamed 0 1000 w_one_ok)) = 0
  /\ map hdr_id (sent (trace (snd (scmi_clock_rate_set ci_unnamed 0 1000
                                     w_one_ok)))) = [CLOCK_RATE_SET].
Proof. vm_compute. repeat split. Qed.

(** ** Permissions *)

Lemma get_permissions_decoded (clk_id : Z) (c : scmi_clock_info) (w : world) :
  next_init (inits w) = 0 ->
  let rp := next_reply (replies w) in
  let perm := get_unaligned_le32 (rx_buf rp) 0 in
  snd (fst (scmi_clock_get_permissions clk_id c w))
  = if status rp =? 0
    then set_permissions (negb (Z.testbit perm 31)) (negb (Z.testbit perm 29))
           (negb (Z.testbit perm 30)) c
    else c.
Proof.
  intros Hinit. cbv zeta. unfold scmi_clock_get_permissions. mrun.
  rewrite Hinit. change (nonzero 0) with false. mrun.
  unfold nonzero at 1.
  destruct (status (next_reply (replies w)) =? 0); cbn [negb];
    [| reflexivity].
  unfold CLOCK_STATE_CONTROL_ALLOWED, CLOCK_RATE_CONTROL_ALLOWED,
    CLOCK_PARENT_CONTROL_ALLOWED.
  rewrite !nonzero_land_bit by lia. reflexivity.
Qed.

Lemma forbidden_refused (ci : clock_info) (clk_id : Z) (w : world)
    (c : scmi_clock_info) :
  scmi_clock_domain_lookup ci clk_id = inr c ->
  (rate_ctrl_forbidden c = true ->
   forall rate, scmi_clock_rate_set ci clk_id rate w = (- EACCES, ci, w))
  /\ (state_ctrl_forbidden c = true ->
      forall atomic,
        scmi_clock_enable ci clk_id atomic w = (- EACCES, w)
        /\ scmi_clock_disable ci clk_id atomic w = (- EACCES, w))
  /\ (parent_ctrl_forbidden c = true ->
      forall parent_id, parent_id < to_u32 (num_parents c) ->
        scmi_clock_set_parent ci clk_id parent_id w = (- EACCES, w)).
Proof.
  intros Hl.
  unfold scmi_clock_rate_set, scmi_clock_set_parent, scmi_clock_enable,
    scmi_clock_disable.
  rewrite Hl. split; [| split].
  - intros -> rate. reflexivity.
  - intros -> atomic. split; reflexivity.
  - intros -> parent_id Hsel.
    destruct (Z.geb_spec parent_id (to_u32 (num_parents c)));
      [lia | reflexivity].
Qed.

(** X9.  The permission word gates the three kinds of mutation.  When the
    permissions of a domain were fetched with success, bit 29 of the reply
    decides rate control, bit 30 parent control and bit 31 state control:
    with the bit clear the operation on that domain fails with [-EACCES]
    and asks nothing of the transport, with the bit set it goes on to ask
    for a transfer.  When the fetch failed, be it that no transfer could be
    had or that the round trip failed, the error is returned and the record
    is as it was before the fetch. *)
Theorem permissions_gate_mutations (ci : clock_info) (clk_id : Z)
    (c : scmi_clock_info) (w : world) :
  let rp := next_reply (replies w) in
  let perm := get_unaligned_le32 (rx_buf rp) 0 in
  let res := scmi_clock_get_permissions clk_id c w in
  let c' := snd (fst res) in
  (next_init (inits w) <> 0 ->
   fst res = (next_init (inits w), c)
   /\ sent (trace (snd res)) = sent (trace w))
  /\ (next_init (inits w) = 0 -> status rp <> 0 -> fst res = (status rp, c))
  /\ (next_init (inits w) = 0 -> status rp = 0 ->
      fst (fst res) = 0
      /\ (scmi_clock_domain_lookup ci clk_id = inr c' ->
          forall (w' : world) (rate parent_id : Z) (atomic : bool),
            (if Z.testbit perm 29
             then attempted
                    (trace (snd (scmi_clock_rate_set ci clk_id rate w')))
                  = attempted (trace w') ++ [CLOCK_RATE_SET]
             else scmi_clock_rate_set ci clk_id rate w' = (- EACCES, ci, w'))
            /\ (if Z.testbit perm 31
                then attempted
                       (trace (snd (scmi_clock_enable ci clk_id atomic w')))
                     = attempted (trace w') ++ [CLOCK_CONFIG_SET]
                     /\ attempted
                          (trace (snd (scmi_clock_disable ci clk_id atomic
                                         w')))
                        = attempted (trace w') ++ [CLOCK_CONFIG_SET]
                else scmi_clock_enable ci clk_id atomic w' = (- EACCES, w')
                     /\ scmi_clock_disable ci clk_id atomic w'
                        = (- EACCES, w'))
            /\ (parent_id < to_u32 (num_parents c) ->
                if Z.testbit perm 30
                then attempted
                       (trace (snd (scmi_clock_set_parent ci clk_id parent_id
                                      w')))
                     = attempted (trace w') ++ [CLOCK_PARENT_SET]
                else scmi_clock_set_parent ci clk_id parent_id w'
                     = (- EACCES, w')))).
Proof.
  cbv zeta. split; [| split].
  - intros Hi. unfold scmi_clock_get_permissions. mrun.
    rewrite (nonzero_true _ Hi). mrun.
    split; [reflexivity |]. rewrite sent_app. cbn. apply app_nil_r.
  - intros Hi Hs. unfold scmi_clock_get_permissions. mrun.
    rewrite Hi. change (nonzero 0) with false. mrun.
    rewrite (nonzero_true _ Hs). reflexivity.
  - intros Hi Hs.
    assert (Hret : fst (fst (scmi_clock_get_permissions clk_id c w)) = 0).
    { unfold scmi_clock_get_permissions. mrun.
      rewrite Hi. change (nonzero 0) with false. mrun. exact Hs. }
    split; [exact Hret |].
    rewrite (get_permissions_decoded clk_id c w Hi). cbv zeta.
    rewrite Hs. change (0 =? 0) with true. cbv iota.
    set (perm := get_unaligned_le32 (rx_buf (next_reply (replies w))) 0).
    intros Hl w' rate parent_id atomic.
    set (c' := set_permissions _ _ _ c) in Hl.
    assert (Hst : state_ctrl_forbidden c' = negb (Z.testbit perm 31))
      by reflexivity.
    assert (Hrt : rate_ctrl_forbidden c' = negb (Z.testbit perm 29))
      by reflexivity.
    assert (Hpt : parent_ctrl_forbidden c' = negb (Z.testbit perm 30))
      by reflexivity.
    assert (Hnp : num_parents c' = num_parents c) by reflexivity.
    destruct (forbidden_refused ci clk_id w' c' Hl)
      as (Hrate & Hstate & Hparent).
    split; [| split].
    + destruct (Z.testbit perm 29); cbn [negb] in Hrt.
      * apply (rate_set_attempts ci clk_id rate w' c' Hl Hrt).
      * apply (Hrate Hrt).
    + destruct (Z.testbit perm 31); cbn [negb] in Hst.
      * apply (enable_disable_attempts ci clk_id atomic w' c' Hl Hst).
      * apply (Hstate Hst).
    + intros Hsel. destruct (Z.testbit perm 30); cbn [negb] in Hpt.
      * apply (set_parent_attempts ci clk_id parent_id w' c' Hl);
          [rewrite Hnp; exact Hsel | exact Hpt].
      * apply (Hparent Hpt parent_id). rewrite Hnp. exact Hsel.
Qed.

(** A reply to CLOCK_GET_PERMISSIONS that allows rate control only. *)
Lemma permissions_gate_mutations_witness :
  let w := mk_world [] [mk_reply 0 (put_unaligned_le32 (BIT 29))] [] [] [] in
  let c' := snd (fst (scmi_clock_get_permissions 0 clk_two_parents w)) in
  let ci := mk_ci 0x20001 1 0 0 [c']
              PTR_scmi_clock_config_set_v2 PTR_scmi_clock_config_get_v2 in
  attempted (trace (snd (scmi_clock_rate_set ci 0 1000 w_one_ok)))
    = [CLOCK_RATE_SET]
  /\ scmi_clock_enable ci 0 false w_one_ok = (- EACCES, w_one_ok)
  /\ scmi_clock_set_parent ci 0 1 w_one_ok = (- EACCES, w_one_ok).
Proof.
  cbv zeta.
  set (w := mk_world [] [mk_reply 0 (put_unaligned_le32 (BIT 29))] [] [] []).
  set (c' := snd (fst (scmi_clock_get_permissions 0 clk_two_parents w))).
  set (ci := mk_ci 0x20001 1 0 0 [c']
               PTR_scmi_clock_config_set_v2 PTR_scmi_clock_config_get_v2).
  destruct (permissions_gate_mutations ci 0 clk_two_parents w)
    as (_ & _ & Hok).
  destruct (Hok eq_refl eq_refl) as [_ Hgate].
  destruct (Hgate eq_refl w_one_ok 1000 1 false)
    as (Hrate & Hstate & Hparent).
  split; [exact Hrate |]. split; [apply Hstate |].
  apply Hparent. vm_compute. reflexivity.
Defined.

(** ** Names and latency after discovery *)

Lemma cstring_bytes (buf : list Z) :
  Forall (fun b => 1 <= b <= 255) (cstring buf).
Proof.
  induction buf as [| b rest IH]; cbn [cstring]; [constructor |].
  destruct (Z.eqb_spec (Z.land b 255) 0) as [Hz | Hnz]; [constructor |].
  constructor; [| exact IH].
  assert (Hr : 0 <= Z.land b 255 <= 255).
  { assert (Hm : Z.land b 255 = b mod 2 ^ 8)
      by (change 255 with (Z.ones 8); apply Z.land_ones; lia).
    rewrite Hm. pose proof (Z.mod_pos_bound b (2 ^ 8) ltac:(lia)).
    change (2 ^ 8) with 256 in *. lia. }
  lia.
Qed.

Lemma strscpy_string (src : list Z) (count : nat) :
  Forall (fun b => 1 <= b <= 255) (strscpy src count)
  /\ (length (strscpy src count) <= count - 1)%nat.
Proof.
  unfold strscpy. split.
  - apply Forall_take, cstring_bytes.
  - rewrite length_take. apply Nat.le_min_l.
Qed.

(** X10.  What a successful base-attribute fetch leaves in the record,
    whatever the firmware sent: the name is a terminated string that fits
    its 64-byte array (at most 63 characters, none of them NUL), it is the
    short name of the reply cut at 15 characters unless the protocol major
    version is at least 2 and the firmware advertises extended names, and
    the enable latency is never zero and fits 32 bits. *)
Theorem attributes_fetch_bounds (clk_id version : Z) (c : scmi_clock_info)
    (w : world)
    (Hinit : next_init (inits w) = 0)
    (Hok : status (next_reply (replies w)) = 0) :
  let rx := rx_buf (next_reply (replies w)) in
  let c' := snd (fst (scmi_clock_attributes_get clk_id c version w)) in
  Forall (fun b => 1 <= b <= 255) (name c')
  /\ (length (name c') <= 63)%nat
  /\ (PROTOCOL_REV_MAJOR version < 2
      \/ Z.testbit (get_unaligned_le32 rx 0) 29 = false ->
      name c' = strscpy (drop 4 rx) SCMI_SHORT_NAME_MAX_SIZE
      /\ (length (name c') <= 15)%nat)
  /\ 1 <= enable_latency c' <= U32_MAX.
Proof.
  cbv zeta. rewrite (attributes_get_fetched clk_id version c w Hinit Hok).
  cbv zeta.
  set (rx := rx_buf (next_reply (replies w))).
  set (short := strscpy (drop 4 rx) SCMI_SHORT_NAME_MAX_SIZE).
  destruct (strscpy_string (drop 4 rx) SCMI_SHORT_NAME_MAX_SIZE)
    as [Hsb Hsl]. fold short in Hsb, Hsl.
  change (SCMI_SHORT_NAME_MAX_SIZE - 1)%nat with 15%nat in Hsl.
  assert (Hname : name (attributes_decode rx version c) = short)
    by reflexivity.
  assert (Hlat : 1 <= enable_latency (attributes_decode rx version c)
                 <= U32_MAX).
  { unfold attributes_decode. cbn [enable_latency set_enable_latency].
    pose proof (get_unaligned_le32_range rx 20) as Hr.
    unfold U32_MAX, nonzero.
    destruct (PROTOCOL_REV_MAJOR version >=? 2);
      [| change (0 =? 0) with true; cbn [negb]; lia].
    destruct (Z.eqb_spec (get_unaligned_le32 rx 20) 0); cbn [negb]; lia. }
  destruct (Z.geb_spec (PROTOCOL_REV_MAJOR version) 2) as [Hge | Hlt].
  - match goal with
    | |- context [attributes_refine ?i ?a ?d ?v] =>
        destruct (attributes_refine_spec i a d v)
          as (_ & Hl & _ & _ & _ & Hn); set (w1 := v) in *
    end.
    cbn [fst snd]. rewrite Hl, Hn, Hname.
    unfold SUPPORTS_EXTENDED_NAMES. rewrite nonzero_land_bit by lia.
    destruct (Z.testbit (get_unaligned_le32 rx 0) 29).
    + assert (Hext : Forall (fun b => 1 <= b <= 255)
                       (snd (fst (extended_name_get CLOCK_NAME_GET clk_id
                                    short SCMI_MAX_STR_SIZE w1)))
                     /\ (length (snd (fst (extended_name_get CLOCK_NAME_GET
                                             clk_id short SCMI_MAX_STR_SIZE
                                             w1))) <= 63)%nat).
      { unfold extended_name_get. mrun.
        destruct (nonzero (next_init (inits w1))); mrun;
          [split; [exact Hsb | lia] |].
        destruct (nonzero (status (next_reply (replies w1))));
          [split; [exact Hsb | lia] |].
        apply strscpy_string. }
      destruct Hext as [Heb Hel].
      split; [exact Heb |]. split; [exact Hel |].
      split; [| exact Hlat].
      intros [Hv | Hb]; [lia | discriminate Hb].
    + split; [exact Hsb |]. split; [lia |].
      split; [| exact Hlat]. intros _. split; [reflexivity | exact Hsl].
  - cbn [fst snd]. rewrite Hname.
    split; [exact Hsb |]. split; [lia |].
    split; [| exact Hlat]. intros _. split; [reflexivity | exact Hsl].
Qed.

Lemma attributes_fetch_bounds_witness :
  (length (name (snd (fst (scmi_clock_attributes_get 0 clk_zero 0x20001
                             w_all_features)))) <= 63)%nat
  /\ 1 <= enable_latency
            (snd (fst (scmi_clock_attributes_get 0 clk_zero 0x20001
                         w_all_features))) <= U32_MAX.
Proof.
  destruct (attributes_fetch_bounds 0 0x20001 clk_zero w_all_features
              eq_refl eq_refl) as (_ & Hlen & _ & Hlat).
  split; [exact Hlen | exact Hlat].
Defined.

(** X11.  A domain whose base attributes could not be fetched, because no
    transfer could be had or because the round trip failed, keeps the
    record it had, and its rates are not enumerated: CLOCK_ATTRIBUTES is
    the only command tried for it.  In a freshly allocated table such a
    domain has an empty name. *)
Theorem init_domain_fetch_failed (clkid version : Z) (c : scmi_clock_info)
    (w : world)
    (Hfail : next_init (inits w) <> 0
             \/ status (next_reply (replies w)) <> 0) :
  fst (init_domain clkid version c w) = c
  /\ attempted (trace (snd (init_domain clkid version c w)))
     = attempted (trace w) ++ [CLOCK_ATTRIBUTES]
  /\ (next_init (inits w) <> 0 ->
      sent (trace (snd (init_domain clkid version c w))) = sent (trace w)).
Proof.
  unfold init_domain, scmi_clock_attributes_get. mrun.
  destruct (nonzero (next_init (inits w))) eqn:Hi; mrun; rewrite ?Hi; mrun.
  - split; [reflexivity |]. split; [apply attempted_init |].
    intros _. rewrite sent_app. cbn. apply app_nil_r.
  - apply nonzero_false in Hi.
    destruct Hfail as [Hf | Hf]; [contradiction |].
    assert (Hnz : nonzero (status (next_reply (replies w))) = true).
    { unfold nonzero.
      destruct (Z.eqb_spec (status (next_reply (replies w))) 0);
        [contradiction | reflexivity]. }
    rewrite !Hnz. mrun. rewrite ?Hnz. mrun.
    split; [reflexivity |].
    split; [| intros H; contradiction].
    rewrite attempted_put, attempted_xfer, attempted_init. reflexivity.
Qed.

Lemma init_domain_fetch_failed_witness :
  fst (init_domain 0 0x20001 clk_zero (mk_world [] [] [] [] [])) = clk_zero
  /\ attempted (trace (snd (init_domain 0 0x20001 clk_zero
                              (mk_world [] [] [] [] []))))
     = [CLOCK_ATTRIBUTES].
Proof.
  destruct (init_domain_fetch_failed 0 0x20001 clk_zero
              (mk_world [] [] [] [] [])) as (Hc & Ha & _).
  - right. vm_compute. discriminate.
  - split; [exact Hc | exact Ha].
Defined.

(** ** Event adapter *)

(** X12.  [set_notify_enabled] knows two event kinds.  Any other kind is
    refused with [-EINVAL] before the transport is touched.  For kind 0 the
    command is CLOCK_RATE_NOTIFY, for kind 1 CLOCK_RATE_CHANGE_REQUESTED_NOTIFY;
    with a transfer at hand exactly one request goes out, naming the source
    domain in its first word and carrying 1 to enable and 0 to disable in
    its second, and the transport status is returned. *)
Theorem set_notify_enabled_result (evt_id src_id : Z) (enable : bool)
    (w : world)
    (Hevt : 0 <= evt_id < 2 ^ 8) :
  let res := scmi_clk_set_notify_enabled evt_id src_id enable w in
  (2 <= evt_id -> res = (- EINVAL, w))
  /\ (evt_id < 2 ->
      next_init (inits w) <> 0 ->
      fst res = next_init (inits w) /\ sent (trace (snd res)) = sent (trace w))
  /\ (evt_id < 2 ->
      next_init (inits w) = 0 ->
      fst res = status (next_reply (replies w))
      /\ sent (trace (snd res))
         = sent (trace w) ++
           [mk_xfer (CLOCK_RATE_NOTIFY + evt_id)
              (put_unaligned_le32 src_id ++
               put_unaligned_le32 (if enable then 1 else 0))
              false false]).
Proof.
  cbv zeta. unfold scmi_clk_set_notify_enabled.
  change (Z.of_nat (length evt_2_cmd)) with 2.
  destruct (Z.geb_spec evt_id 2) as [Hge | Hlt].
  - split; [reflexivity |]. split; intros; lia.
  - split; [intros; lia |].
    assert (Hcmd : nth (Z.to_nat evt_id) evt_2_cmd 0
                   = CLOCK_RATE_NOTIFY + evt_id).
    { assert (Hc : evt_id = 0 \/ evt_id = 1) by lia.
      destruct Hc as [-> | ->]; reflexivity. }
    cbv zeta. rewrite Hcmd. unfold scmi_clk_rate_notify. mrun.
    destruct (nonzero (next_init (inits w))) eqn:Hi; mrun.
    + split.
      * intros _ _. split; [reflexivity |].
        rewrite sent_app. cbn. apply app_nil_r.
      * intros _ Hz. rewrite Hz in Hi. discriminate Hi.
    + split.
      * intros _ Hnz. apply nonzero_false in Hi. contradiction.
      * intros _ _. split; [reflexivity |].
        rewrite <- !app_assoc, !sent_app.
        destruct enable; reflexivity.
Qed.

Lemma set_notify_enabled_result_witness :
  scmi_clk_set_notify_enabled 2 0 true w_one_ok = (- EINVAL, w_one_ok)
  /\ sent (trace (snd (scmi_clk_set_notify_enabled 1 3 true w_one_ok)))
     = [mk_xfer CLOCK_RATE_CHANGE_REQUESTED_NOTIFY
          (put_unaligned_le32 3 ++ put_unaligned_le32 1) false false].
Proof.
  destruct (set_notify_enabled_result 2 0 true w_one_ok ltac:(lia))
    as (Hbad & _ & _).
  destruct (set_notify_enabled_result 1 3 true w_one_ok ltac:(lia))
    as (_ & _ & Hgood).
  split; [apply Hbad; lia |].
  destruct (Hgood ltac:(lia) eq_refl) as [_ Hsent]. exact Hsent.
Defined.

(** The payload of a rate notification as the firmware lays it out. *)
Lemma rate_notify_payld_decoded (agent clk value : Z) :
  0 <= agent < 2 ^ 32 -> 0 <= clk < 2 ^ 32 -> 0 <= value < 2 ^ 64 ->
  let payld := put_unaligned_le32 agent ++ put_unaligned_le32 clk ++
               put_unaligned_le32 (Z.land value 0xffffffff) ++
               put_unaligned_le32 (Z.shiftr value 32) in
  get_unaligned_le32 payld 0 = agent
  /\ get_unaligned_le32 payld 4 = clk
  /\ get_unaligned_le64 payld 8 = value.
Proof.
  intros Ha Hc Hv. cbv zeta.
  split; [apply get_put_le32; exact Ha |]. split.
  - change 4%nat with (length (put_unaligned_le32 agent) + 0)%nat.
    rewrite get_le32_app. apply get_put_le32. exact Hc.
  - rewrite app_assoc.
    change 8%nat
      with (length (put_unaligned_le32 agent ++ put_unaligned_le32 clk)).
    rewrite <- (app_nil_r (put_unaligned_le32 (Z.shiftr value 32))).
    apply get_le64_halves. exact Hv.
Qed.

(** X13.  [fill_custom_report] refuses (returns NULL, here [None]) exactly
    the payloads whose size is not that of a rate notification, 16 bytes,
    and the event kinds other than the two it knows.  Otherwise the report
    carries the caller's timestamp and the agent id, clock id and 64-bit
    rate the firmware laid out as four little-endian words (the rate as
    low half then high half), and the source id handed back is the clock
    id of the report. *)
Theorem fill_custom_report_decodes (evt_id tstamp payld_sz : Z)
    (payld : list Z) :
  (scmi_clk_fill_custom_report evt_id tstamp payld payld_sz = None
   <-> payld_sz <> 16 \/ (evt_id <> 0 /\ evt_id <> 1))
  /\ (forall r src,
        scmi_clk_fill_custom_report evt_id tstamp payld payld_sz
          = Some (r, src) ->
        src = clock_id r /\ timestamp r = tstamp
        /\ 0 <= agent_id r < 2 ^ 32 /\ 0 <= clock_id r < 2 ^ 32
        /\ 0 <= rate r < 2 ^ 64)
  /\ (forall agent clk value,
        0 <= agent < 2 ^ 32 -> 0 <= clk < 2 ^ 32 -> 0 <= value < 2 ^ 64 ->
        evt_id = 0 \/ evt_id = 1 ->
        scmi_clk_fill_custom_report evt_id tstamp
          (put_unaligned_le32 agent ++ put_unaligned_le32 clk ++
           put_unaligned_le32 (Z.land value 0xffffffff) ++
           put_unaligned_le32 (Z.shiftr value 32)) 16
        = Some (mk_report tstamp agent clk value, clk)).
Proof.
  unfold scmi_clk_fill_custom_report, rate_notify_payld_size,
    SCMI_EVENT_CLOCK_RATE_CHANGED, SCMI_EVENT_CLOCK_RATE_CHANGE_REQUESTED.
  split; [| split].
  - destruct (Z.eqb_spec 16 payld_sz) as [Hs | Hs];
      destruct (Z.eqb_spec evt_id 0) as [H0 | H0];
      destruct (Z.eqb_spec evt_id 1) as [H1 | H1];
      cbn [negb andb orb]; split; intros H;
      try reflexivity; try discriminate H; try lia.
  - intros r src.
    destruct (negb (16 =? payld_sz)
              || negb (evt_id =? 0) && negb (evt_id =? 1));
      intros H; [discriminate H |].
    injection H as <- <-. cbn [clock_id timestamp agent_id rate].
    split; [reflexivity |]. split; [reflexivity |].
    split; [apply get_unaligned_le32_range |].
    split; [apply get_unaligned_le32_range | apply get_unaligned_le64_range].
  - intros agent clk value Ha Hc Hv Hevt.
    destruct (rate_notify_payld_decoded agent clk value Ha Hc Hv)
      as (Hag & Hck & Hrt). cbv zeta in Hag, Hck, Hrt.
    rewrite Hag, Hck, Hrt. change (16 =? 16) with true.
    destruct Hevt as [-> | ->]; reflexivity.
Qed.

Lemma fill_custom_report_decodes_witness :
  scmi_clk_fill_custom_report 1 77
    (put_unaligned_le32 2 ++ put_unaligned_le32 5 ++
     put_unaligned_le32 (Z.land 0x123456789 0xffffffff) ++
     put_unaligned_le32 (Z.shiftr 0x123456789 32)) 16
  = Some (mk_report 77 2 5 0x123456789, 5).
Proof.
  destruct (fill_custom_report_decodes 1 77 16 []) as (_ & _ & Hdec).
  apply Hdec; [lia | lia | lia | right; reflexivity].
Defined.

(** ** Transfers are released *)

Lemma held_app (a b : list event) : held (a ++ b) = held a + held b.
Proof.
  unfold held. induction a as [| e a IH]; cbn [app fold_right]; [lia |].
  rewrite IH. destruct e as [m r | t | m]; [destruct (nonzero r) | |]; lia.
Qed.

Lemma held_failed_init (tr : list event) (m r : Z) :
  nonzero r = true -> held (tr ++ [EvGetInit m r]) = held tr.
Proof.
  intros Hr. rewrite held_app. cbn [held fold_right]. rewrite Hr. lia.
Qed.

Lemma held_exchange (tr : list event) (m r m' : Z) (t : scmi_xfer) :
  nonzero r = false ->
  held (((tr ++ [EvGetInit m r]) ++ [EvXfer t]) ++ [EvPut m']) = held tr.
Proof.
  intros Hr. rewrite !held_app. cbn [held fold_right]. rewrite Hr. lia.
Qed.

(** Closes a goal on [held] after a command ran its one exchange. *)
Ltac held_done Hi :=
  first [ apply held_failed_init; exact Hi
        | apply held_exchange; exact Hi
        | reflexivity ].

Lemma config_set_held (f : config_set_ptr) (clk_id : Z) (state : clk_state)
    (oem_type oem_val : Z) (atomic : bool) (w : world) :
  held (trace (snd (call_config_set f clk_id state oem_type oem_val atomic w)))
  = held (trace w).
Proof.
  destruct f; cbn [call_config_set];
    unfold scmi_clock_config_set, scmi_clock_config_set_v2;
    match goal with
    | |- context [if ?b then ret (- EINVAL) else _] => destruct b
    end; mrun; try reflexivity;
    destruct (nonzero (next_init (inits w))) eqn:Hi; mrun; held_done Hi.
Qed.

Lemma config_get_held (f : config_get_ptr) (clk_id oem_type : Z)
    (cells : config_cells) (atomic : bool) (w : world) :
  held (trace (snd (call_config_get f clk_id oem_type cells atomic w)))
  = held (trace w).
Proof.
  destruct f; cbn [call_config_get];
    unfold scmi_clock_config_get, scmi_clock_config_get_v2;
    [destruct (enabled_p cells); mrun; [| reflexivity] |];
    mrun; destruct (nonzero (next_init (inits w))) eqn:Hi; mrun;
    held_done Hi.
Qed.

(** X14.  No operation of the command dispatcher or of the event adapter
    keeps a transfer: after each of them, whatever its arguments, its
    outcome and the script of the transport, the number of transfers
    obtained and not released is what it was before the call.  Every path
    that obtained a transfer passes through [xfer_put], and no path
    releases a transfer it did not obtain. *)
Theorem operations_release_transfers (ci : clock_info) (clk_id : Z)
    (w : world) :
  (forall v, held (trace (snd (scmi_clock_rate_get clk_id v w)))
             = held (trace w))
  /\ (forall rate,
        held (trace (snd (scmi_clock_rate_set ci clk_id rate w)))
        = held (trace w))
  /\ (forall parent_id,
        held (trace (snd (scmi_clock_set_parent ci clk_id parent_id w)))
        = held (trace w))
  /\ (forall v, held (trace (snd (scmi_clock_get_parent clk_id v w)))
                = held (trace w))
  /\ (forall atomic,
        held (trace (snd (scmi_clock_enable ci clk_id atomic w)))
        = held (trace w)
        /\ held (trace (snd (scmi_clock_disable ci clk_id atomic w)))
           = held (trace w))
  /\ (forall enabled atomic,
        held (trace (snd (scmi_clock_state_get ci clk_id enabled atomic w)))
        = held (trace w))
  /\ (forall oem_type oem_val atomic,
        held (trace (snd (scmi_clock_config_oem_set ci clk_id oem_type oem_val
                            atomic w)))
        = held (trace w))
  /\ (forall oem_type oem_val attributes atomic,
        held (trace (snd (scmi_clock_config_oem_get ci clk_id oem_type oem_val
                            attributes atomic w)))
        = held (trace w))
  /\ (forall evt_id enable,
        held (trace (snd (scmi_clk_set_notify_enabled evt_id clk_id enable w)))
        = held (trace w)).
Proof.
  split; [| split; [| split; [| split; [| split; [| split; [| split;
    [| split]]]]]]].
  - intros v. unfold scmi_clock_rate_get. mrun.
    destruct (nonzero (next_init (inits w))) eqn:Hi; mrun; held_done Hi.
  - intros rate. unfold scmi_clock_rate_set.
    destruct (scmi_clock_domain_lookup ci clk_id) as [e | c]; mrun;
      [reflexivity |].
    destruct (rate_ctrl_forbidden c); mrun; [reflexivity |].
    unfold rate_set_xfer. destruct (rate_set_flags ci) as [fl ci1]. mrun.
    destruct (nonzero (next_init (inits w))) eqn:Hi; mrun; [held_done Hi |].
    destruct (nonzero (Z.land fl CLOCK_SET_ASYNC)); mrun;
      [destruct (nonzero (status (next_reply (replies w))));
         [| destruct (get_unaligned_le32 (rx_buf (next_reply (replies w))) 0
                      =? clk_id)]; mrun |];
      held_done Hi.
  - intros parent_id. unfold scmi_clock_set_parent.
    destruct (scmi_clock_domain_lookup ci clk_id) as [e | c]; mrun;
      [reflexivity |].
    destruct (parent_id >=? to_u32 (num_parents c)); mrun; [reflexivity |].
    destruct (parent_ctrl_forbidden c); mrun; [reflexivity |].
    destruct (nonzero (next_init (inits w))) eqn:Hi; mrun; held_done Hi.
  - intros v. unfold scmi_clock_get_parent. mrun.
    destruct (nonzero (next_init (inits w))) eqn:Hi; mrun; held_done Hi.
  - intros atomic. unfold scmi_clock_enable, scmi_clock_disable.
    destruct (scmi_clock_domain_lookup ci clk_id) as [e | c]; mrun;
      [split; reflexivity |].
    destruct (state_ctrl_forbidden c); mrun; [split; reflexivity |].
    split; apply config_set_held.
  - intros enabled atomic. apply config_get_held.
  - intros oem_type oem_val atomic. apply config_set_held.
  - intros oem_type oem_val attributes atomic. apply config_get_held.
  - intros evt_id enable. unfold scmi_clk_set_notify_enabled.
    destruct (evt_id >=? Z.of_nat (length evt_2_cmd)); mrun; [reflexivity |].
    unfold scmi_clk_rate_notify. mrun.
    destruct (nonzero (next_init (inits w))) eqn:Hi; mrun; held_done Hi.
Qed.

Section IterHeld.
Variable ops : scmi_iterator_ops.
Hypothesis update_held : forall st resp p w,
  held (trace (snd (update_state ops st resp p w))) = held (trace w).

Lemma iter_loop_held (msg_id : Z) (fuel : nat) :
  forall st p w,
    held (trace (snd (iter_loop fuel ops msg_id st p w))) = held (trace w).
Proof.
  induction fuel as [| fuel IH]; intros st p w; cbn [iter_loop]; mrun;
    [reflexivity |].
  assert (Hx : forall t, held (trace w ++ [EvXfer t]) = held (trace w)).
  { intros t. rewrite held_app. cbn [held fold_right]. lia. }
  destruct (nonzero (status (next_reply (replies w)))); mrun; [apply Hx |].
  match goal with
  | |- context [update_state ops ?s ?r ?q ?v] =>
      pose proof (update_held s r q v) as Hu;
      destruct (update_state ops s r q v) as [[ru [st2 p2]] w2]
  end.
  cbn [fst snd trace] in *. rewrite Hx in Hu.
  destruct (nonzero ru); mrun; [exact Hu |].
  destruct (num_returned st2 >? to_u32 (max_resources st2 - desc_index st2));
    mrun; [exact Hu |].
  match goal with
  | |- context [iter_process ops ?r ?n ?s ?q] =>
      destruct (iter_process ops r n s q) as [rp [st3 p3]]
  end.
  cbn [fst snd].
  destruct (nonzero rp); mrun; [exact Hu |].
  match goal with
  | |- context [if ?b then _ else _] => destruct b
  end; mrun; [| exact Hu].
  rewrite IH. exact Hu.
Qed.

Lemma iter_response_held (max_res msg_id : Z) (p : scmi_clk_ipriv)
    (w : world) :
  match iter_response_init ops max_res msg_id p w with
  | (inl _, w1) => held (trace w1) = held (trace w)
  | (inr i, w1) =>
      held (trace (snd (iter_response_run i w1))) = held (trace w)
  end.
Proof.
  unfold iter_response_init. mrun.
  destruct (nonzero (next_init (inits w))) eqn:Hi; mrun;
    [apply held_failed_init; exact Hi |].
  unfold iter_response_run. mrun. cbn [iter_ops iter_msg_id iter_state
                                       iter_priv].
  match goal with
  | |- context [iter_loop ?f ops ?m ?s ?q ?v] =>
      pose proof (iter_loop_held m f s q v) as Hl;
      destruct (iter_loop f ops m s q v) as [x w2]
  end.
  cbn [fst snd trace] in *. mrun.
  rewrite held_app, Hl, held_app. cbn [held fold_right]. rewrite Hi. lia.
Qed.
End IterHeld.

Lemma possible_parents_held (clk_id : Z) (c : scmi_clock_info) (w : world) :
  held (trace (snd (scmi_clock_possible_parents clk_id c w)))
  = held (trace w).
Proof.
  unfold scmi_clock_possible_parents. mrun.
  pose proof (iter_response_held possible_parents_ops) as Hrun.
  specialize (Hrun ltac:(
    intros st resp p v; cbn [update_state possible_parents_ops];
    unfold iter_clk_possible_parents_update_state;
    match goal with
    | |- context [if ?b then _ else _] => destruct b
    end; mrun; [| reflexivity];
    destruct (negb (next_alloc (allocs v))); reflexivity)
    0 CLOCK_POSSIBLE_PARENTS_GET (mk_priv clk_id c) w).
  destruct (iter_response_init possible_parents_ops 0
              CLOCK_POSSIBLE_PARENTS_GET (mk_priv clk_id c) w)
    as [[e | i] w1]; mrun; [exact Hrun |].
  destruct (iter_response_run i w1) as [x w2]. exact Hrun.
Qed.

Lemma describe_rates_held (clk_id : Z) (c : scmi_clock_info) (w : world) :
  held (trace (snd (scmi_clock_describe_rates_get clk_id c w)))
  = held (trace w).
Proof.
  unfold scmi_clock_describe_rates_get. mrun.
  pose proof (iter_response_held describe_rates_ops) as Hrun.
  specialize (Hrun ltac:(intros st resp p v; reflexivity)
    SCMI_MAX_NUM_RATES CLOCK_DESCRIBE_RATES (mk_priv clk_id c) w).
  destruct (iter_response_init describe_rates_ops SCMI_MAX_NUM_RATES
              CLOCK_DESCRIBE_RATES (mk_priv clk_id c) w)
    as [[e | i] w1]; mrun; [exact Hrun |].
  destruct (iter_response_run i w1) as [[r p'] w2]. cbn [fst snd] in *.
  destruct (nonzero r); mrun; [exact Hrun |].
  destruct (negb (rate_discrete (priv_clk p'))); mrun; [exact Hrun |].
  destruct (nonzero (list_num_rates (priv_clk p'))); mrun; exact Hrun.
Qed.

Lemma extended_name_get_held (cmd_id res_id : Z) (nm : list Z) (len : nat)
    (w : world) :
  held (trace (snd (extended_name_get cmd_id res_id nm len w)))
  = held (trace w).
Proof.
  unfold extended_name_get. mrun.
  destruct (nonzero (next_init (inits w))) eqn:Hi; mrun; held_done Hi.
Qed.

Lemma get_permissions_held (clk_id : Z) (c : scmi_clock_info) (w : world) :
  held (trace (snd (scmi_clock_get_permissions clk_id c w)))
  = held (trace w).
Proof.
  unfold scmi_clock_get_permissions. mrun.
  destruct (nonzero (next_init (inits w))) eqn:Hi; mrun; held_done Hi.
Qed.

Lemma held_bind {A B : Type} (m : M A) (k : A -> M B) (w : world) :
  held (trace (snd (m w))) = held (trace w) ->
  (forall a w', held (trace (snd (k a w'))) = held (trace w')) ->
  held (trace (snd (bind m k w))) = held (trace w).
Proof.
  intros Hm Hk. unfold bind. destruct (m w) as [a w1]. cbn [snd] in Hm.
  rewrite Hk. exact Hm.
Qed.

Lemma attributes_refine_held (clk_id a : Z) (c : scmi_clock_info)
    (w : world) :
  held (trace (snd (attributes_refine clk_id a c w))) = held (trace w).
Proof.
  unfold attributes_refine. apply held_bind.
  { destruct (nonzero (SUPPORTS_EXTENDED_NAMES a)); [| reflexivity].
    apply held_bind; [apply extended_name_get_held | reflexivity]. }
  intros c1 w1. cbv zeta. apply held_bind.
  { destruct (nonzero (SUPPORTS_PARENT_CLOCK a)); [| reflexivity].
    apply held_bind; [apply possible_parents_held | reflexivity]. }
  intros c4 w4.
  destruct (nonzero (SUPPORTS_GET_PERMISSIONS a)); [| reflexivity].
  apply held_bind; [apply get_permissions_held | reflexivity].
Qed.

Lemma attributes_get_held (clk_id version : Z) (c : scmi_clock_info)
    (w : world) :
  held (trace (snd (scmi_clock_attributes_get clk_id c version w)))
  = held (trace w).
Proof.
  unfold scmi_clock_attributes_get.
  cbv beta iota zeta delta [bind xfer_get_init do_xfer xfer_put log].
  cbn [fst snd inits replies allocs privs trace hdr_id].
  destruct (nonzero (next_init (inits w))) eqn:Hi;
    [apply held_failed_init; exact Hi |].
  cbn [fst snd inits replies allocs privs trace hdr_id].
  match goal with
  | |- context [if ?b then _ else _] => destruct b
  end.
  - match goal with
    | |- context [attributes_refine ?i ?x ?d ?v] =>
        pose proof (attributes_refine_held i x d v) as Hr;
        destruct (attributes_refine i x d v) as [c2 w2]
    end.
    cbn [snd trace] in *. unfold ret. cbn [snd]. rewrite Hr.
    apply held_exchange. exact Hi.
  - unfold ret. cbn [snd trace]. apply held_exchange. exact Hi.
Qed.

Lemma init_domain_held (clkid version : Z) (c : scmi_clock_info)
    (w : world) :
  held (trace (snd (init_domain clkid version c w))) = held (trace w).
Proof.
  unfold init_domain. apply held_bind; [apply attributes_get_held |].
  intros x w1. destruct (nonzero (fst x)); [reflexivity |].
  apply held_bind; [apply describe_rates_held | reflexivity].
Qed.

Lemma init_domains_held (n : nat) :
  forall clkid version clks w,
    held (trace (snd (init_domains n clkid version clks w)))
    = held (trace w).
Proof.
  induction n as [| n IH]; intros clkid version clks w; cbn [init_domains];
    [reflexivity |].
  apply held_bind; [apply init_domain_held |].
  intros c' w1. apply IH.
Qed.

Lemma version_get_held (w : world) :
  held (trace (snd (version_get w))) = held (trace w).
Proof.
  unfold version_get. mrun.
  destruct (nonzero (next_init (inits w))) eqn:Hi; mrun; held_done Hi.
Qed.

Lemma protocol_attributes_get_held (n m : Z) (w : world) :
  held (trace (snd (scmi_clock_protocol_attributes_get n m w)))
  = held (trace w).
Proof.
  unfold scmi_clock_protocol_attributes_get. mrun.
  destruct (nonzero (next_init (inits w))) eqn:Hi; mrun; held_done Hi.
Qed.

Lemma devm_alloc_held (w : world) :
  held (trace (snd (devm_alloc w))) = held (trace w).
Proof. reflexivity. Qed.

(** X15.  Initialisation keeps no transfer either: whatever the firmware
    answers, however many domains it announces and whichever step fails,
    once [protocol_init] has returned every transfer it obtained has been
    released, the one of the version query, the one of the protocol
    attributes and those of each per-domain command and enumeration. *)
Theorem protocol_init_releases_transfers (w : world) :
  held (trace (snd (scmi_clock_protocol_init w))) = held (trace w).
Proof.
  unfold scmi_clock_protocol_init.
  apply held_bind; [apply version_get_held |].
  intros v w1. destruct (nonzero (fst v)); [reflexivity |].
  cbv zeta. apply held_bind; [apply devm_alloc_held |].
  intros ok w2. destruct (negb ok); [reflexivity |].
  apply held_bind; [apply protocol_attributes_get_held |].
  intros a w3. destruct (nonzero (fst a)); [reflexivity |].
  apply held_bind; [apply devm_alloc_held |].
  intros ok' w4. destruct (negb ok'); [reflexivity |].
  apply held_bind; [apply init_domains_held | reflexivity].
Qed.

(** ** The result of a rate change *)

(** X16.  What [rate_set] returns once the request is on the wire.  A
    transport failure is returned as it is on both paths, and success is
    reported only when the transport succeeded.  [-EPROTO] is produced by
    the operation itself in one case only: the asynchronous path was taken,
    the delayed response arrived with success and the domain id it echoes
    is not the one asked for.  A firmware that announces no asynchronous
    requests ([max_async_req] zero) always gets a synchronous request with
    a zero flags word, the transport status back, and the admission
    counter is not touched. *)
Theorem rate_set_result (ci : clock_info) (clk_id rate : Z) (w : world)
    (c : scmi_clock_info)
    (Hl : scmi_clock_domain_lookup ci clk_id = inr c)
    (Hperm : rate_ctrl_forbidden c = false)
    (Hinit : next_init (inits w) = 0) :
  let res := scmi_clock_rate_set ci clk_id rate w in
  let rp := next_reply (replies w) in
  (status rp <> 0 -> fst (fst res) = status rp)
  /\ (fst (fst res) = 0 -> status rp = 0)
  /\ (fst (fst res) = - EPROTO ->
      status rp = - EPROTO
      \/ (status rp = 0
          /\ fst (rate_set_flags ci) = CLOCK_SET_ASYNC
          /\ get_unaligned_le32 (rx_buf rp) 0 <> clk_id))
  /\ (max_async_req ci = 0 ->
      fst res = (status rp, ci)
      /\ sent (trace (snd res))
         = sent (trace w) ++ [rate_set_message 0 clk_id rate]).
Proof.
  cbv zeta.
  destruct (rate_set_reaches_xfer ci clk_id rate w c Hl Hperm Hinit)
    as (Hci & Hsent & Hret).
  cbv zeta in Hci, Hsent, Hret.
  set (res := scmi_clock_rate_set ci clk_id rate w) in *.
  set (rp := next_reply (replies w)) in *.
  assert (Hnz : nonzero (status rp) = negb (status rp =? 0)) by reflexivity.
  split; [| split; [| split]].
  - intros Hs. rewrite Hret.
    destruct (Z.eqb_spec (status rp) 0) as [Hz | _]; [contradiction |].
    rewrite Hnz. cbn [negb].
    destruct (nonzero (Z.land (fst (rate_set_flags ci)) CLOCK_SET_ASYNC));
      reflexivity.
  - rewrite Hret, Hnz.
    destruct (nonzero (Z.land (fst (rate_set_flags ci)) CLOCK_SET_ASYNC));
      [| intros H; exact H].
    destruct (Z.eqb_spec (status rp) 0) as [Hz | Hz]; cbn [negb];
      [intros _; exact Hz | intros H; exact H].
  - rewrite Hret, Hnz.
    destruct (rate_set_flags_cases ci) as [Hf | Hf]; rewrite Hf.
    + change (nonzero (Z.land 0 CLOCK_SET_ASYNC)) with false. cbv iota.
      intros H. left. exact H.
    + change (nonzero (Z.land CLOCK_SET_ASYNC CLOCK_SET_ASYNC)) with true.
      cbv iota.
      destruct (Z.eqb_spec (status rp) 0) as [Hz | Hz]; cbn [negb];
        [| intros H; left; exact H].
      destruct (Z.eqb_spec (get_unaligned_le32 (rx_buf rp) 0) clk_id)
        as [He | He]; [intros H; discriminate H |].
      intros _. right. split; [exact Hz |]. split; [reflexivity | exact He].
  - intros Hmax.
    assert (Hflags : rate_set_flags ci = (0, ci)).
    { unfold rate_set_flags. rewrite Hmax. reflexivity. }
    assert (Hdone : rate_set_done ci = ci).
    { unfold rate_set_done. rewrite Hmax. reflexivity. }
    rewrite Hflags in Hci, Hsent, Hret. cbn [fst snd] in Hci, Hsent, Hret.
    change (nonzero (Z.land 0 CLOCK_SET_ASYNC)) with false in Hsent, Hret.
    cbv iota in Hret. rewrite Hdone in Hci.
    split; [| exact Hsent].
    destruct (fst res) as [r ci']. cbn [fst snd] in Hci, Hret.
    rewrite Hci, Hret. reflexivity.
Qed.

(** A firmware that allows two pending asynchronous requests and answers
    the rate change of domain 0 with a delayed response that echoes
    domain 1. *)
Lemma rate_set_result_witness :
  let w := mk_world [] [mk_reply 0 (put_unaligned_le32 1)] [] [] [] in
  (status (next_reply (replies w)) = - EPROTO
   \/ (status (next_reply (replies w)) = 0
       /\ fst (rate_set_flags (ci_max_async 2)) = CLOCK_SET_ASYNC
       /\ get_unaligned_le32 (rx_buf (next_reply (replies w))) 0 <> 0))
  /\ fst (scmi_clock_rate_set (ci_max_async 0) 0 1000 w_one_ok)
     = (0, ci_max_async 0).
Proof.
  cbv zeta.
  destruct (rate_set_result (ci_max_async 2) 0 1000
              (mk_world [] [mk_reply 0 (put_unaligned_le32 1)] [] [] [])
              clk_two_parents eq_refl eq_refl eq_refl)
    as (_ & _ & Hproto & _).
  destruct (rate_set_result (ci_max_async 0) 0 1000 w_one_ok clk_two_parents
              eq_refl eq_refl eq_refl) as (_ & _ & _ & Hsync).
  split; [apply Hproto; reflexivity |].
  destruct (Hsync eq_refl) as [Hres _]. exact Hres.
Defined.

(** ** The outcome of initialisation *)

(** The straight-line part of initialisation, one test after the other. *)

(** Nothing but [set_priv] takes an outcome off its script. *)
Lemma privs_bind {A B : Type} (m : M A) (k : A -> M B) (w : world) :
  privs (snd (m w)) = privs w ->
  (forall a w', privs (snd (k a w')) = privs w') ->
  privs (snd (bind m k w)) = privs w.
Proof.
  intros Hm Hk. unfold bind. destruct (m w) as [a w1]. cbn [snd] in Hm.
  rewrite Hk. exact Hm.
Qed.

(** Walks through a computation built from the transport primitives. *)
Ltac privs_walk :=
  repeat first
    [ reflexivity
    | apply privs_bind
    | progress intros
    | progress cbv zeta
    | match goal with
      | |- context [if ?b then _ else _] => destruct b
      end ].

Lemma iter_loop_privs (ops : scmi_iterator_ops)
    (Hupd : forall st resp p w,
       privs (snd (update_state ops st resp p w)) = privs w)
    (msg_id : Z) (fuel : nat) :
  forall st p w,
    privs (snd (iter_loop fuel ops msg_id st p w)) = privs w.
Proof.
  induction fuel as [| fuel IH]; intros st p w; cbn [iter_loop];
    [reflexivity |].
  cbv zeta. apply privs_bind; [reflexivity |]. intros rp w1.
  destruct (nonzero (status rp)); [reflexivity |].
  apply privs_bind; [apply Hupd |]. intros u w2.
  repeat match goal with
  | |- context [if ?b then _ else _] => destruct b
  end; try reflexivity; apply IH.
Qed.

Lemma iter_response_run_privs (i : scmi_iterator)
    (Hupd : forall st resp p w,
       privs (snd (update_state (iter_ops i) st resp p w)) = privs w)
    (w : world) :
  privs (snd (iter_response_run i w)) = privs w.
Proof.
  unfold iter_response_run.
  apply privs_bind; [apply iter_loop_privs; exact Hupd |]. privs_walk.
Qed.

Lemma iter_response_privs (ops : scmi_iterator_ops)
    (Hupd : forall st resp p w,
       privs (snd (update_state ops st resp p w)) = privs w)
    (max_res msg_id : Z) (p : scmi_clk_ipriv) (w : world) :
  match iter_response_init ops max_res msg_id p w with
  | (inl _, w1) => privs w1 = privs w
  | (inr i, w1) => privs (snd (iter_response_run i w1)) = privs w
  end.
Proof.
  unfold iter_response_init. mrun.
  destruct (nonzero (next_init (inits w))); mrun; [reflexivity |].
  rewrite iter_response_run_privs by exact Hupd. reflexivity.
Qed.

Lemma possible_parents_privs (clk_id : Z) (c : scmi_clock_info) (w : world) :
  privs (snd (scmi_clock_possible_parents clk_id c w)) = privs w.
Proof.
  unfold scmi_clock_possible_parents. mrun.
  pose proof (iter_response_privs possible_parents_ops) as Hrun.
  specialize (Hrun ltac:(
    intros st resp p v; cbn [update_state possible_parents_ops];
    unfold iter_clk_possible_parents_update_state; privs_walk)
    0 CLOCK_POSSIBLE_PARENTS_GET (mk_priv clk_id c) w).
  destruct (iter_response_init possible_parents_ops 0
              CLOCK_POSSIBLE_PARENTS_GET (mk_priv clk_id c) w)
    as [[e | i] w1]; mrun; [exact Hrun |].
  destruct (iter_response_run i w1) as [x w2]. exact Hrun.
Qed.

Lemma describe_rates_privs (clk_id : Z) (c : scmi_clock_info) (w : world) :
  privs (snd (scmi_clock_describe_rates_get clk_id c w)) = privs w.
Proof.
  unfold scmi_clock_describe_rates_get. mrun.
  pose proof (iter_response_privs describe_rates_ops) as Hrun.
  specialize (Hrun ltac:(intros st resp p v; reflexivity)
    SCMI_MAX_NUM_RATES CLOCK_DESCRIBE_RATES (mk_priv clk_id c) w).
  destruct (iter_response_init describe_rates_ops SCMI_MAX_NUM_RATES
              CLOCK_DESCRIBE_RATES (mk_priv clk_id c) w)
    as [[e | i] w1]; mrun; [exact Hrun |].
  destruct (iter_response_run i w1) as [[r p'] w2]. cbn [fst snd] in *.
  destruct (nonzero r); mrun; [exact Hrun |].
  destruct (negb (rate_discrete (priv_clk p'))); mrun; [exact Hrun |].
  destruct (nonzero (list_num_rates (priv_clk p'))); mrun; exact Hrun.
Qed.

Lemma attributes_get_privs (clk_id version : Z) (c : scmi_clock_info)
    (w : world) :
  privs (snd (scmi_clock_attributes_get clk_id c version w)) = privs w.
Proof.
  unfold scmi_clock_attributes_get.
  apply privs_bind; [reflexivity |]. intros r w1.
  destruct (nonzero r); [reflexivity |]. cbv zeta.
  apply privs_bind; [reflexivity |]. intros rp w2.
  apply privs_bind; [reflexivity |]. intros _ w3.
  match goal with
  | |- context [if ?b then _ else _] => destruct b
  end; [| reflexivity].
  apply privs_bind; [| reflexivity].
  unfold attributes_refine. apply privs_bind.
  { destruct (nonzero (SUPPORTS_EXTENDED_NAMES _)); [| reflexivity].
    apply privs_bind; [| reflexivity].
    unfold extended_name_get. privs_walk. }
  intros c1 w4. cbv zeta. apply privs_bind.
  { destruct (nonzero (SUPPORTS_PARENT_CLOCK _)); [| reflexivity].
    apply privs_bind; [apply possible_parents_privs | reflexivity]. }
  intros c4 w5.
  destruct (nonzero (SUPPORTS_GET_PERMISSIONS _)); [| reflexivity].
  apply privs_bind; [| reflexivity].
  unfold scmi_clock_get_permissions. privs_walk.
Qed.

Lemma init_domains_privs (n : nat) :
  forall clkid version clks w,
    privs (snd (init_domains n clkid version clks w)) = privs w.
Proof.
  induction n as [| n IH]; intros clkid version clks w; cbn [init_domains];
    [reflexivity |].
  cbv zeta. apply privs_bind; [| intros c' w1; apply IH].
  unfold init_domain. apply privs_bind; [apply attributes_get_privs |].
  intros x w1. destruct (nonzero (fst x)); [reflexivity |].
  apply privs_bind; [apply describe_rates_privs | reflexivity].
Qed.

(** The straight-line part of initialisation, one test after the other. *)
Lemma protocol_init_steps (w : world) :
  let v := version_get w in
  let w1 := snd v in
  let rp := next_reply (replies w1) in
  let r := next_init (privs w) in
  exists clks,
    fst (scmi_clock_protocol_init w)
    = if nonzero (fst (fst v)) then (fst (fst v), None)
      else if negb (next_alloc (allocs w1)) then (- ENOMEM, None)
      else if nonzero (next_init (inits w1))
           then (next_init (inits w1), None)
      else if nonzero (status rp) then (status rp, None)
      else if negb (next_alloc (tail (allocs w1))) then (- ENOMEM, None)
      else if nonzero r then (r, None)
      else (r, Some (mk_ci (snd (fst v))
                       (get_unaligned_le16 (rx_buf rp) 0)
                       (byte_at (rx_buf rp) 2) 0 clks
                       (fst (select_config (snd (fst v))))
                       (snd (select_config (snd (fst v)))))).
Proof.
  cbv zeta. unfold scmi_clock_protocol_init. mrun.
  assert (Hv : privs (snd (version_get w)) = privs w)
    by (unfold version_get; privs_walk).
  destruct (version_get w) as [[rv v] w1]. cbn [fst snd] in *.
  destruct (nonzero rv); mrun; [exists []; reflexivity |].
  destruct (negb (next_alloc (allocs w1))); mrun; [exists []; reflexivity |].
  unfold scmi_clock_protocol_attributes_get. mrun.
  destruct (nonzero (next_init (inits w1))) eqn:Hi; mrun; rewrite ?Hi; mrun;
    [exists []; reflexivity |].
  destruct (nonzero (status (next_reply (replies w1)))) eqn:Hs; mrun;
    rewrite ?Hs; mrun; [exists []; reflexivity |].
  destruct (negb (next_alloc (tail (allocs w1)))); mrun;
    [exists []; reflexivity |].
  match goal with
  | |- context [init_domains ?n ?i ?ver ?cl ?x] =>
      pose proof (init_domains_privs n i ver cl x) as Hp;
      destruct (init_domains n i ver cl x) as [clks w4]
  end.
  cbn [snd privs] in Hp. rewrite Hp, Hv.
  exists clks. destruct (nonzero (next_init (privs w))); reflexivity.
Qed.

(** X17.  Initialisation fails in five ways only.  Four of them come
    before any domain is looked at: the version query fails, the table
    cannot be allocated, the protocol attributes cannot be fetched, or the
    array of domain records cannot be allocated; it then returns that error
    ([-ENOMEM] for the allocations).  The fifth comes last: [set_priv]
    refuses the table, and its error is returned.  No table is kept in
    either case.  Otherwise initialisation succeeds, whatever happens
    while the domains are discovered: the table holds the negotiated
    version, the domain count read from the low 16 bits of the attribute
    word, the bound on asynchronous requests read from its third byte, an
    idle admission counter, one record per announced domain, each with a
    parent count that agrees with its parent array. *)
Theorem protocol_init_outcome (w : world) :
  let v := version_get w in
  let w1 := snd v in
  let rp := next_reply (replies w1) in
  let res := fst (scmi_clock_protocol_init w) in
  (fst (fst v) <> 0 -> res = (fst (fst v), None))
  /\ (fst (fst v) = 0 ->
      (next_alloc (allocs w1) = false -> res = (- ENOMEM, None))
      /\ (next_alloc (allocs w1) = true ->
          (next_init (inits w1) <> 0 -> res = (next_init (inits w1), None))
          /\ (next_init (inits w1) = 0 ->
              (status rp <> 0 -> res = (status rp, None))
              /\ (status rp = 0 ->
                  (next_alloc (tail (allocs w1)) = false ->
                   res = (- ENOMEM, None))
                  /\ (next_alloc (tail (allocs w1)) = true ->
                      (next_init (privs w) <> 0 ->
                       res = (next_init (privs w), None))
                      /\ (next_init (privs w) = 0 ->
                          exists ci,
                            res = (0, Some ci)
                            /\ version ci = snd (fst v)
                            /\ num_clocks ci
                               = get_unaligned_le16 (rx_buf rp) 0
                            /\ max_async_req ci = byte_at (rx_buf rp) 2
                            /\ cur_async_req ci = 0
                            /\ Z.of_nat (length (clk ci)) = num_clocks ci
                            /\ Forall parents_wf (clk ci))))))).
Proof.
  cbv zeta.
  destruct (protocol_init_steps w) as [clks Hsteps]. cbv zeta in Hsteps.
  pose proof (protocol_init_well_formed w) as Hwf.
  set (res := fst (scmi_clock_protocol_init w)) in *.
  set (v := version_get w) in *. set (w1 := snd v) in *.
  set (rp := next_reply (replies w1)) in *.
  clearbody res.
  split.
  { intros Hrv. rewrite (nonzero_true _ Hrv) in Hsteps. exact Hsteps. }
  intros Hrv. rewrite Hrv in Hsteps. change (nonzero 0) with false in Hsteps.
  cbv iota in Hsteps. split.
  { intros Ha. rewrite Ha in Hsteps. exact Hsteps. }
  intros Ha. rewrite Ha in Hsteps. cbn [negb] in Hsteps. split.
  { intros Hi. rewrite (nonzero_true _ Hi) in Hsteps. exact Hsteps. }
  intros Hi. rewrite Hi in Hsteps. change (nonzero 0) with false in Hsteps.
  cbv iota in Hsteps. split.
  { intros Hs. rewrite (nonzero_true _ Hs) in Hsteps. exact Hsteps. }
  intros Hs. rewrite Hs in Hsteps. change (nonzero 0) with false in Hsteps.
  cbv iota in Hsteps. split.
  { intros Ha2. rewrite Ha2 in Hsteps. exact Hsteps. }
  intros Ha2. rewrite Ha2 in Hsteps. cbn [negb] in Hsteps. split.
  { intros Hp. rewrite (nonzero_true _ Hp) in Hsteps. exact Hsteps. }
  intros Hp. rewrite Hp in Hsteps. change (nonzero 0) with false in Hsteps.
  cbv iota in Hsteps.
  eexists. split; [exact Hsteps |].
  destruct (Hwf _ Hsteps) as (_ & _ & _ & Hlen & Hall & _).
  cbn [num_clocks clk version max_async_req cur_async_req] in *.
  repeat split; try reflexivity; assumption.
Qed.

Lemma protocol_init_outcome_witness :
  (exists ci,
     fst (scmi_clock_protocol_init w_init_one_domain) = (0, Some ci)
     /\ version ci = 0x20001
     /\ num_clocks ci = 1
     /\ max_async_req ci = 2
     /\ Z.of_nat (length (clk ci)) = num_clocks ci)
  /\ fst (scmi_clock_protocol_init w_init_refused) = (- EINVAL, None).
Proof.
  split.
  - destruct (protocol_init_outcome w_init_one_domain) as [_ Hok].
    destruct (Hok eq_refl) as [_ Hok1].
    destruct (Hok1 eq_refl) as [_ Hok2].
    destruct (Hok2 eq_refl) as [_ Hok3].
    destruct (Hok3 eq_refl) as [_ Hok4].
    destruct (Hok4 eq_refl) as [_ Hok5].
    destruct (Hok5 eq_refl)
      as (ci & Hres & Hver & Hn & Hmax & _ & Hlen & _).
    exists ci. repeat split; assumption.
  - destruct (protocol_init_outcome w_init_refused) as [_ Hok].
    destruct (Hok eq_refl) as [_ Hok1].
    destruct (Hok1 eq_refl) as [_ Hok2].
    destruct (Hok2 eq_refl) as [_ Hok3].
    destruct (Hok3 eq_refl) as [_ Hok4].
    destruct (Hok4 eq_refl) as [Hbad _].
    apply Hbad. vm_compute. discriminate.
Defined.

(** ** Parent enumeration *)

(** The parent ids of a page land at their absolute positions; the rest of
    the array is not touched. *)
Lemma parents_process (resp : list Z) (n : nat) :
  forall st p,
    0 <= desc_index st -> 0 <= loop_idx st ->
    desc_index st + loop_idx st + Z.of_nat n
      <= Z.of_nat (length (parents (priv_clk p))) ->
    Z.of_nat (length (parents (priv_clk p))) < 2 ^ 32 ->
    let res := iter_process possible_parents_ops resp n st p in
    let c' := priv_clk (snd (snd res)) in
    fst res = 0
    /\ priv_clk_id (snd (snd res)) = priv_clk_id p
    /\ num_parents c' = num_parents (priv_clk p)
    /\ length (parents c') = length (parents (priv_clk p))
    /\ take (Z.to_nat (desc_index st + loop_idx st) + n) (parents c')
       = take (Z.to_nat (desc_index st + loop_idx st))
              (parents (priv_clk p))
         ++ map (fun i => get_unaligned_le32 resp (4 + 4 * i))
                (seq (Z.to_nat (loop_idx st)) n)
    /\ drop (Z.to_nat (desc_index st + loop_idx st) + n) (parents c')
       = drop (Z.to_nat (desc_index st + loop_idx st) + n)
              (parents (priv_clk p)).
Proof.
  induction n as [| n IH]; intros st p Hdi Hli Hroom Hlen;
    cbn [iter_process].
  - cbn [fst snd seq map]. rewrite Nat.add_0_r, app_nil_r.
    repeat split; reflexivity.
  - cbn [process_response possible_parents_ops].
    unfold iter_clk_possible_parents_process_response.
    change (nonzero 0) with false. cbv iota.
    rewrite (to_u32_small (desc_index st + loop_idx st)) by lia.
    match goal with
    | |- context [iter_process _ _ n ?s ?q] =>
        pose proof (IH s q) as IH'
    end.
    cbn [priv_clk priv_clk_id parents num_parents set_parents desc_index
         loop_idx set_loop_idx] in IH'.
    rewrite length_insert in IH'.
    destruct IH' as (Hr & Hid & Hn & Hl & Ht & Hd); [lia | lia | lia | lia |].
    split; [exact Hr |]. split; [exact Hid |]. split; [exact Hn |].
    split; [exact Hl |].
    replace (Z.to_nat (desc_index st + loop_idx st) + S n)%nat
      with (Z.to_nat (desc_index st + (loop_idx st + 1)) + n)%nat by lia.
    split.
    + rewrite Ht.
      replace (Z.to_nat (desc_index st + (loop_idx st + 1)))
        with (S (Z.to_nat (desc_index st + loop_idx st))) by lia.
      rewrite take_insert_next by lia.
      rewrite <- app_assoc. cbn [seq map app].
      replace (Z.to_nat (loop_idx st + 1)) with (S (Z.to_nat (loop_idx st)))
        by lia.
      reflexivity.
    + rewrite Hd. apply drop_insert_lt. lia.
Qed.

Lemma parents_flags_range (x : Z) :
  0 <= x < 2 ^ 32 ->
  0 <= NUM_PARENTS_RETURNED x <= 255 /\ 0 <= NUM_PARENTS_REMAINING x <= 255.
Proof.
  intros Hx. unfold NUM_PARENTS_RETURNED, NUM_PARENTS_REMAINING. split.
  - assert (Hm : Z.land x 255 = x mod 2 ^ 8)
      by (change 255 with (Z.ones 8); apply Z.land_ones; lia).
    change 0xff with 255. rewrite Hm.
    pose proof (Z.mod_pos_bound x (2 ^ 8) ltac:(lia)).
    change (2 ^ 8) with 256 in *. lia.
  - rewrite Z.shiftr_div_pow2 by lia.
    assert (0 <= x / 2 ^ 24 < 2 ^ 8); [| lia].
    split; [apply Z.div_pos; lia |].
    apply Z.div_lt_upper_bound; lia.
Qed.

Lemma length_page_parents (rp : scmi_reply) :
  length (page_parents rp)
  = Z.to_nat (NUM_PARENTS_RETURNED (get_unaligned_le32 (rx_buf rp) 0)).
Proof. unfold page_parents. rewrite length_map, length_seq. reflexivity. Qed.

(** What decoding the flags of a page does, before the first allocation
    and after it. *)
Lemma parents_update_cases (st : scmi_iterator_state) (resp : list Z)
    (p : scmi_clk_ipriv) (w : world) :
  let flags := get_unaligned_le32 resp 0 in
  let n := NUM_PARENTS_RETURNED flags + NUM_PARENTS_REMAINING flags in
  let A := if max_resources st =? 0 then replicate (Z.to_nat n) 0
           else parents (priv_clk p) in
  let res := iter_clk_possible_parents_update_state st resp p w in
  let st2 := fst (snd (fst res)) in
  let p2 := snd (snd (fst res)) in
  (max_resources st <> 0 ->
   Z.of_nat (length (parents (priv_clk p))) = max_resources st) ->
  fst (fst res) = 0 ->
  trace (snd res) = trace w
  /\ replies (snd res) = replies w
  /\ num_returned st2 = NUM_PARENTS_RETURNED flags
  /\ num_remaining st2 = NUM_PARENTS_REMAINING flags
  /\ desc_index st2 = desc_index st
  /\ priv_clk_id p2 = priv_clk_id p
  /\ parents (priv_clk p2) = A
  /\ max_resources st2 = Z.of_nat (length A)
  /\ num_parents (priv_clk p2)
     = (if max_resources st =? 0 then n else num_parents (priv_clk p)).
Proof.
  cbv zeta. intros Hlen.
  unfold iter_clk_possible_parents_update_state. stsimpl.
  pose proof (get_unaligned_le32_range resp 0) as Hf.
  destruct (parents_flags_range _ Hf) as [Hr Hm].
  destruct (Z.eqb_spec (max_resources st) 0) as [Hz | Hnz].
  - assert (Hn : nonzero (max_resources st) = false)
      by (rewrite Hz; reflexivity).
    rewrite !Hn. cbn [negb]. mrun.
    destruct (next_alloc (allocs w)); cbn [negb]; mrun;
      [| intros H; discriminate H].
    intros _. stsimpl. cbn [parents num_parents set_parents].
    rewrite !to_u32_small by lia. rewrite length_replicate.
    repeat split; try reflexivity. lia.
  - rewrite !(nonzero_true _ Hnz). cbn [negb]. mrun.
    intros _. stsimpl. repeat split; try reflexivity.
    rewrite Hlen by exact Hnz. reflexivity.
Qed.

Lemma parents_loop (fuel : nat) :
  forall st p w,
    0 <= desc_index st ->
    (max_resources st = 0 /\ desc_index st = 0)
    \/ (0 < max_resources st < 2 ^ 32
        /\ desc_index st <= max_resources st
        /\ Z.of_nat (length (parents (priv_clk p))) = max_resources st) ->
    let res := iter_loop fuel possible_parents_ops CLOCK_POSSIBLE_PARENTS_GET
                 st p w in
    let c' := priv_clk (snd (fst res)) in
    fst (fst res) = 0 ->
    exists rp pages,
      replies w = (rp :: pages) ++ replies (snd res)
      /\ sent (trace (snd res))
         = sent (trace w)
           ++ parents_requests (priv_clk_id p) (desc_index st) (rp :: pages)
      /\ let A := if max_resources st =? 0
                  then replicate (Z.to_nat (parents_announced rp)) 0
                  else parents (priv_clk p) in
         let k := (Z.to_nat (desc_index st)
                   + length (received_parents (rp :: pages)))%nat in
         length (parents c') = length A
         /\ num_parents c'
            = (if max_resources st =? 0 then parents_announced rp
               else num_parents (priv_clk p))
         /\ (k <= length A)%nat
         /\ take k (parents c')
            = take (Z.to_nat (desc_index st)) A
              ++ received_parents (rp :: pages)
         /\ drop k (parents c') = drop k A.
Proof.
  induction fuel as [| fuel IH]; intros st p w Hd0 Hpre;
    cbv zeta; cbn [iter_loop].
  - mrun. intros H. discriminate H.
  - mrun. destruct (replies w) as [| rp rest] eqn:Hrep; cbn [next_reply tail].
    + change (nonzero (status timeout_reply)) with true. mrun.
      intros H. discriminate H.
    + destruct (nonzero (status rp)) eqn:Hst; mrun.
      { intros H. rewrite H in Hst. discriminate Hst. }
      cbn [update_state possible_parents_ops prepare_message].
      unfold iter_clk_possible_parents_prepare_message.
      set (t := mk_xfer CLOCK_POSSIBLE_PARENTS_GET _ false false).
      set (flags := get_unaligned_le32 (rx_buf rp) 0).
      pose proof (get_unaligned_le32_range (rx_buf rp) 0) as Hf.
      destruct (parents_flags_range _ Hf) as [HR HM]. fold flags in HR, HM.
      match goal with
      | |- context [iter_clk_possible_parents_update_state ?s ?r ?q ?v] =>
          pose proof (parents_update_cases s r q v) as Hu;
          destruct (iter_clk_possible_parents_update_state s r q v)
            as [[ru [st2 p2]] w2]
      end.
      cbv zeta in Hu. cbn [fst snd] in Hu. stsimpl_in Hu.
      cbn [trace replies] in Hu. fold flags in Hu.
      cbn [fst snd].
      destruct (nonzero ru) eqn:Hru; mrun.
      { intros H. rewrite H in Hru. discriminate Hru. }
      apply nonzero_false in Hru. subst ru.
      set (A := if max_resources st =? 0
                then replicate
                       (Z.to_nat (NUM_PARENTS_RETURNED flags
                                  + NUM_PARENTS_REMAINING flags)) 0
                else parents (priv_clk p)) in *.
      destruct Hu as (Htr & Hrp & Hret & Hrem & Hdi & Hid & HA & Hmx & Hnp);
        [destruct Hpre as [[Hz _] | (_ & _ & Hl)]; [intros H; contradiction
                                                    | intros _; exact Hl]
        | reflexivity |].
      assert (HlenA : Z.of_nat (length A) < 2 ^ 32
                      /\ desc_index st <= Z.of_nat (length A)).
      { subst A. destruct Hpre as [[Hz Hdz] | (Hm & Hle & Hl)].
        - rewrite Hz. change (0 =? 0) with true. cbv iota.
          rewrite length_replicate. lia.
        - destruct (Z.eqb_spec (max_resources st) 0); [lia |]. lia. }
      destruct HlenA as [HA32 HdA].
      rewrite Hret, Hmx, Hdi.
      rewrite (to_u32_small (Z.of_nat (length A) - desc_index st)) by lia.
      destruct (Z.gtb_spec (NUM_PARENTS_RETURNED flags)
                  (Z.of_nat (length A) - desc_index st))
        as [Hover | Hroom]; mrun; [intros H; discriminate H |].
      match goal with
      | |- context [iter_process possible_parents_ops ?r ?n ?s ?q] =>
          pose proof (parents_process r n s q) as Hproc;
          pose proof (iter_process_state possible_parents_ops r n s q)
            as Hstate;
          destruct (iter_process possible_parents_ops r n s q)
            as [r3 [st3 p3]]
      end.
      cbv zeta in Hproc, Hstate. cbn [fst snd] in Hproc, Hstate.
      stsimpl_in Hproc. stsimpl_in Hstate.
      rewrite HA, Hdi, Hid, Hnp in Hproc.
      rewrite Hdi, Hret, Hrem, Hmx in Hstate.
      destruct Hstate as (Hd3 & Hret3 & Hrem3 & Hmx3).
      destruct Hproc as (Hr3 & Hid3 & Hn3 & Hl3 & Ht3 & Hdr3);
        [lia | lia | lia | exact HA32 |].
      rewrite Z.add_0_r in Ht3, Hdr3.
      cbn [fst snd]. subst r3. change (nonzero 0) with false. cbv iota.
      stsimpl. rewrite Hd3, Hret3, Hrem3, Hmx3.
      rewrite (to_u32_small (desc_index st + NUM_PARENTS_RETURNED flags))
        by lia.
      assert (Hpage : page_parents rp
                      = map (fun i => get_unaligned_le32 (rx_buf rp) (4 + 4 * i))
                            (seq (Z.to_nat 0)
                                 (Z.to_nat (NUM_PARENTS_RETURNED flags))))
        by reflexivity.
      assert (Hann : parents_announced rp
                     = NUM_PARENTS_RETURNED flags
                       + NUM_PARENTS_REMAINING flags) by reflexivity.
      assert (Hsent1 : sent (trace w2) = sent (trace w) ++ [t]).
      { rewrite Htr, sent_app. reflexivity. }
      destruct (nonzero (NUM_PARENTS_REMAINING flags)
                && (desc_index st + NUM_PARENTS_RETURNED flags
                    <? Z.of_nat (length A))) eqn:Hcont; mrun.
      * apply andb_prop in Hcont. destruct Hcont as [_ Hlt].
        apply Z.ltb_lt in Hlt.
        match goal with
        | |- context [iter_loop fuel _ _ ?s ?q ?v] =>
            pose proof (IH s q v) as IH';
            set (X := iter_loop fuel possible_parents_ops
                        CLOCK_POSSIBLE_PARENTS_GET s q v) in *
        end.
        cbv zeta in IH'. stsimpl_in IH'. rewrite Hmx3 in IH'.
        intros H0.
        destruct IH' as (rp' & pages' & Hp1 & Hp2 & Hp3 & Hp4 & Hp5 & Hp6
                         & Hp7);
          [lia | right; rewrite Hl3; lia | exact H0 |].
        assert (Hnz : (Z.of_nat (length A) =? 0) = false)
          by (apply Z.eqb_neq; lia).
        rewrite Hnz in Hp3, Hp4, Hp5, Hp6, Hp7.
        exists rp, (rp' :: pages').
        split; [cbn [app]; f_equal; rewrite <- Hrp; exact Hp1 |].
        split.
        { rewrite Hp2, Hsent1, <- app_assoc, Hid3. reflexivity. }
        cbv zeta. rewrite Hann. fold A.
        change (received_parents (rp :: rp' :: pages'))
          with (page_parents rp ++ received_parents (rp' :: pages')).
        rewrite length_app, length_page_parents. fold flags.
        replace (Z.to_nat (desc_index st)
                 + (Z.to_nat (NUM_PARENTS_RETURNED flags)
                    + length (received_parents (rp' :: pages'))))%nat
          with (Z.to_nat (desc_index st + NUM_PARENTS_RETURNED flags)
                + length (received_parents (rp' :: pages')))%nat by lia.
        split; [rewrite Hp3; exact Hl3 |].
        split; [rewrite Hp4, Hn3; reflexivity |].
        split; [rewrite <- Hl3; exact Hp5 |].
        split.
        { rewrite Hp6, app_assoc. f_equal. rewrite Hpage, <- Ht3.
          f_equal. lia. }
        rewrite Hp7.
        replace (Z.to_nat (desc_index st + NUM_PARENTS_RETURNED flags)
                 + length (received_parents (rp' :: pages')))%nat
          with (Z.to_nat (desc_index st)
                + Z.to_nat (NUM_PARENTS_RETURNED flags)
                + length (received_parents (rp' :: pages')))%nat by lia.
        set (K := (Z.to_nat (desc_index st)
                   + Z.to_nat (NUM_PARENTS_RETURNED flags))%nat) in *.
        rewrite <- !(drop_drop _ (length (received_parents (rp' :: pages')))
                       K).
        f_equal. exact Hdr3.
      * intros _. exists rp, [].
        split; [cbn [app]; f_equal; symmetry; exact Hrp |].
        split; [rewrite Hsent1; reflexivity |].
        cbv zeta. rewrite Hann. fold A.
        change (received_parents [rp]) with (page_parents rp ++ []).
        rewrite app_nil_r, length_page_parents. fold flags.
        split; [exact Hl3 |]. split; [exact Hn3 |]. split; [lia |].
        split; [rewrite Hpage; exact Ht3 | exact Hdr3].
Qed.

(** X18.  A successful parent enumeration of a domain.  The parent count is
    what the first reply announces, the parents it returns plus those it
    says remain, and the parent array has that many entries.  The ids of
    the replies the enumeration consumed fill the array from the start in
    the order received, and what the firmware did not deliver stays zero.
    Each request names the domain and resumes at the number of parents
    received so far.  Nothing else in the record changes. *)
Theorem parents_enumerated (clk_id : Z) (c : scmi_clock_info) (w : world) :
  let res := scmi_clock_possible_parents clk_id c w in
  let c' := snd (fst res) in
  fst (fst res) = 0 ->
  exists rp pages,
    consumed w (snd res) = rp :: pages
    /\ sent (trace (snd res))
       = sent (trace w) ++ parents_requests clk_id 0 (rp :: pages)
    /\ num_parents c' = parents_announced rp
    /\ Z.of_nat (length (parents c')) = num_parents c'
    /\ parents c'
       = received_parents (rp :: pages)
         ++ replicate (length (parents c')
                       - length (received_parents (rp :: pages))) 0
    /\ c' = set_parents (num_parents c') (parents c') c.
Proof.
  cbv zeta.
  destruct (possible_parents_spec clk_id c w) as [_ (n0 & ps0 & Hshape)].
  revert Hshape.
  unfold scmi_clock_possible_parents, iter_response_init. mrun.
  destruct (nonzero (next_init (inits w))) eqn:Hinit; mrun.
  { intros _ H. rewrite H in Hinit. discriminate Hinit. }
  unfold iter_response_run. mrun.
  cbn [iter_msg_id iter_ops iter_state iter_priv].
  match goal with
  | |- context [iter_loop ?f ?o ?m ?s ?q ?v] =>
      pose proof (parents_loop f s q v) as Hloop;
      destruct (iter_loop f o m s q v) as [[r p'] w'] eqn:Hrun
  end.
  cbv zeta in Hloop. stsimpl_in Hloop. cbn [fst snd] in Hloop.
  cbn [replies trace] in Hloop.
  specialize (Hloop ltac:(lia) ltac:(left; split; reflexivity)).
  mrun. intros Hshape Hr. subst r.
  destruct (Hloop eq_refl)
    as (rp & pages & Hp1 & Hp2 & Hlen & Hnum & Hk & Htake & Hdrop).
  change (0 =? 0) with true in Hlen, Hnum, Hk, Htake, Hdrop.
  cbv iota in Hlen, Hnum, Hk, Htake, Hdrop.
  change (Z.to_nat 0) with 0%nat in Hk, Htake, Hdrop.
  rewrite take_0 in Htake. cbn [Nat.add app] in Hk, Htake, Hdrop.
  rewrite length_replicate in Hlen, Hk.
  rewrite drop_replicate in Hdrop.
  assert (Hann : 0 <= parents_announced rp).
  { unfold parents_announced.
    destruct (parents_flags_range _
                (get_unaligned_le32_range (rx_buf rp) 0)). lia. }
  exists rp, pages.
  split; [apply consumed_prefix; exact Hp1 |].
  split.
  { rewrite sent_app, Hp2, sent_app. cbn [sent omap]. rewrite !app_nil_r.
    reflexivity. }
  split; [exact Hnum |].
  split; [rewrite Hlen, Hnum; lia |].
  split.
  { rewrite <- (take_drop (length (received_parents (rp :: pages)))
                  (parents (priv_clk p'))) at 1.
    rewrite Htake, Hdrop, Hlen. reflexivity. }
  rewrite Hshape. reflexivity.
Qed.

Lemma parents_enumerated_witness :
  exists rp pages,
    consumed w_parent_pages
      (snd (scmi_clock_possible_parents 0 clk_zero w_parent_pages))
      = rp :: pages
    /\ num_parents
         (snd (fst (scmi_clock_possible_parents 0 clk_zero w_parent_pages)))
       = parents_announced rp
    /\ parents
         (snd (fst (scmi_clock_possible_parents 0 clk_zero w_parent_pages)))
       = received_parents (rp :: pages)
         ++ replicate
              (length
                 (parents
                    (snd (fst (scmi_clock_possible_parents 0 clk_zero
                                 w_parent_pages))))
               - length (received_parents (rp :: pages))) 0.
Proof.
  destruct (parents_enumerated 0 clk_zero w_parent_pages eq_refl)
    as (rp & pages & Hcons & _ & Hnum & _ & Hpar & _).
  exists rp, pages. split; [exact Hcons |]. split; [exact Hnum | exact Hpar].
Defined.

Example parent_pages_collected :
  parents (snd (fst (scmi_clock_possible_parents 0 clk_zero w_parent_pages)))
  = [7; 9; 4].
Proof. vm_compute. reflexivity. Qed.

(** ** Event sources *)

(** X19.  The number of event sources is the domain count of the table.
    After a successful initialisation it lies between 0 and 65535, so it
    is never mistaken for the [-EINVAL] that [get_num_sources] returns
    while the protocol has no table, and it is what [count_get] reports. *)
Theorem num_sources_after_init (w : world) (ci : clock_info)
    (Hinit : fst (scmi_clock_protocol_init w) = (0, Some ci)) :
  scmi_clk_get_num_sources (snd (fst (scmi_clock_protocol_init w)))
    = scmi_clock_count_get ci
  /\ 0 <= scmi_clk_get_num_sources (snd (fst (scmi_clock_protocol_init w)))
       < 2 ^ 16
  /\ scmi_clk_get_num_sources None = - EINVAL
  /\ Z.of_nat (length (clk ci)) = scmi_clock_count_get ci.
Proof.
  destruct (protocol_init_well_formed w ci Hinit) as (Hn & _ & _ & Hlen & _).
  rewrite Hinit. cbn [fst snd scmi_clk_get_num_sources].
  unfold scmi_clock_count_get.
  split; [reflexivity |]. split; [exact Hn |].
  split; [reflexivity | exact Hlen].
Qed.

Lemma num_sources_after_init_witness :
  scmi_clk_get_num_sources
    (snd (fst (scmi_clock_protocol_init w_init_one_domain))) = 1
  /\ 0 <= scmi_clk_get_num_sources
            (snd (fst (scmi_clock_protocol_init w_init_one_domain))) < 2 ^ 16.
Proof.
  assert (Hinit : exists ci,
            fst (scmi_clock_protocol_init w_init_one_domain) = (0, Some ci)
            /\ scmi_clock_count_get ci = 1)
    by (eexists; vm_compute; split; reflexivity).
  destruct Hinit as (ci & Hinit & Hn).
  destruct (num_sources_after_init w_init_one_domain ci Hinit)
    as (Hcount & Hrange & _).
  split; [rewrite Hcount; exact Hn | exact Hrange].
Defined.

(** ** A continuous range after rates *)

(** X21.  A continuous range is accepted only at the start of an
    enumeration.  When a round of the rate enumeration that resumes past
    index 0 (rates were already received) gets a reply flagged as a
    continuous range that [update_state] lets through (nothing remaining,
    and three entries announced or the payload size of a triplet), the
    enumeration fails with [-EINVAL]: the triplet would land in the default
    case of the switch, or does not fit what is left of the cap. *)
Theorem continuous_reply_late_refused (fuel : nat)
    (st : scmi_iterator_state) (p : scmi_clk_ipriv) (w : world)
    (rp : scmi_reply) (rest : list scmi_reply)
    (Hrep : replies w = rp :: rest)
    (Hok : status rp = 0)
    (Hcont : RATE_DISCRETE (get_unaligned_le32 (rx_buf rp) 0) = false)
    (Hrem : NUM_REMAINING (get_unaligned_le32 (rx_buf rp) 0) = 0)
    (Hthree : NUM_RETURNED (get_unaligned_le32 (rx_buf rp) 0) = 3
              \/ Z.of_nat (length (rx_buf rp)) = describe_rates_triplet_len)
    (Hmax : max_resources st = SCMI_MAX_NUM_RATES)
    (Hdi : 0 < desc_index st <= SCMI_MAX_NUM_RATES) :
  fst (fst (iter_loop (S fuel) describe_rates_ops CLOCK_DESCRIBE_RATES
              st p w)) = - EINVAL.
Proof.
  unfold SCMI_MAX_NUM_RATES in *. cbn [iter_loop]. mrun.
  rewrite Hrep. cbn [next_reply tail]. rewrite Hok.
  change (nonzero 0) with false. mrun.
  cbn [update_state describe_rates_ops]. mrun.
  match goal with
  | |- context [iter_clk_describe_update_state ?s ?r ?q] =>
      destruct (describe_update_cases s r q)
        as [(Hdsc & Hu) | [(Hdsc & Hbad & Hu) | (Hdsc & Hr0 & Hq & Hu)]];
      rewrite Hu; clear Hu
  end.
  - rewrite Hcont in Hdsc. discriminate Hdsc.
  - exfalso. stsimpl_in Hbad. destruct Hbad as [Hb | [Hb1 Hb2]];
      [contradiction |]. destruct Hthree; contradiction.
  - mrun. change (nonzero 0) with false. cbv iota. stsimpl.
    rewrite Hmax. rewrite to_u32_small by lia.
    destruct (Z.gtb_spec 3 (16 - desc_index st)) as [Hover | Hroom]; mrun;
      [reflexivity |].
    change (Z.to_nat 3) with 3%nat.
    match goal with
    | |- context [iter_process describe_rates_ops ?r 3 (set_loop_idx 0 ?s) ?q] =>
        pose proof (describe_process_continuous_late r s q) as Hlate;
        destruct (iter_process describe_rates_ops r 3 (set_loop_idx 0 s) q)
          as [r3 [st3 p3]]
    end.
    cbn [fst snd] in *. stsimpl_in Hlate.
    cbn [rate_discrete set_rate_discrete] in Hlate.
    rewrite (Hlate eq_refl ltac:(lia)).
    change (nonzero (- EINVAL)) with true. mrun. reflexivity.
Qed.

(** A run that holds one rate already and is answered with a continuous
    triplet. *)
Lemma continuous_reply_late_refused_witness :
  fst (fst (iter_loop 1 describe_rates_ops CLOCK_DESCRIBE_RATES
              (mk_st 1 0 0 SCMI_MAX_NUM_RATES 0 0) (mk_priv 0 clk_zero)
              (w_triplet 3))) = - EINVAL.
Proof.
  apply (continuous_reply_late_refused 0 _ _ (w_triplet 3)
           (rates_reply (Z.lor 3 (BIT 12)) [100; 200; 10]) []);
    try reflexivity.
  - left. reflexivity.
  - cbn. unfold SCMI_MAX_NUM_RATES. lia.
Defined.
